(** * Connectivity graph viewer: builder, label cache and view controller

    A shallow embedding of [graph.ts] (classes [ConnectivityGraph] and
    [CytoscapeGraph], functions [trimLabel] and [capitalizeLabels]) and of
    [index.ts] (class [App]), followed by the properties established for
    them.

    Conventions of the embedding.
    - A JavaScript string is a [string]; each [ascii] stands for one code
      unit below 256 (the Latin-1 range).
    - A method that may throw is a function into [outcome]; a method that
      mutates its object takes the object and returns the new one, also when
      it throws (JavaScript does not roll assignments back).
    - [await] is sequencing: a handler runs to its end before the next one
      starts.
    - A value received as JSON has the shape of its TypeScript type, with
      every property optional: [None] is a property that is absent (reading
      it yields [undefined]). The text of a JSON document is given by what
      parsing makes of it: a failure, [null], or a value.
    - The drawing engine and the servers are outside: the calls made to the
      engine are recorded in the page, and the responses of the servers are
      a parameter. *)

From Stdlib Require Import String Ascii List ZArith Bool Lia.
From Stdlib Require QArith.
From stdpp Require Import base option list gmap strings.

Open Scope string_scope.
Open Scope list_scope.

(* ===================================================================== *)
(** * Part I. Definitions *)
(* ===================================================================== *)

(** ** Exceptions and the state-and-exception monad *)

Inductive error : Type :=
| TypeError (message : string)
| SyntaxError (message : string).

Inductive outcome (A : Type) : Type :=
| Returns (value : A)
| Throws (e : error).
Arguments Returns {A} value.
Arguments Throws {A} e.

(** A computation over a mutable state [S]: the state reached is returned in
    both cases. *)
Definition M (S A : Type) : Type := S -> outcome A * S.

Definition ret {S A : Type} (a : A) : M S A := fun s => (Returns a, s).

Definition throw {S A : Type} (e : error) : M S A := fun s => (Throws e, s).

Definition bind {S A B : Type} (m : M S A) (k : A -> M S B) : M S B :=
  fun s =>
    match m s with
    | (Returns a, s') => k a s'
    | (Throws e, s') => (Throws e, s')
    end.

Definition get {S : Type} : M S S := fun s => (Returns s, s).

Definition modify {S : Type} (f : S -> S) : M S unit := fun s => (Returns tt, f s).

Declare Scope M_scope.
Delimit Scope M_scope with M.
Bind Scope M_scope with M.
Notation "'let*' x ':=' m 'in' k" := (bind m (fun x => k))
  (at level 10, x pattern, m at level 100, k at level 200) : M_scope.
Notation "m ';;' k" := (bind m (fun _ => k))
  (at level 100, k at level 200, right associativity) : M_scope.
Open Scope M_scope.

(** [for (const x of xs) body(x)] *)
Fixpoint forOf {S A : Type} (xs : list A) (body : A -> M S unit) : M S unit :=
  match xs with
  | [] => ret tt
  | x :: rest => bind (body x) (fun _ => forOf rest body)
  end.

(** ** JavaScript strings *)

Module JS.

Definition dquote : ascii := "034"%char.
Definition backslash : ascii := "092"%char.
Definition newline : ascii := "010"%char.
Definition nbsp : ascii := "160"%char.

Definition str (c : ascii) : string := String c EmptyString.

(** [xs.join(sep)] on an array of strings. *)
Definition join (sep : string) (xs : list string) : string := String.concat sep xs.

(** [s.startsWith(p)] *)
Definition startsWith (s p : string) : bool := String.prefix p s.

(** [s.includes(sub)] *)
Fixpoint includes (s sub : string) : bool :=
  String.prefix sub s ||
  match s with
  | EmptyString => false
  | String _ rest => includes rest sub
  end.

(** White space as [\s] and [trim] see it, among the code units below 256:
    TAB, LF, VT, FF, CR, SPACE and NO-BREAK SPACE. *)
Definition isWhiteSpace (c : ascii) : bool :=
  let n := nat_of_ascii c in
  (((9 <=? n) && (n <=? 13)) || (n =? 32) || (n =? 160))%nat.

Fixpoint trimStart (s : string) : string :=
  match s with
  | EmptyString => EmptyString
  | String c rest => if isWhiteSpace c then trimStart rest else s
  end.

Definition reverse (s : string) : string :=
  string_of_list_ascii (List.rev (list_ascii_of_string s)).

Definition trimEnd (s : string) : string := reverse (trimStart (reverse s)).

(** [s.trim()] *)
Definition trim (s : string) : string := trimEnd (trimStart s).

(** [s.toLowerCase()] on code units below 256: A-Z and the Latin-1 capitals
    (U+00C0 to U+00DE, the multiplication sign U+00D7 apart) move up by 32. *)
Definition toLowerChar (c : ascii) : ascii :=
  let n := nat_of_ascii c in
  if (((65 <=? n) && (n <=? 90)) || ((192 <=? n) && (n <=? 222) && negb (n =? 215)))%nat
  then ascii_of_nat (n + 32) else c.

Fixpoint toLowerCase (s : string) : string :=
  match s with
  | EmptyString => EmptyString
  | String c rest => String (toLowerChar c) (toLowerCase rest)
  end.

(** [s.split(/\s+/g)]: the pieces between the maximal runs of white space.
    [cur] is the piece being read, [inRun] tells that the previous code unit
    was white space. A run at either end leaves an empty piece there, and
    the empty string splits into one empty piece. *)
Fixpoint splitWhiteSpaceFrom (s cur : string) (inRun : bool) : list string :=
  match s with
  | EmptyString => [cur]
  | String c rest =>
      if isWhiteSpace c
      then if inRun then splitWhiteSpaceFrom rest cur true
           else cur :: splitWhiteSpaceFrom rest EmptyString true
      else splitWhiteSpaceFrom rest (cur +:+ str c) false
  end.

Definition splitWhiteSpace (s : string) : list string :=
  splitWhiteSpaceFrom s EmptyString false.

(** [s.split(sep)] for a separator of one code unit. *)
Fixpoint split (sep : ascii) (s : string) : list string :=
  match s with
  | EmptyString => [EmptyString]
  | String c rest =>
      if Ascii.eqb c sep then EmptyString :: split sep rest
      else match split sep rest with
           | piece :: pieces => String c piece :: pieces
           | [] => [str c]
           end
  end.

(** [xs.slice(start)] for a start that is not negative. *)
Definition slice {A : Type} (start : nat) (xs : list A) : list A := skipn start xs.

(** [s.slice(start)] on a string, for a start that is not negative. *)
Fixpoint sliceFrom (start : nat) (s : string) : string :=
  match start, s with
  | O, _ => s
  | S n, EmptyString => EmptyString
  | S n, String _ rest => sliceFrom n rest
  end.

(** [s.slice(0, stop)] on a string. *)
Definition sliceTo (stop : nat) (s : string) : string := String.substring 0 stop s.

(** [s.replace(pattern, replacement)] for a string pattern that is not
    empty: the first occurrence is replaced. *)
Fixpoint replace (s pattern replacement : string) : string :=
  if String.prefix pattern s
  then replacement +:+ sliceFrom (String.length pattern) s
  else match s with
       | EmptyString => EmptyString
       | String c rest => String c (replace rest pattern replacement)
       end.

(** [s.replaceAll(pattern, replacement)] for a pattern of one code unit. *)
Fixpoint replaceAll (s : string) (pattern : ascii) (replacement : string) : string :=
  match s with
  | EmptyString => EmptyString
  | String c rest =>
      (if Ascii.eqb c pattern then replacement else str c)
        +:+ replaceAll rest pattern replacement
  end.

(** [s.repeat(count)] *)
Fixpoint repeat (s : string) (count : nat) : string :=
  match count with
  | O => EmptyString
  | S n => s +:+ repeat s n
  end.

(** The truth value of a string: the empty string is falsy. *)
Definition truthy (s : string) : bool := negb (String.eqb s EmptyString).

(** *** [JSON.stringify] on strings and on arrays of strings *)

Definition hexDigit (n : nat) : ascii :=
  match n with
  | 0 => "0" | 1 => "1" | 2 => "2" | 3 => "3" | 4 => "4" | 5 => "5" | 6 => "6" | 7 => "7"
  | 8 => "8" | 9 => "9" | 10 => "a" | 11 => "b" | 12 => "c" | 13 => "d" | 14 => "e"
  | _ => "f"
  end%nat%char.

(** What [JSON.stringify] writes for one code unit inside a string: the two
    characters of a short escape for the quote, the backslash and five of the
    control characters, a [\u00XX] escape for the other code units below 32,
    and the code unit itself otherwise. *)
Definition escapeChar (c : ascii) : string :=
  let n := nat_of_ascii c in
  if (n =? 34)%nat then String backslash (str dquote)
  else if (n =? 92)%nat then String backslash (str backslash)
  else if (n =? 8)%nat then String backslash "b"
  else if (n =? 12)%nat then String backslash "f"
  else if (n =? 10)%nat then String backslash "n"
  else if (n =? 13)%nat then String backslash "r"
  else if (n =? 9)%nat then String backslash "t"
  else if (n <? 32)%nat
       then String backslash
              ("u00" +:+ String (hexDigit (n / 16)%nat) (str (hexDigit (n mod 16)%nat)))
       else str c.

Fixpoint escape (s : string) : string :=
  match s with
  | EmptyString => EmptyString
  | String c rest => escapeChar c +:+ escape rest
  end.

(** [JSON.stringify(s)] for a string [s]. *)
Definition stringifyString (s : string) : string :=
  String dquote (escape s +:+ str dquote).

(** [JSON.stringify(xs)] for an array of strings [xs]. *)
Definition stringifyStrings (xs : list string) : string :=
  "[" +:+ join "," (map stringifyString xs) +:+ "]".

(** Reading back what [escapeChar] wrote at the head of a text: the code
    unit, and the rest of the text. The closing quote of a string is where
    there is nothing to read. *)
Definition hexValue (c : ascii) : option nat :=
  let n := nat_of_ascii c in
  if ((48 <=? n) && (n <=? 57))%nat then Some (n - 48)%nat
  else if ((97 <=? n) && (n <=? 102))%nat then Some (n - 87)%nat
  else None.

Definition unescapeChar (s : string) : option (ascii * string) :=
  match s with
  | EmptyString => None
  | String c rest =>
      if Ascii.eqb c dquote then None
      else if Ascii.eqb c backslash then
        match rest with
        | EmptyString => None
        | String e rest' =>
            if Ascii.eqb e dquote then Some (dquote, rest')
            else if Ascii.eqb e backslash then Some (backslash, rest')
            else if Ascii.eqb e "b" then Some (ascii_of_nat 8, rest')
            else if Ascii.eqb e "f" then Some (ascii_of_nat 12, rest')
            else if Ascii.eqb e "n" then Some (ascii_of_nat 10, rest')
            else if Ascii.eqb e "r" then Some (ascii_of_nat 13, rest')
            else if Ascii.eqb e "t" then Some (ascii_of_nat 9, rest')
            else if Ascii.eqb e "u" then
              match rest' with
              | String z1 (String z2 (String h (String l rest''))) =>
                  match hexValue h, hexValue l with
                  | Some a, Some b =>
                      if Ascii.eqb z1 "0" && Ascii.eqb z2 "0"
                      then Some (ascii_of_nat (16 * a + b), rest'')
                      else None
                  | _, _ => None
                  end
              | _ => None
              end
            else None
        end
      else Some (c, rest)
  end.

(** A string without a line feed. *)
Fixpoint newlineFree (s : string) : bool :=
  match s with
  | EmptyString => true
  | String c rest => negb (Ascii.eqb c newline) && newlineFree rest
  end.

End JS.

(** ** The data of a neuron path ([graph.ts]) *)

(** [type KnowledgeNode = [string, string[]]]: a primary term and its
    qualifying terms. *)
Definition KnowledgeNode : Type := string * list string.

(** [type KnowledgeEdge = [KnowledgeNode, KnowledgeNode]] *)
Definition KnowledgeEdge : Type := KnowledgeNode * KnowledgeNode.

(** [interface ConnectivityKnowledge], as an object received from the
    network: a property that the object does not have is [None]. *)
Module ConnectivityKnowledge.
Record t : Type := {
  connectivity : option (list KnowledgeEdge);
  axons : option (list KnowledgeNode);
  dendrites : option (list KnowledgeNode);
  somas : option (list KnowledgeNode)
}.
End ConnectivityKnowledge.

(** [type GraphNode]: the flags are properties set to [true] or left out;
    [both_a_d] is the property ['both-a-d']. *)
Module GraphNode.
Record t : Type := {
  id : string;
  label : string;
  both_a_d : bool;
  axon : bool;
  soma : bool;
  dendrite : bool
}.
End GraphNode.

(** [type GraphEdge] *)
Module GraphEdge.
Record t : Type := {
  id : string;
  source : string;
  target : string
}.
End GraphEdge.

(** An element handed to the drawing engine: [{data: n}] or [{data: e}]. *)
Inductive Element : Type :=
| NodeElement (data : GraphNode.t)
| EdgeElement (data : GraphEdge.t).

(** [JSON.stringify(node)] for a [KnowledgeNode]. *)
Definition stringifyNode (node : KnowledgeNode) : string :=
  "[" +:+ JS.stringifyString (fst node) +:+ "," +:+ JS.stringifyStrings (snd node) +:+ "]".

(** The layout object that [CytoscapeGraph]'s constructor hands to the
    engine: [layoutDefault], [layoutBreadthfirstFix] or [layoutDagre];
    [roots] is [None] where the source passes [undefined]. *)
Inductive LayoutOption : Type :=
| layoutDefault (roots : list string)
| layoutBreadthfirstFix (roots : option (list string))
| layoutDagre (roots : option (list string)).

(** A call to the drawing engine. *)
Inductive EngineCall : Type :=
| cytoscape_new (elements : list Element) (layout : LayoutOption)
| cytoscape_destroy.

(** ** The page *)

(** An [<option>] of a [<select>]: its value, its label, whether it carries
    the selection, and its [style.display]. *)
Module OptionElement.
Record t : Type := {
  value : string;
  label : string;
  selected : bool;
  display : string
}.

Definition set_selected (b : bool) (o : t) : t :=
  {| value := value o; label := label o; selected := b; display := display o |}.

Definition set_display (d : string) (o : t) : t :=
  {| value := value o; label := label o; selected := selected o; display := d |}.
End OptionElement.

(** A child of the source selector: the start of an [<optgroup>] with its
    label, an option with its text, or the end of a group. *)
Inductive SourceItem : Type :=
| optgroup (label : string)
| option_ (o : OptionElement.t) (text : string)
| optgroup_end.

(** What the code reads and writes of the document, of the address bar and
    of the drawing engine: the [style.display] of three elements, the
    children of the three selectors that the code fills, the [size] of the
    path selector and the number of listeners added to it, the value of the
    layout selector, the [disabled] property of the five controls, the query
    of [location.href] and the length of the session history, the number of
    tooltip elements created, and the calls made to the engine. *)
Module Document.
Record t : Type := {
  pathPromptDisplay : string;
  spinnerDisplay : string;
  noServerDisplay : string;
  serverOptions : list OptionElement.t;
  sourceOptions : list SourceItem;
  pathOptions : list OptionElement.t;
  pathSelectorSize : nat;
  pathSelectorListeners : nat;
  layoutSelectorValue : string;
  serverSelectorDisabled : bool;
  pathSelectorDisabled : bool;
  layoutSelectorDisabled : bool;
  sourceSelectorDisabled : bool;
  pathSearchDisabled : bool;
  searchParams : list (string * string);
  historyLength : nat;
  tooltipsCreated : nat;
  engineCalls : list EngineCall
}.

Definition set_pathPromptDisplay (d : string) (doc : t) : t :=
  {| pathPromptDisplay := d; spinnerDisplay := spinnerDisplay doc;
     noServerDisplay := noServerDisplay doc; serverOptions := serverOptions doc;
     sourceOptions := sourceOptions doc; pathOptions := pathOptions doc;
     pathSelectorSize := pathSelectorSize doc;
     pathSelectorListeners := pathSelectorListeners doc;
     layoutSelectorValue := layoutSelectorValue doc;
     serverSelectorDisabled := serverSelectorDisabled doc;
     pathSelectorDisabled := pathSelectorDisabled doc;
     layoutSelectorDisabled := layoutSelectorDisabled doc;
     sourceSelectorDisabled := sourceSelectorDisabled doc;
     pathSearchDisabled := pathSearchDisabled doc; searchParams := searchParams doc;
     historyLength := historyLength doc; tooltipsCreated := tooltipsCreated doc;
     engineCalls := engineCalls doc |}.

Definition set_spinnerDisplay (d : string) (doc : t) : t :=
  {| pathPromptDisplay := pathPromptDisplay doc; spinnerDisplay := d;
     noServerDisplay := noServerDisplay doc; serverOptions := serverOptions doc;
     sourceOptions := sourceOptions doc; pathOptions := pathOptions doc;
     pathSelectorSize := pathSelectorSize doc;
     pathSelectorListeners := pathSelectorListeners doc;
     layoutSelectorValue := layoutSelectorValue doc;
     serverSelectorDisabled := serverSelectorDisabled doc;
     pathSelectorDisabled := pathSelectorDisabled doc;
     layoutSelectorDisabled := layoutSelectorDisabled doc;
     sourceSelectorDisabled := sourceSelectorDisabled doc;
     pathSearchDisabled := pathSearchDisabled doc; searchParams := searchParams doc;
     historyLength := historyLength doc; tooltipsCreated := tooltipsCreated doc;
     engineCalls := engineCalls doc |}.

Definition set_noServerDisplay (d : string) (doc : t) : t :=
  {| pathPromptDisplay := pathPromptDisplay doc;
     spinnerDisplay := spinnerDisplay doc; noServerDisplay := d;
     serverOptions := serverOptions doc; sourceOptions := sourceOptions doc;
     pathOptions := pathOptions doc; pathSelectorSize := pathSelectorSize doc;
     pathSelectorListeners := pathSelectorListeners doc;
     layoutSelectorValue := layoutSelectorValue doc;
     serverSelectorDisabled := serverSelectorDisabled doc;
     pathSelectorDisabled := pathSelectorDisabled doc;
     layoutSelectorDisabled := layoutSelectorDisabled doc;
     sourceSelectorDisabled := sourceSelectorDisabled doc;
     pathSearchDisabled := pathSearchDisabled doc; searchParams := searchParams doc;
     historyLength := historyLength doc; tooltipsCreated := tooltipsCreated doc;
     engineCalls := engineCalls doc |}.

Definition set_serverOptions (os : list OptionElement.t) (doc : t) : t :=
  {| pathPromptDisplay := pathPromptDisplay doc;
     spinnerDisplay := spinnerDisplay doc; noServerDisplay := noServerDisplay doc;
     serverOptions := os; sourceOptions := sourceOptions doc;
     pathOptions := pathOptions doc; pathSelectorSize := pathSelectorSize doc;
     pathSelectorListeners := pathSelectorListeners doc;
     layoutSelectorValue := layoutSelectorValue doc;
     serverSelectorDisabled := serverSelectorDisabled doc;
     pathSelectorDisabled := pathSelectorDisabled doc;
     layoutSelectorDisabled := layoutSelectorDisabled doc;
     sourceSelectorDisabled := sourceSelectorDisabled doc;
     pathSearchDisabled := pathSearchDisabled doc; searchParams := searchParams doc;
     historyLength := historyLength doc; tooltipsCreated := tooltipsCreated doc;
     engineCalls := engineCalls doc |}.

Definition set_sourceOptions (os : list SourceItem) (doc : t) : t :=
  {| pathPromptDisplay := pathPromptDisplay doc;
     spinnerDisplay := spinnerDisplay doc; noServerDisplay := noServerDisplay doc;
     serverOptions := serverOptions doc; sourceOptions := os;
     pathOptions := pathOptions doc; pathSelectorSize := pathSelectorSize doc;
     pathSelectorListeners := pathSelectorListeners doc;
     layoutSelectorValue := layoutSelectorValue doc;
     serverSelectorDisabled := serverSelectorDisabled doc;
     pathSelectorDisabled := pathSelectorDisabled doc;
     layoutSelectorDisabled := layoutSelectorDisabled doc;
     sourceSelectorDisabled := sourceSelectorDisabled doc;
     pathSearchDisabled := pathSearchDisabled doc; searchParams := searchParams doc;
     historyLength := historyLength doc; tooltipsCreated := tooltipsCreated doc;
     engineCalls := engineCalls doc |}.

Definition set_pathOptions (os : list OptionElement.t) (doc : t) : t :=
  {| pathPromptDisplay := pathPromptDisplay doc;
     spinnerDisplay := spinnerDisplay doc; noServerDisplay := noServerDisplay doc;
     serverOptions := serverOptions doc; sourceOptions := sourceOptions doc;
     pathOptions := os; pathSelectorSize := pathSelectorSize doc;
     pathSelectorListeners := pathSelectorListeners doc;
     layoutSelectorValue := layoutSelectorValue doc;
     serverSelectorDisabled := serverSelectorDisabled doc;
     pathSelectorDisabled := pathSelectorDisabled doc;
     layoutSelectorDisabled := layoutSelectorDisabled doc;
     sourceSelectorDisabled := sourceSelectorDisabled doc;
     pathSearchDisabled := pathSearchDisabled doc; searchParams := searchParams doc;
     historyLength := historyLength doc; tooltipsCreated := tooltipsCreated doc;
     engineCalls := engineCalls doc |}.

Definition set_pathSelectorSize (n : nat) (doc : t) : t :=
  {| pathPromptDisplay := pathPromptDisplay doc;
     spinnerDisplay := spinnerDisplay doc; noServerDisplay := noServerDisplay doc;
     serverOptions := serverOptions doc; sourceOptions := sourceOptions doc;
     pathOptions := pathOptions doc; pathSelectorSize := n;
     pathSelectorListeners := pathSelectorListeners doc;
     layoutSelectorValue := layoutSelectorValue doc;
     serverSelectorDisabled := serverSelectorDisabled doc;
     pathSelectorDisabled := pathSelectorDisabled doc;
     layoutSelectorDisabled := layoutSelectorDisabled doc;
     sourceSelectorDisabled := sourceSelectorDisabled doc;
     pathSearchDisabled := pathSearchDisabled doc; searchParams := searchParams doc;
     historyLength := historyLength doc; tooltipsCreated := tooltipsCreated doc;
     engineCalls := engineCalls doc |}.

Definition set_layoutSelectorValue (v : string) (doc : t) : t :=
  {| pathPromptDisplay := pathPromptDisplay doc;
     spinnerDisplay := spinnerDisplay doc; noServerDisplay := noServerDisplay doc;
     serverOptions := serverOptions doc; sourceOptions := sourceOptions doc;
     pathOptions := pathOptions doc; pathSelectorSize := pathSelectorSize doc;
     pathSelectorListeners := pathSelectorListeners doc; layoutSelectorValue := v;
     serverSelectorDisabled := serverSelectorDisabled doc;
     pathSelectorDisabled := pathSelectorDisabled doc;
     layoutSelectorDisabled := layoutSelectorDisabled doc;
     sourceSelectorDisabled := sourceSelectorDisabled doc;
     pathSearchDisabled := pathSearchDisabled doc; searchParams := searchParams doc;
     historyLength := historyLength doc; tooltipsCreated := tooltipsCreated doc;
     engineCalls := engineCalls doc |}.

(** Two more listeners on the path selector ([blur] and [change]). *)
Definition addPathSelectorListeners (doc : t) : t :=
  {| pathPromptDisplay := pathPromptDisplay doc;
     spinnerDisplay := spinnerDisplay doc; noServerDisplay := noServerDisplay doc;
     serverOptions := serverOptions doc; sourceOptions := sourceOptions doc;
     pathOptions := pathOptions doc; pathSelectorSize := pathSelectorSize doc;
     pathSelectorListeners := 2 + pathSelectorListeners doc;
     layoutSelectorValue := layoutSelectorValue doc;
     serverSelectorDisabled := serverSelectorDisabled doc;
     pathSelectorDisabled := pathSelectorDisabled doc;
     layoutSelectorDisabled := layoutSelectorDisabled doc;
     sourceSelectorDisabled := sourceSelectorDisabled doc;
     pathSearchDisabled := pathSearchDisabled doc; searchParams := searchParams doc;
     historyLength := historyLength doc; tooltipsCreated := tooltipsCreated doc;
     engineCalls := engineCalls doc |}.

(** The [disabled] property of the five controls. *)
Definition set_disabled (b : bool) (doc : t) : t :=
  {| pathPromptDisplay := pathPromptDisplay doc;
     spinnerDisplay := spinnerDisplay doc; noServerDisplay := noServerDisplay doc;
     serverOptions := serverOptions doc; sourceOptions := sourceOptions doc;
     pathOptions := pathOptions doc; pathSelectorSize := pathSelectorSize doc;
     pathSelectorListeners := pathSelectorListeners doc;
     layoutSelectorValue := layoutSelectorValue doc; serverSelectorDisabled := b;
     pathSelectorDisabled := b; layoutSelectorDisabled := b;
     sourceSelectorDisabled := b; pathSearchDisabled := b;
     searchParams := searchParams doc; historyLength := historyLength doc;
     tooltipsCreated := tooltipsCreated doc; engineCalls := engineCalls doc |}.

(** [history.pushState({}, '', url)] for a URL whose query is [ps]. *)
Definition pushState (ps : list (string * string)) (doc : t) : t :=
  {| pathPromptDisplay := pathPromptDisplay doc;
     spinnerDisplay := spinnerDisplay doc; noServerDisplay := noServerDisplay doc;
     serverOptions := serverOptions doc; sourceOptions := sourceOptions doc;
     pathOptions := pathOptions doc; pathSelectorSize := pathSelectorSize doc;
     pathSelectorListeners := pathSelectorListeners doc;
     layoutSelectorValue := layoutSelectorValue doc;
     serverSelectorDisabled := serverSelectorDisabled doc;
     pathSelectorDisabled := pathSelectorDisabled doc;
     layoutSelectorDisabled := layoutSelectorDisabled doc;
     sourceSelectorDisabled := sourceSelectorDisabled doc;
     pathSearchDisabled := pathSearchDisabled doc; searchParams := ps;
     historyLength := S (historyLength doc); tooltipsCreated := tooltipsCreated doc;
     engineCalls := engineCalls doc |}.

(** A tooltip element is created and appended to the canvas. *)
Definition appendTooltip (doc : t) : t :=
  {| pathPromptDisplay := pathPromptDisplay doc;
     spinnerDisplay := spinnerDisplay doc; noServerDisplay := noServerDisplay doc;
     serverOptions := serverOptions doc; sourceOptions := sourceOptions doc;
     pathOptions := pathOptions doc; pathSelectorSize := pathSelectorSize doc;
     pathSelectorListeners := pathSelectorListeners doc;
     layoutSelectorValue := layoutSelectorValue doc;
     serverSelectorDisabled := serverSelectorDisabled doc;
     pathSelectorDisabled := pathSelectorDisabled doc;
     layoutSelectorDisabled := layoutSelectorDisabled doc;
     sourceSelectorDisabled := sourceSelectorDisabled doc;
     pathSearchDisabled := pathSearchDisabled doc; searchParams := searchParams doc;
     historyLength := historyLength doc; tooltipsCreated := S (tooltipsCreated doc);
     engineCalls := engineCalls doc |}.

(** A call to the drawing engine. *)
Definition callEngine (c : EngineCall) (doc : t) : t :=
  {| pathPromptDisplay := pathPromptDisplay doc;
     spinnerDisplay := spinnerDisplay doc; noServerDisplay := noServerDisplay doc;
     serverOptions := serverOptions doc; sourceOptions := sourceOptions doc;
     pathOptions := pathOptions doc; pathSelectorSize := pathSelectorSize doc;
     pathSelectorListeners := pathSelectorListeners doc;
     layoutSelectorValue := layoutSelectorValue doc;
     serverSelectorDisabled := serverSelectorDisabled doc;
     pathSelectorDisabled := pathSelectorDisabled doc;
     layoutSelectorDisabled := layoutSelectorDisabled doc;
     sourceSelectorDisabled := sourceSelectorDisabled doc;
     pathSearchDisabled := pathSearchDisabled doc; searchParams := searchParams doc;
     historyLength := historyLength doc; tooltipsCreated := tooltipsCreated doc;
     engineCalls := engineCalls doc ++ [c] |}.

End Document.

(** ** The presenter: [class CytoscapeGraph] *)

Module CytoscapeGraph.

(** The object holds the engine's instance [#cy], which the constructor
    always sets and which is kept here as what it was made of, and the
    tooltip element. *)
Record t : Type := {
  cy_elements : list Element;
  cy_layout : LayoutOption;
  tooltip_hidden : bool
}.

(** The choice of the layout object in the constructor; [roots] is the value
    of [connectivityGraph.roots]. *)
Definition layoutOption (layout : string) (roots : list string) : LayoutOption :=
  let rootsOrUndefined := if Nat.eqb (List.length roots) 0 then None else Some roots in
  if String.eqb layout "breadthfirst-fix" then layoutBreadthfirstFix rootsOrUndefined
  else if String.eqb layout "dagre" then layoutDagre rootsOrUndefined
  else layoutDefault roots.

(** [new CytoscapeGraph(connectivityGraph, layout)], given the values of the
    getters [roots] and [elements] of [connectivityGraph]: one instance of
    the engine is made, and one tooltip element is created and appended. *)
Definition new (roots : list string) (elements : list Element) (layout : string)
  : M Document.t t :=
  let option := layoutOption layout roots in
  modify (Document.callEngine (cytoscape_new elements option)) ;;
  modify Document.appendTooltip ;;
  ret {| cy_elements := elements; cy_layout := option; tooltip_hidden := true |}.

(** [remove()]: [#cy] is set, so the instance is destroyed. *)
Definition remove (g : t) : M Document.t unit :=
  modify (Document.callEngine cytoscape_destroy).

End CytoscapeGraph.

(** ** The model builder: [class ConnectivityGraph] *)

Module ConnectivityGraph.

(** [#axons] and [#dendrites] are declared without an initial value: they are
    [undefined] ([None]) until [addConnectivity] assigns them. [labelCache]
    is the controller's map, of which the object keeps a reference; it is
    read by [addConnectivity] only, which the controller calls on the object
    as soon as it is made, so the object is given the map's content. *)
Record t : Type := {
  cy : option CytoscapeGraph.t;
  nodes : list GraphNode.t;
  edges : list GraphEdge.t;
  axons : option (list string);
  dendrites : option (list string);
  somas : list string;
  labelCache : gmap string string
}.

(** [new ConnectivityGraph(labelCache)] *)
Definition new (labelCache : gmap string string) : t :=
  {| cy := None; nodes := []; edges := []; axons := None; dendrites := None;
     somas := []; labelCache := labelCache |}.

Definition set_cy (c : option CytoscapeGraph.t) (g : t) : t :=
  {| cy := c; nodes := nodes g; edges := edges g; axons := axons g;
     dendrites := dendrites g; somas := somas g; labelCache := labelCache g |}.

Definition push_node (n : GraphNode.t) (g : t) : t :=
  {| cy := cy g; nodes := nodes g ++ [n]; edges := edges g; axons := axons g;
     dendrites := dendrites g; somas := somas g; labelCache := labelCache g |}.

Definition push_edge (e : GraphEdge.t) (g : t) : t :=
  {| cy := cy g; nodes := nodes g; edges := edges g ++ [e]; axons := axons g;
     dendrites := dendrites g; somas := somas g; labelCache := labelCache g |}.

Definition set_axons (ids : list string) (g : t) : t :=
  {| cy := cy g; nodes := nodes g; edges := edges g; axons := Some ids;
     dendrites := dendrites g; somas := somas g; labelCache := labelCache g |}.

Definition set_dendrites (ids : list string) (g : t) : t :=
  {| cy := cy g; nodes := nodes g; edges := edges g; axons := axons g;
     dendrites := Some ids; somas := somas g; labelCache := labelCache g |}.

Definition set_somas (ids : list string) (g : t) : t :=
  {| cy := cy g; nodes := nodes g; edges := edges g; axons := axons g;
     dendrites := dendrites g; somas := ids; labelCache := labelCache g |}.

(** [xs.includes(x)] on an array of strings. *)
Definition includes (xs : list string) (x : string) : bool :=
  existsb (String.eqb x) xs.

(** [this.#labelCache.has(term) ? this.#labelCache.get(term) : ''] *)
Definition humanLabel (labelCache : gmap string string) (term : string) : string :=
  match labelCache !! term with
  | Some l => l
  | None => ""
  end.

(** Reading the property [property] of [x] throws when [x] is [undefined]. *)
Definition defined {S A : Type} (property : string) (x : option A) : M S A :=
  match x with
  | Some a => ret a
  | None => throw (TypeError ("Cannot read properties of undefined, reading " +:+ property))
  end.

(** The array [label] of [#graphNode] when it is joined: the terms of the
    node, then what the cache holds for each of them. *)
Definition labelLines (labelCache : gmap string string) (node : KnowledgeNode)
  : list string :=
  let label := fst node :: snd node in
  let humanLabels := map (humanLabel labelCache) label in
  label ++ humanLabels.

(** [async #graphNode(node)] *)
Definition graphNode (node : KnowledgeNode) : M t GraphNode.t :=
  let id := stringifyNode node in
  let* g := get in
  let label := labelLines (labelCache g) node in
  let result := fun (both_a_d axon soma dendrite : bool) =>
    {| GraphNode.id := id; GraphNode.label := JS.join (JS.str JS.newline) label;
       GraphNode.both_a_d := both_a_d; GraphNode.axon := axon;
       GraphNode.soma := soma; GraphNode.dendrite := dendrite |} in
  let* axons := defined "includes" (axons g) in
  if includes axons id then
    let* dendrites := defined "includes" (dendrites g) in
    if includes dendrites id
    then ret (result true false false false)
    else ret (result false true false false)
  else if includes (somas g) id then
    ret (result false false true false)
  else
    let* dendrites := defined "includes" (dendrites g) in
    if includes dendrites id
    then ret (result false false false true)
    else ret (result false false false false).

(** The body of the loop of [addConnectivity], for one edge. *)
Definition addEdge (edge : KnowledgeEdge) : M t unit :=
  let* e0 := graphNode (fst edge) in
  let* e1 := graphNode (snd edge) in
  modify (push_node e0) ;;
  modify (push_node e1) ;;
  modify (push_edge {| GraphEdge.id := GraphNode.id e0 +:+ "_" +:+ GraphNode.id e1;
                       GraphEdge.source := GraphNode.id e0;
                       GraphEdge.target := GraphNode.id e1 |}).

(** The sentinel node of a path without connectivity. *)
Definition MISSING : GraphNode.t :=
  {| GraphNode.id := "MISSING"; GraphNode.label := "NO PATHS";
     GraphNode.both_a_d := false; GraphNode.axon := false;
     GraphNode.soma := false; GraphNode.dendrite := false |}.

(** [async addConnectivity(knowledge)]; the argument is [None] when the
    caller passes [undefined]. *)
Definition addConnectivity (knowledge : option ConnectivityKnowledge.t) : M t unit :=
  let* knowledge := defined "axons" knowledge in
  let* axons := defined "map" (ConnectivityKnowledge.axons knowledge) in
  modify (set_axons (map stringifyNode axons)) ;;
  let* dendrites := defined "map" (ConnectivityKnowledge.dendrites knowledge) in
  modify (set_dendrites (map stringifyNode dendrites)) ;;
  match ConnectivityKnowledge.somas knowledge with
  | Some somas => modify (set_somas (map stringifyNode somas))
  | None => ret tt
  end ;;
  let* connectivity := defined "length" (ConnectivityKnowledge.connectivity knowledge) in
  if negb (Nat.eqb (List.length connectivity) 0)
  then forOf connectivity addEdge
  else modify (push_node MISSING).

(** [get elements()] *)
Definition elements (g : t) : list Element :=
  map NodeElement (nodes g) ++ map EdgeElement (edges g).

(** [get roots()]: spreading [undefined] throws. *)
Definition roots {S : Type} (g : t) : M S (list string) :=
  let* dendrites := defined "Symbol.iterator" (dendrites g) in
  ret (dendrites ++ somas g).

(** [showConnectivity(layout)]; the object is returned with [#cy] set. *)
Definition showConnectivity (layout : string) (g : t) : M Document.t t :=
  let* roots := roots g in
  let* c := CytoscapeGraph.new roots (elements g) layout in
  ret (set_cy (Some c) g).

(** [clearConnectivity()]; the object is returned with [#cy] cleared. *)
Definition clearConnectivity (g : t) : M Document.t t :=
  match cy g with
  | Some c =>
      CytoscapeGraph.remove c ;;
      ret (set_cy None g)
  | None => ret g
  end.

End ConnectivityGraph.

(** ** What the node style shows: [trimLabel] and [capitalizeLabels] *)

(** [label.charAt(0).toUpperCase()] for a lower-case ASCII letter. *)
Definition toUpperChar (c : ascii) : ascii := ascii_of_nat (nat_of_ascii c - 32).

(** The function mapped over the lines by [capitalizeLabels]. *)
Definition capitalizeLabel (label : string) : string :=
  match label with
  | EmptyString => label
  | String c rest =>
      if ((97 <=? nat_of_ascii c) && (nat_of_ascii c <=? 122))%nat
      then String (toUpperChar c) rest
      else label
  end.

Definition capitalizeLabels (input : string) : string :=
  JS.join (JS.str JS.newline) (map capitalizeLabel (JS.split JS.newline input)).

(** [half] is [labels.length/2], which [slice] truncates to an integer. *)
Definition trimLabel (label : string) : string :=
  let labels := JS.split JS.newline label in
  let half := (List.length labels / 2)%nat in
  let trimLabels := JS.slice half labels in
  capitalizeLabels (JS.join (JS.str JS.newline) trimLabels).

(** ** JavaScript numbers *)

(** A number is [NaN], an infinity, or a finite value, kept as the rational
    it denotes (the two zeros are one). *)
Inductive number : Type :=
| NaN
| Infinity (negative : bool)
| finite (q : QArith_base.Q).

Definition zero : number := finite (QArith_base.Qmake 0 1).

(** The truth value of a number: [NaN] and zero are falsy. *)
Definition number_truthy (n : number) : bool :=
  match n with
  | NaN => false
  | Infinity _ => true
  | finite q => negb (Z.eqb (QArith_base.Qnum q) 0)
  end.

(** [a < b] on numbers. *)
Definition lessThan (a b : number) : bool :=
  match a, b with
  | NaN, _ | _, NaN => false
  | Infinity true, Infinity true => false
  | Infinity true, _ => true
  | _, Infinity true => false
  | Infinity false, _ => false
  | _, Infinity false => true
  | finite p, finite q =>
      (QArith_base.Qnum p * Zpos (QArith_base.Qden q)
       <? QArith_base.Qnum q * Zpos (QArith_base.Qden p))%Z
  end.

(** ** The network *)

(** What [JSON.parse] or [response.json()] makes of a text that should hold a
    [T]: a failure, [null], or a value. *)
Inductive json (T : Type) : Type :=
| notJSON
| jsonNull
| jsonValue (v : T).
Arguments notJSON {T}.
Arguments jsonNull {T}.
Arguments jsonValue {T} v.

(** What [fetch] does: it rejects, or it resolves to a response with its
    [ok] flag and its body. *)
Inductive response (T : Type) : Type :=
| rejected
| resolved (ok : bool) (body : json T).
Arguments rejected {T}.
Arguments resolved {T} ok body.

(** [type SchemaVersion]; [version] is [None] when the property is absent. *)
Record SchemaVersion : Type := { version : option number }.

(** [type SourceList] *)
Record SourceList : Type := { sources : option (list string) }.

(** An entry of the knowledge store once parsed: its [label] when it has
    one, and the properties of a [ConnectivityKnowledge] that it has. *)
Module Knowledge.
Record t : Type := {
  label : option string;
  connectivity : ConnectivityKnowledge.t
}.
End Knowledge.

(** [type DataValues]: rows of a key and the JSON text of an entry, the text
    being given by what [JSON.parse] makes of it. *)
Record DataValues : Type := { values : list (string * json Knowledge.t) }.

(** The answer of a map's [pathways] endpoint: under [paths], an object
    from path ids to items that may have a [connectivity] array, with its
    keys in the order of enumeration. *)
Record PathwayItem : Type := { item_connectivity : option (list KnowledgeEdge) }.
Record Pathways : Type := { paths : option (list (string * PathwayItem)) }.

(** A map descriptor of the server's list of maps. *)
Record MapDescriptor : Type := {
  map_id : string;
  uuid : string;
  created : string
}.

(** The servers: each request of the code, with the URL it is sent to (and
    the query it carries), and the response it gets. *)
Record Network : Type := {
  fetch_schema_version : string -> response SchemaVersion;
  fetch_sources : string -> response SourceList;
  fetch_query : string -> string -> list string -> response DataValues;
  fetch_connectivity : string -> response ConnectivityKnowledge.t;
  fetch_pathways : string -> response Pathways;
  fetch_maps : string -> response (list MapDescriptor)
}.

(** ** The view controller: [class App] ([index.ts]) *)

Module App.

Definition MIN_SCHEMA_VERSION : number := finite (QArith_base.Qmake 13 10).

(** [MAPS_TO_SHOW]: pairs of a name and an id. *)
Definition MAPS_TO_SHOW : list (string * string) :=
  [ ("Human Female", "human-flatmap_female");
    ("Human Male", "human-flatmap_male");
    ("Rat", "rat-flatmap");
    ("Mouse", "mouse-flatmap");
    ("Pig", "pig-flatmap");
    ("Cat", "cat-flatmap") ].

(** [MAP_ENDPOINTS]: pairs of a key and a URL, in the order of the keys. *)
Definition MAP_ENDPOINTS : list (string * string) :=
  [ ("curation", "https://mapcore-demo.org/curation/flatmap/");
    ("devel", "https://mapcore-demo.org/devel/flatmap/v4/");
    ("staging", "https://mapcore-demo.org/staging/flatmap/v1/");
    ("production", "https://mapcore-demo.org/current/flatmap/v3/") ].

Definition emptyConnectivity : ConnectivityKnowledge.t :=
  {| ConnectivityKnowledge.connectivity := Some [];
     ConnectivityKnowledge.axons := Some [];
     ConnectivityKnowledge.dendrites := Some [];
     ConnectivityKnowledge.somas := Some [] |}.

(** The fields of the object, the page it acts on, and whether [run] has set
    the handlers of the five controls. [#connectivityGraph] is [None] when
    it is [undefined] or [null]; [#labelledTerms] is a set in the order of
    insertion; [#connectivityFromMap] is [None] when it is [null]. *)
Record t : Type := {
  connectivityGraph : option ConnectivityGraph.t;
  currentPath : string;
  knowledgeByPath : gmap string Knowledge.t;
  labelCache : gmap string string;
  labelledTerms : list string;
  mapServer : string;
  source : string;
  path : string;
  layout : string;
  sourceFromMap : bool;
  connectivityFromMap : option ConnectivityKnowledge.t;
  handlers : bool;
  document : Document.t
}.

Definition set_connectivityGraph (x : option ConnectivityGraph.t) (app : t) : t :=
  {| connectivityGraph := x; currentPath := currentPath app;
     knowledgeByPath := knowledgeByPath app; labelCache := labelCache app;
     labelledTerms := labelledTerms app; mapServer := mapServer app;
     source := source app; path := path app; layout := layout app;
     sourceFromMap := sourceFromMap app;
     connectivityFromMap := connectivityFromMap app; handlers := handlers app;
     document := document app |}.

Definition set_currentPath (x : string) (app : t) : t :=
  {| connectivityGraph := connectivityGraph app; currentPath := x;
     knowledgeByPath := knowledgeByPath app; labelCache := labelCache app;
     labelledTerms := labelledTerms app; mapServer := mapServer app;
     source := source app; path := path app; layout := layout app;
     sourceFromMap := sourceFromMap app;
     connectivityFromMap := connectivityFromMap app; handlers := handlers app;
     document := document app |}.

Definition set_knowledgeByPath (x : gmap string Knowledge.t) (app : t) : t :=
  {| connectivityGraph := connectivityGraph app; currentPath := currentPath app;
     knowledgeByPath := x; labelCache := labelCache app;
     labelledTerms := labelledTerms app; mapServer := mapServer app;
     source := source app; path := path app; layout := layout app;
     sourceFromMap := sourceFromMap app;
     connectivityFromMap := connectivityFromMap app; handlers := handlers app;
     document := document app |}.

Definition set_labelCache (x : gmap string string) (app : t) : t :=
  {| connectivityGraph := connectivityGraph app; currentPath := currentPath app;
     knowledgeByPath := knowledgeByPath app; labelCache := x;
     labelledTerms := labelledTerms app; mapServer := mapServer app;
     source := source app; path := path app; layout := layout app;
     sourceFromMap := sourceFromMap app;
     connectivityFromMap := connectivityFromMap app; handlers := handlers app;
     document := document app |}.

Definition set_labelledTerms (x : list string) (app : t) : t :=
  {| connectivityGraph := connectivityGraph app; currentPath := currentPath app;
     knowledgeByPath := knowledgeByPath app; labelCache := labelCache app;
     labelledTerms := x; mapServer := mapServer app; source := source app;
     path := path app; layout := layout app; sourceFromMap := sourceFromMap app;
     connectivityFromMap := connectivityFromMap app; handlers := handlers app;
     document := document app |}.

Definition set_mapServer (x : string) (app : t) : t :=
  {| connectivityGraph := connectivityGraph app; currentPath := currentPath app;
     knowledgeByPath := knowledgeByPath app; labelCache := labelCache app;
     labelledTerms := labelledTerms app; mapServer := x; source := source app;
     path := path app; layout := layout app; sourceFromMap := sourceFromMap app;
     connectivityFromMap := connectivityFromMap app; handlers := handlers app;
     document := document app |}.

Definition set_source (x : string) (app : t) : t :=
  {| connectivityGraph := connectivityGraph app; currentPath := currentPath app;
     knowledgeByPath := knowledgeByPath app; labelCache := labelCache app;
     labelledTerms := labelledTerms app; mapServer := mapServer app; source := x;
     path := path app; layout := layout app; sourceFromMap := sourceFromMap app;
     connectivityFromMap := connectivityFromMap app; handlers := handlers app;
     document := document app |}.

Definition set_path (x : string) (app : t) : t :=
  {| connectivityGraph := connectivityGraph app; currentPath := currentPath app;
     knowledgeByPath := knowledgeByPath app; labelCache := labelCache app;
     labelledTerms := labelledTerms app; mapServer := mapServer app;
     source := source app; path := x; layout := layout app;
     sourceFromMap := sourceFromMap app;
     connectivityFromMap := connectivityFromMap app; handlers := handlers app;
     document := document app |}.

Definition set_layout (x : string) (app : t) : t :=
  {| connectivityGraph := connectivityGraph app; currentPath := currentPath app;
     knowledgeByPath := knowledgeByPath app; labelCache := labelCache app;
     labelledTerms := labelledTerms app; mapServer := mapServer app;
     source := source app; path := path app; layout := x;
     sourceFromMap := sourceFromMap app;
     connectivityFromMap := connectivityFromMap app; handlers := handlers app;
     document := document app |}.

Definition set_sourceFromMap (x : bool) (app : t) : t :=
  {| connectivityGraph := connectivityGraph app; currentPath := currentPath app;
     knowledgeByPath := knowledgeByPath app; labelCache := labelCache app;
     labelledTerms := labelledTerms app; mapServer := mapServer app;
     source := source app; path := path app; layout := layout app;
     sourceFromMap := x; connectivityFromMap := connectivityFromMap app;
     handlers := handlers app; document := document app |}.

Definition set_connectivityFromMap (x : option ConnectivityKnowledge.t) (app : t) : t :=
  {| connectivityGraph := connectivityGraph app; currentPath := currentPath app;
     knowledgeByPath := knowledgeByPath app; labelCache := labelCache app;
     labelledTerms := labelledTerms app; mapServer := mapServer app;
     source := source app; path := path app; layout := layout app;
     sourceFromMap := sourceFromMap app; connectivityFromMap := x;
     handlers := handlers app; document := document app |}.

Definition set_handlers (x : bool) (app : t) : t :=
  {| connectivityGraph := connectivityGraph app; currentPath := currentPath app;
     knowledgeByPath := knowledgeByPath app; labelCache := labelCache app;
     labelledTerms := labelledTerms app; mapServer := mapServer app;
     source := source app; path := path app; layout := layout app;
     sourceFromMap := sourceFromMap app;
     connectivityFromMap := connectivityFromMap app; handlers := x;
     document := document app |}.

Definition set_document (x : Document.t) (app : t) : t :=
  {| connectivityGraph := connectivityGraph app; currentPath := currentPath app;
     knowledgeByPath := knowledgeByPath app; labelCache := labelCache app;
     labelledTerms := labelledTerms app; mapServer := mapServer app;
     source := source app; path := path app; layout := layout app;
     sourceFromMap := sourceFromMap app;
     connectivityFromMap := connectivityFromMap app; handlers := handlers app;
     document := x |}.

Section WithNetwork.

Variable net : Network.

(** [new App(mapServer, source, path, layout)] on the page [doc]. *)
Definition new (mapServer source path layout : string) (doc : Document.t) : t :=
  {| connectivityGraph := None; currentPath := ""; knowledgeByPath := ∅;
     labelCache := ∅; labelledTerms := []; mapServer := mapServer;
     source := source; path := path; layout := layout;
     sourceFromMap := JS.truthy source && negb (JS.startsWith source "sckan");
     connectivityFromMap := Some emptyConnectivity; handlers := false;
     document := doc |}.

(** A computation on the page, run on the controller's page. *)
Definition onDocument {A : Type} (m : M Document.t A) : M t A :=
  fun app =>
    let (r, doc) := m (document app) in
    (r, set_document doc app).

(** A method of [this.#connectivityGraph], run on that object. *)
Definition onGraph {A : Type} (m : M ConnectivityGraph.t A) : M t A :=
  fun app =>
    match connectivityGraph app with
    | Some g => let (r, g') := m g in (r, set_connectivityGraph (Some g') app)
    | None => (Throws (TypeError "Cannot read properties of undefined"), app)
    end.

(** [#showElement(element, show)] writes [element.style.display]. *)
Definition showElement_display (show : bool) : string :=
  if show then "block" else "none".

Definition hidePrompt : M t unit :=
  onDocument (modify (Document.set_pathPromptDisplay (showElement_display false))).

Definition showPrompt : M t unit :=
  onDocument (modify (Document.set_pathPromptDisplay (showElement_display true))).

Definition hideSpinner : M t unit :=
  onDocument (modify (Document.set_spinnerDisplay (showElement_display false))).

Definition showSpinner : M t unit :=
  onDocument (modify (Document.set_spinnerDisplay (showElement_display true))).

Definition disableTools : M t unit := onDocument (modify (Document.set_disabled true)).

Definition enableTools : M t unit := onDocument (modify (Document.set_disabled false)).

(** [url.searchParams.set(key, value)]: the first pair of that key takes the
    value and the other pairs of that key go; without one, a pair is added. *)
Fixpoint searchParams_set (key value : string) (ps : list (string * string))
  : list (string * string) :=
  match ps with
  | [] => [(key, value)]
  | (k, v) :: rest =>
      if String.eqb k key
      then (key, value) :: List.filter (fun kv => negb (String.eqb (fst kv) key)) rest
      else (k, v) :: searchParams_set key value rest
  end.

(** [#updateURL(key, value)] *)
Definition updateURL (key value : string) : M t unit :=
  onDocument (
    let* doc := get in
    modify (Document.pushState (searchParams_set key value (Document.searchParams doc)))).

(** [async #getJsonData<T>(url)], given what [fetch(url)] does: the result
    is [None] for [null]. A response that is not [ok] is reported on the
    console and read all the same. *)
Definition getJsonData {T : Type} (r : response T) : M t (option T) :=
  match r with
  | rejected => ret None
  | resolved _ notJSON => ret None
  | resolved _ jsonNull => ret None
  | resolved _ (jsonValue v) => ret (Some v)
  end.

(** [+data.version]: an absent property is [undefined], which is [NaN]. *)
Definition toNumber (v : option number) : number :=
  match v with
  | Some n => n
  | None => NaN
  end.

(** [async #getSchemaVersion()] *)
Definition getSchemaVersion : M t number :=
  let* app := get in
  let* data := getJsonData (fetch_schema_version net (mapServer app +:+ "knowledge/schema-version")) in
  match data with
  | Some data =>
      let n := toNumber (version data) in
      ret (if number_truthy n then n else zero)
  | None => ret zero
  end.

(** [async #fetchMapConnectivity(mapuuid, pathId)]; [None] is [null]. *)
Definition fetchMapConnectivity (mapuuid pathId : string)
  : M t (option ConnectivityKnowledge.t) :=
  let* app := get in
  let url := mapServer app +:+ "flatmap/" +:+ mapuuid +:+ "/connectivity/" +:+ pathId in
  match fetch_connectivity net url with
  | rejected => ret (Some emptyConnectivity)
  | resolved false _ => ret (Some emptyConnectivity)
  | resolved true notJSON => ret (Some emptyConnectivity)
  | resolved true jsonNull => ret None
  | resolved true (jsonValue v) => ret (Some v)
  end.

(** [async #query(sql, params)]; [None] is [null]. *)
Definition query (sql : string) (params : list string) : M t (option DataValues) :=
  let* app := get in
  let url := mapServer app +:+ "knowledge/query/" in
  match fetch_query net url sql params with
  | rejected => ret (Some {| values := [] |})
  | resolved false _ => ret (Some {| values := [] |})
  | resolved true notJSON => ret (Some {| values := [] |})
  | resolved true jsonNull => ret None
  | resolved true (jsonValue v) => ret (Some v)
  end.

(** [JSON.parse(jsonKnowledge)]; [None] is [null]. *)
Definition JSON_parse {T : Type} (text : json T) : M t (option T) :=
  match text with
  | notJSON => throw (SyntaxError "JSON.parse")
  | jsonNull => ret None
  | jsonValue v => ret (Some v)
  end.

(** [knowledge.label || key] *)
Definition labelOr (k : Knowledge.t) (key : string) : string :=
  match Knowledge.label k with
  | Some l => if JS.truthy l then l else key
  | None => key
  end.

Definition sqlLabels (size : nat) : string :=
  "select entity, knowledge from knowledge" +:+ JS.str JS.newline
  +:+ "                    where entity in (?" +:+ JS.repeat ", ?" (size - 1) +:+ ")"
  +:+ JS.str JS.newline
  +:+ "                    order by source desc".

Definition sqlPaths : string :=
  "select entity, knowledge from knowledge" +:+ JS.str JS.newline
  +:+ "                where entity like 'ilxtr:%' and source=?" +:+ JS.str JS.newline
  +:+ "                order by entity".

(** The body of the loop of [#getCachedTermLabels] for one row;
    [last_entity] is threaded through, [None] being [null]. *)
Definition cacheTermLabel (last_entity : option string) (row : string * json Knowledge.t)
  : M t (option string) :=
  let (key, jsonKnowledge) := row in
  if negb (bool_decide (Some key = last_entity)) then
    let* knowledge := JSON_parse jsonKnowledge in
    let* knowledge := ConnectivityGraph.defined "label" knowledge in
    let* app := get in
    modify (set_labelCache (<[key := labelOr knowledge key]> (labelCache app))) ;;
    ret (Some key)
  else ret last_entity.

Fixpoint cacheTermLabels (last_entity : option string) (rows : list (string * json Knowledge.t))
  : M t unit :=
  match rows with
  | [] => ret tt
  | row :: rest =>
      let* last_entity := cacheTermLabel last_entity row in
      cacheTermLabels last_entity rest
  end.

(** [async #getCachedTermLabels()] *)
Definition getCachedTermLabels : M t unit :=
  let* app := get in
  if negb (Nat.eqb (List.length (labelledTerms app)) 0) then
    let* data := query (sqlLabels (List.length (labelledTerms app))) (labelledTerms app) in
    let* data := ConnectivityGraph.defined "values" data in
    cacheTermLabels None (values data)
  else ret tt.

(** [this.#labelledTerms.add(term)] *)
Definition labelledTerms_add (term : string) (terms : list string) : list string :=
  if ConnectivityGraph.includes terms term then terms else terms ++ [term].

(** [#cacheNodeLabels(node)] *)
Definition cacheNodeLabels (node : KnowledgeNode) : M t unit :=
  forOf (fst node :: snd node)
        (fun term =>
           let* app := get in
           modify (set_labelledTerms (labelledTerms_add term (labelledTerms app)))).

(** [async #cacheLabels(knowledge)]. No caller awaits it: when
    [knowledge.connectivity] is absent, the promise it returns is rejected
    and nobody sees it. *)
Definition cacheLabels (knowledge : ConnectivityKnowledge.t) : M t unit :=
  match ConnectivityKnowledge.connectivity knowledge with
  | Some connectivity =>
      forOf connectivity
            (fun edge => cacheNodeLabels (fst edge) ;; cacheNodeLabels (snd edge))
  | None => ret tt
  end.

(** The options of the path selector with the first one of value
    [neuronPath] selected, when there is one (a selector holds one
    selection). *)
Fixpoint selectOption (neuronPath : string) (options : list OptionElement.t)
  : option (list OptionElement.t) :=
  match options with
  | [] => None
  | o :: rest =>
      if String.eqb (OptionElement.value o) neuronPath
      then Some (OptionElement.set_selected true o
                   :: map (OptionElement.set_selected false) rest)
      else match selectOption neuronPath rest with
           | Some rest' => Some (OptionElement.set_selected false o :: rest')
           | None => None
           end
  end.

(** [#selectPath(neuronPath)] *)
Definition selectPath (neuronPath : string) : M t bool :=
  let* app := get in
  if bool_decide (is_Some (knowledgeByPath app !! neuronPath)) then
    match selectOption neuronPath (Document.pathOptions (document app)) with
    | Some options =>
        onDocument (modify (Document.set_pathOptions options)) ;;
        ret true
    | None => ret false
    end
  else ret false.

(** [async #queryMapPaths()]; [None] is [null]. *)
Definition queryMapPaths : M t (option Pathways) :=
  let* app := get in
  let url := mapServer app +:+ "flatmap/" +:+ source app +:+ "/pathways" in
  match fetch_pathways net url with
  | rejected => ret None
  | resolved false _ => ret None
  | resolved true notJSON => ret None
  | resolved true jsonNull => ret None
  | resolved true (jsonValue v) => ret (Some v)
  end.

(** [item.connectivity?.length] as a truth value. *)
Definition hasConnectivity (item : PathwayItem) : bool :=
  match item_connectivity item with
  | Some c => negb (Nat.eqb (List.length c) 0)
  | None => false
  end.

(** [async #setPathsFromMap()]: pairs of a value and a label. *)
Definition setPathsFromMap : M t (list (string * string)) :=
  let* data := queryMapPaths in
  match data with
  | Some {| paths := Some paths |} =>
      let connectivityPaths :=
        map fst (List.filter (fun entry => hasConnectivity (snd entry)) paths) in
      ret (map (fun item => (item, "")) connectivityPaths)
  | _ => ret []
  end.

(** The label of a path in the selector, from the entry's label and key. *)
Definition shortLabel (label key : string) : string :=
  if String.eqb label
       (JS.replaceAll (JS.replace (JS.sliceFrom 6 key) "-prime" "'") "-" " ")
  then ""
  else if (String.length label <? 50)%nat then label
       else JS.sliceTo 50 label +:+ "...".

(** The body of the loop of [#setPathsFromSCKAN] for one row. *)
Definition addPathFromSCKAN (row : string * json Knowledge.t)
  : M t (list (string * string)) :=
  let (key, jsonKnowledge) := row in
  let* knowledge := JSON_parse jsonKnowledge in
  let* knowledge := ConnectivityGraph.defined "connectivity" knowledge in
  if bool_decide (is_Some (ConnectivityKnowledge.connectivity (Knowledge.connectivity knowledge)))
  then
    let label := labelOr knowledge key in
    let* app := get in
    modify (set_knowledgeByPath (<[key := knowledge]> (knowledgeByPath app))) ;;
    cacheLabels (Knowledge.connectivity knowledge) ;;
    ret [(key, shortLabel label key)]
  else ret [].

Fixpoint addPathsFromSCKAN (rows : list (string * json Knowledge.t))
  : M t (list (string * string)) :=
  match rows with
  | [] => ret []
  | row :: rest =>
      let* first := addPathFromSCKAN row in
      let* others := addPathsFromSCKAN rest in
      ret (first ++ others)
  end.

(** [async #setPathsFromSCKAN()] *)
Definition setPathsFromSCKAN : M t (list (string * string)) :=
  let* app := get in
  let* data := query sqlPaths [source app] in
  let* data := ConnectivityGraph.defined "values" data in
  addPathsFromSCKAN (values data).

(** The first option of the path selector. *)
Definition pleaseSelectPath : OptionElement.t :=
  {| OptionElement.value := ""; OptionElement.label := "Please select path:";
     OptionElement.selected := false; OptionElement.display := "" |}.

(** The option written for a path of the list. *)
Definition pathOption (path : string) (entry : string * string) : OptionElement.t :=
  let (value, label) := entry in
  {| OptionElement.value := value;
     OptionElement.label := value +:+ JS.str JS.nbsp +:+ JS.str JS.nbsp +:+ label;
     OptionElement.selected := JS.truthy path && String.eqb path value;
     OptionElement.display := "" |}.

(** [async #setPathList()] *)
Definition setPathList : M t unit :=
  modify (set_knowledgeByPath ∅) ;;
  modify (set_labelledTerms []) ;;
  let* app := get in
  let* data := if sourceFromMap app then setPathsFromMap else setPathsFromSCKAN in
  let* app := get in
  let pathList := pleaseSelectPath :: map (pathOption (path app)) data in
  getCachedTermLabels ;;
  onDocument (modify (Document.set_pathOptions pathList)).

(** [async #getAvailableMaps()]; [None] is [null]. *)
Definition getAvailableMaps : M t (option (list MapDescriptor)) :=
  let* app := get in
  match fetch_maps net (mapServer app) with
  | rejected => ret (Some [])
  | resolved false _ => ret (Some [])
  | resolved true notJSON => ret (Some [])
  | resolved true jsonNull => ret None
  | resolved true (jsonValue v) => ret (Some v)
  end.

(** The options of the server selector, and the server chosen when none was:
    the loop of [#setServerList] over [MAP_ENDPOINTS]. *)
Fixpoint serverList (endpoints : list (string * string)) (mapServer : string)
  : list OptionElement.t * string :=
  match endpoints with
  | [] => ([], mapServer)
  | (key, url) :: rest =>
      let mapServer := if JS.truthy mapServer then mapServer else url in
      let o := {| OptionElement.value := url; OptionElement.label := key;
                  OptionElement.selected := String.eqb mapServer url;
                  OptionElement.display := "" |} in
      let (os, mapServer) := serverList rest mapServer in
      (o :: os, mapServer)
  end.

(** [#setServerList()] *)
Definition setServerList : M t unit :=
  let* app := get in
  let (options, server) := serverList MAP_ENDPOINTS (mapServer app) in
  modify (set_mapServer server) ;;
  onDocument (modify (Document.set_serverOptions options)).

(** The options of the releases, and the source chosen when none was: the
    first loop of [#setSourceList]. *)
Fixpoint releaseOptions (sources : list string) (source : string)
  : list SourceItem * string :=
  match sources with
  | [] => ([], source)
  | s :: rest =>
      if JS.truthy s then
        let source := if JS.truthy source then source else s in
        let o := {| OptionElement.value := s; OptionElement.label := s;
                    OptionElement.selected := String.eqb source s;
                    OptionElement.display := "" |} in
        let (os, source) := releaseOptions rest source in
        (option_ o s :: os, source)
      else releaseOptions rest source
  end.

(** [availableMaps.splice(index, 1, map)] at the first descriptor of that id. *)
Fixpoint replaceMap (map : MapDescriptor) (availableMaps : list MapDescriptor)
  : list MapDescriptor :=
  match availableMaps with
  | [] => []
  | m :: rest =>
      if String.eqb (map_id m) (map_id map) then map :: rest
      else m :: replaceMap map rest
  end.

(** The body of [mapSources.forEach]: a map of a new id is added, and one
    of a known id takes the place of the known one when it is more recent. *)
Definition addAvailableMap (availableMaps : list MapDescriptor) (map : MapDescriptor)
  : list MapDescriptor :=
  match List.find (fun m => String.eqb (map_id m) (map_id map)) availableMaps with
  | Some duplicatedMap =>
      if String.ltb (created duplicatedMap) (created map)
      then replaceMap map availableMaps
      else availableMaps
  | None => availableMaps ++ [map]
  end.

(** The body of [MAPS_TO_SHOW.forEach]. *)
Definition mapOption (availableMaps : list MapDescriptor) (source : string)
  (map : string * string) : list SourceItem :=
  let (name, id) := map in
  match List.find (fun m => String.eqb (map_id m) id) availableMaps with
  | Some availableMap =>
      [option_ {| OptionElement.value := uuid availableMap; OptionElement.label := name;
                  OptionElement.selected := String.eqb source (uuid availableMap);
                  OptionElement.display := "" |} name]
  | None => []
  end.

(** [async #setSourceList()] *)
Definition setSourceList : M t unit :=
  let* app := get in
  let* data := getJsonData (fetch_sources net (mapServer app +:+ "knowledge/sources")) in
  let sources := match data with
                 | Some data => match sources data with Some s => s | None => [] end
                 | None => []
                 end in
  let (releases, source) := releaseOptions sources (source app) in
  modify (set_source source) ;;
  let* mapSources := getAvailableMaps in
  let* mapSources := ConnectivityGraph.defined "forEach" mapSources in
  let availableMaps := fold_left addAvailableMap mapSources [] in
  let maps := flat_map (mapOption availableMaps source) MAPS_TO_SHOW in
  onDocument (modify (Document.set_sourceOptions
    ([optgroup "SCKAN Release:"] ++ releases ++ [optgroup_end]
     ++ [optgroup "MAP:"] ++ maps ++ [optgroup_end]))).

(** [async #showGraph(neuronPath, layout)]: the two parameters are not
    read, the fields [#path] and [#layout] are. *)
Definition showGraph (_neuronPath _layout : string) : M t unit :=
  let* app := get in
  if JS.truthy (path app) then
    showSpinner ;;
    let connectivityInfo := Knowledge.connectivity <$> (knowledgeByPath app !! path app) in
    let* connectivityInfo :=
      if sourceFromMap app then
        let* fromMap := fetchMapConnectivity (source app) (path app) in
        modify (set_connectivityFromMap fromMap) ;;
        let* object := ConnectivityGraph.defined "connectivity" fromMap in
        let* connectivity :=
          ConnectivityGraph.defined "length" (ConnectivityKnowledge.connectivity object) in
        (if negb (Nat.eqb (List.length connectivity) 0)
         then cacheLabels object ;; getCachedTermLabels
         else ret tt) ;;
        ret fromMap
      else ret connectivityInfo in
    let* app := get in
    modify (set_connectivityGraph (Some (ConnectivityGraph.new (labelCache app)))) ;;
    onGraph (ConnectivityGraph.addConnectivity connectivityInfo) ;;
    hideSpinner ;;
    hidePrompt ;;
    let* app := get in
    let* g := ConnectivityGraph.defined "showConnectivity" (connectivityGraph app) in
    let* g := onDocument (ConnectivityGraph.showConnectivity (layout app) g) in
    modify (set_connectivityGraph (Some g)) ;;
    let* app := get in
    modify (set_currentPath (path app))
  else showPrompt.

(** [#clearConnectivity()] *)
Definition clearConnectivity : M t unit :=
  let* app := get in
  match connectivityGraph app with
  | Some g =>
      onDocument (ConnectivityGraph.clearConnectivity g) ;;
      modify (set_connectivityGraph None) ;;
      showPrompt
  | None => ret tt
  end ;;
  modify (set_currentPath "").

(** *** The handlers that [run] sets; [value] is [e.target.value] *)

(** [this.#serverSelector.onchange] *)
Definition serverSelector_onchange (value : string) : M t unit :=
  showSpinner ;;
  modify (set_mapServer value) ;;
  setSourceList ;;
  setPathList ;;
  (let* app := get in showGraph (path app) (layout app)) ;;
  (let* app := get in updateURL "server" (mapServer app)) ;;
  hideSpinner.

(** [this.#sourceSelector.onchange] *)
Definition sourceSelector_onchange (value : string) : M t unit :=
  showSpinner ;;
  if JS.truthy value then
    modify (set_source value) ;;
    (if JS.startsWith value "sckan" then
       modify (set_sourceFromMap false) ;;
       setPathList ;;
       (let* app := get in showGraph (path app) (layout app)) ;;
       let* app := get in
       let* found := selectPath (currentPath app) in
       if negb found then clearConnectivity else ret tt
     else
       modify (set_sourceFromMap true) ;;
       setPathList ;;
       (let* app := get in showGraph (path app) (layout app))) ;;
    (let* app := get in updateURL "source" (source app)) ;;
    hideSpinner
  else ret tt.

(** [this.#pathSelector.onchange] *)
Definition pathSelector_onchange (value : string) : M t unit :=
  showSpinner ;;
  (if JS.truthy value then
     modify (set_path value) ;;
     (let* app := get in showGraph (path app) (layout app)) ;;
     (let* app := get in updateURL "path" (path app))
   else
     clearConnectivity ;;
     showPrompt) ;;
  hideSpinner.

(** [this.#layoutSelector.onchange] *)
Definition layoutSelector_onchange (value : string) : M t unit :=
  showSpinner ;;
  modify (set_layout value) ;;
  (let* app := get in showGraph (path app) (layout app)) ;;
  (let* app := get in updateURL "layout" (layout app)) ;;
  hideSpinner.

(** [found] in the loop of [this.#pathSearch.oninput]. *)
Definition found (searchValue : string) (option : OptionElement.t) : bool :=
  let text := JS.toLowerCase (OptionElement.label option) in
  JS.includes text searchValue
  || JS.includes text (JS.join "-" (JS.splitWhiteSpace searchValue)).

(** The body of that loop: the [style.display] written to one option. *)
Definition filterOption (searchValue : string) (option : OptionElement.t)
  : OptionElement.t :=
  OptionElement.set_display
    (if Nat.eqb (String.length (JS.trim searchValue)) 0 || found searchValue option
     then "" else "none")
    option.

(** The loop, which starts at the second option. *)
Definition filterOptions (searchValue : string) (options : list OptionElement.t)
  : list OptionElement.t :=
  match options with
  | [] => []
  | first :: others => first :: map (filterOption searchValue) others
  end.

(** [this.#pathSearch.oninput] *)
Definition pathSearch_oninput (value : string) : M t unit :=
  let searchValue := JS.toLowerCase value in
  onDocument (
    let* doc := get in
    modify (Document.set_pathOptions (filterOptions searchValue (Document.pathOptions doc))) ;;
    modify (Document.set_pathSelectorSize
              (if negb (Nat.eqb (String.length (JS.trim searchValue)) 0) then 10 else 1)) ;;
    modify Document.addPathSelectorListeners).

(** [async run()] *)
Definition run : M t unit :=
  disableTools ;;
  setServerList ;;
  let* schemaVersion := getSchemaVersion in
  if lessThan schemaVersion MIN_SCHEMA_VERSION then
    onDocument (modify (Document.set_noServerDisplay (showElement_display true)))
  else
    showSpinner ;;
    setSourceList ;;
    setPathList ;;
    (let* app := get in
     if JS.truthy (layout app)
     then onDocument (modify (Document.set_layoutSelectorValue (layout app)))
     else ret tt) ;;
    (let* app := get in showGraph (path app) (layout app)) ;;
    hideSpinner ;;
    enableTools ;;
    (let* app := get in
     if negb (JS.truthy (path app)) then showPrompt else ret tt) ;;
    modify (set_handlers true).

End WithNetwork.

End App.

(** ** Notions used in the statements *)

(** The four role flags of a graph node: both-axon-dendrite, axon, soma and
    dendrite. *)
Definition flags (n : GraphNode.t) : bool * bool * bool * bool :=
  (GraphNode.both_a_d n, GraphNode.axon n, GraphNode.soma n, GraphNode.dendrite n).

(** The role of a node as the specification words it, from its membership
    of the three sets: axon and dendrite, else axon, else soma, else
    dendrite, else no flag. *)
Definition rolePrecedence (inAxons inDendrites inSomas : bool)
  : bool * bool * bool * bool :=
  if inAxons && inDendrites then (true, false, false, false)
  else if inAxons then (false, true, false, false)
  else if inSomas then (false, false, true, false)
  else if inDendrites then (false, false, false, true)
  else (false, false, false, false).

(** The nodes of a role set of the knowledge; a set that is absent has no
    node. *)
Definition roleSet (set : option (list KnowledgeNode)) : list KnowledgeNode :=
  match set with
  | Some nodes => nodes
  | None => []
  end.

(** The terms of a node: the primary term, then the qualifying terms. *)
Definition terms (node : KnowledgeNode) : list string := fst node :: snd node.

(** The node that [#graphNode] returns on an object whose role arrays are
    [axons], [dendrites] and [somas]. *)
Definition builtNode (labelCache : gmap string string) (axons dendrites somas : list string)
  (node : KnowledgeNode) : GraphNode.t :=
  let id := stringifyNode node in
  let label := JS.join (JS.str JS.newline) (ConnectivityGraph.labelLines labelCache node) in
  if ConnectivityGraph.includes axons id then
    if ConnectivityGraph.includes dendrites id
    then {| GraphNode.id := id; GraphNode.label := label; GraphNode.both_a_d := true;
            GraphNode.axon := false; GraphNode.soma := false; GraphNode.dendrite := false |}
    else {| GraphNode.id := id; GraphNode.label := label; GraphNode.both_a_d := false;
            GraphNode.axon := true; GraphNode.soma := false; GraphNode.dendrite := false |}
  else if ConnectivityGraph.includes somas id
  then {| GraphNode.id := id; GraphNode.label := label; GraphNode.both_a_d := false;
          GraphNode.axon := false; GraphNode.soma := true; GraphNode.dendrite := false |}
  else if ConnectivityGraph.includes dendrites id
  then {| GraphNode.id := id; GraphNode.label := label; GraphNode.both_a_d := false;
          GraphNode.axon := false; GraphNode.soma := false; GraphNode.dendrite := true |}
  else {| GraphNode.id := id; GraphNode.label := label; GraphNode.both_a_d := false;
          GraphNode.axon := false; GraphNode.soma := false; GraphNode.dendrite := false |}.

(** The edge that [addConnectivity] pushes for an edge of the knowledge. *)
Definition builtEdge (edge : KnowledgeEdge) : GraphEdge.t :=
  {| GraphEdge.id := stringifyNode (fst edge) +:+ "_" +:+ stringifyNode (snd edge);
     GraphEdge.source := stringifyNode (fst edge);
     GraphEdge.target := stringifyNode (snd edge) |}.

(** An option of a selector is visible unless its [style.display] is
    ['none']. *)
Definition visible (o : OptionElement.t) : bool :=
  negb (String.eqb (OptionElement.display o) "none").

(** The query with each maximal run of white space folded to one hyphen. *)
Definition foldToHyphens (searchValue : string) : string :=
  JS.join "-" (JS.splitWhiteSpace searchValue).

(** ** Examples *)

(** A path of one edge, from a node that is both an axon and a dendrite to
    a node with one qualifying term. *)
Definition example_knowledge : ConnectivityKnowledge.t :=
  {| ConnectivityKnowledge.connectivity := Some [(("A", []), ("B", ["C"]))];
     ConnectivityKnowledge.axons := Some [("A", [])];
     ConnectivityKnowledge.dendrites := Some [("A", [])];
     ConnectivityKnowledge.somas := None |}.

(** A node whose primary term holds a line feed. *)
Definition example_two_line_term : KnowledgeNode :=
  (String "a" (String JS.newline "b"), []).

(** An object just made whose role arrays are assigned and empty. *)
Definition example_graph (labelCache : gmap string string) : ConnectivityGraph.t :=
  ConnectivityGraph.set_dendrites []
    (ConnectivityGraph.set_axons [] (ConnectivityGraph.new labelCache)).

(** A cache that has resolved the term [t] to [foo]. *)
Definition example_cache : gmap string string := {[ "t" := "foo" ]}.

(** A computation keeps a view [f] of the state when the state it leaves,
    be it by returning or by throwing, has the view of the state it was
    started in. *)
Definition keeps {S A V : Type} (f : S -> V) (m : M S A) : Prop :=
  forall s : S, f (snd (m s)) = f s.

(** The Selection State of the controller: the server, the data origin and
    whether it is a map, the selected path, and the layout. *)
Definition selection (app : App.t) : string * string * bool * string * string :=
  (App.mapServer app, App.source app, App.sourceFromMap app, App.path app, App.layout app).

(** The address bar: the query of the URL and the length of the history. *)
Definition address (doc : Document.t) : list (string * string) * nat :=
  (Document.searchParams doc, Document.historyLength doc).

(** [url.searchParams.get(key)], [None] being [null]. *)
Fixpoint searchParams_get (key : string) (ps : list (string * string)) : option string :=
  match ps with
  | [] => None
  | (k, v) :: rest => if String.eqb k key then Some v else searchParams_get key rest
  end.

(** A page as it is loaded, with the query [ps] in its address. *)
Definition example_page (ps : list (string * string)) : Document.t :=
  {| Document.pathPromptDisplay := ""; Document.spinnerDisplay := "";
     Document.noServerDisplay := ""; Document.serverOptions := [];
     Document.sourceOptions := []; Document.pathOptions := [];
     Document.pathSelectorSize := 1; Document.pathSelectorListeners := 0;
     Document.layoutSelectorValue := ""; Document.serverSelectorDisabled := false;
     Document.pathSelectorDisabled := false; Document.layoutSelectorDisabled := false;
     Document.sourceSelectorDisabled := false; Document.pathSearchDisabled := false;
     Document.searchParams := ps; Document.historyLength := 1;
     Document.tooltipsCreated := 0; Document.engineCalls := [] |}.

(** The two path options of the specification's example of the search
    filter, after the first option of the selector. *)
Definition example_options : list OptionElement.t :=
  [ App.pleaseSelectPath;
    {| OptionElement.value := "ilxtr:1"; OptionElement.label := "Bladder neuron path";
       OptionElement.selected := false; OptionElement.display := "" |};
    {| OptionElement.value := "ilxtr:2"; OptionElement.label := "Heart-vagal-path";
       OptionElement.selected := false; OptionElement.display := "" |} ].

(** A controller on a page that shows these options. *)
Definition example_search_app : App.t :=
  App.new "https://mapcore-demo.org/curation/flatmap/" "sckan-2024-09-21" "" ""
    (Document.set_pathOptions example_options (example_page [])).

(** A server whose schema version is the number [v], and that answers
    nothing else. *)
Definition example_schema_network (v : number) : Network :=
  {| fetch_schema_version := fun _ => resolved true (jsonValue {| version := Some v |});
     fetch_sources := fun _ => rejected;
     fetch_query := fun _ _ _ => rejected;
     fetch_connectivity := fun _ => rejected;
     fetch_pathways := fun _ => rejected;
     fetch_maps := fun _ => rejected |}.

(** A controller as the page makes it, without parameters in the address. *)
Definition example_new_app : App.t := App.new "" "" "" "" (example_page []).

(** An entry of the knowledge store for a term: a label and nothing of a
    path. *)
Definition termKnowledge (label : string) : json Knowledge.t :=
  jsonValue {| Knowledge.label := Some label;
               Knowledge.connectivity :=
                 {| ConnectivityKnowledge.connectivity := None;
                    ConnectivityKnowledge.axons := None;
                    ConnectivityKnowledge.dendrites := None;
                    ConnectivityKnowledge.somas := None |} |}.

(** The rows of a label lookup for three terms over two releases, the more
    recent release first, as [order by source desc] gives them: the first
    term has a row in each release. *)
Definition example_label_rows : list (string * json Knowledge.t) :=
  [ ("UBERON:1", termKnowledge "heart (2024)");
    ("UBERON:2", termKnowledge "lung (2024)");
    ("UBERON:3", termKnowledge "liver (2024)");
    ("UBERON:1", termKnowledge "heart (2023)") ].

(** A server that answers every query with these rows. *)
Definition example_label_network : Network :=
  {| fetch_schema_version := fun _ => rejected;
     fetch_sources := fun _ => rejected;
     fetch_query := fun _ _ _ => resolved true (jsonValue {| values := example_label_rows |});
     fetch_connectivity := fun _ => rejected;
     fetch_pathways := fun _ => rejected;
     fetch_maps := fun _ => rejected |}.

(** A controller that needs the labels of the three terms. *)
Definition example_label_app : App.t :=
  App.set_labelledTerms ["UBERON:1"; "UBERON:2"; "UBERON:3"]
    (App.new "https://mapcore-demo.org/curation/flatmap/" "sckan-2024-09-21" "" ""
       (example_page [])).

(** A server with one release, which holds the path [ilxtr:neuron-1], and
    one map, [rat-uuid], whose pathways hold the path [ilxtr:neuron-2] only
    and which answers 404 to the connectivity of any other path. *)
Definition example_origin_network : Network :=
  {| fetch_schema_version :=
       fun _ => resolved true (jsonValue {| version := Some (finite (QArith_base.Qmake 13 10)) |});
     fetch_sources :=
       fun _ => resolved true (jsonValue {| sources := Some ["sckan-2024-09-21"] |});
     fetch_query :=
       fun _ sql _ =>
         if String.eqb sql App.sqlPaths
         then resolved true
                (jsonValue
                   {| values :=
                        [("ilxtr:neuron-1",
                          jsonValue {| Knowledge.label := Some "neuron 1";
                                       Knowledge.connectivity := example_knowledge |})] |})
         else resolved true (jsonValue {| values := [] |});
     fetch_connectivity := fun _ => resolved false notJSON;
     fetch_pathways :=
       fun _ => resolved true
                  (jsonValue
                     {| paths :=
                          Some [("ilxtr:neuron-2",
                                 {| item_connectivity := Some [(("A", []), ("B", []))] |})] |});
     fetch_maps :=
       fun _ => resolved true
                  (jsonValue [{| map_id := "rat-flatmap"; uuid := "rat-uuid";
                                 created := "2024-10-01" |}]) |}.

(** The controller of a page opened on that release and that path. *)
Definition example_origin_app : App.t :=
  App.new "" "sckan-2024-09-21" "ilxtr:neuron-1" ""
    (example_page [("source", "sckan-2024-09-21"); ("path", "ilxtr:neuron-1")]).

(** The controller of a page set on that release and on the one path that
    the map holds. *)
Definition example_second_app : App.t :=
  App.new "https://mapcore-demo.org/curation/flatmap/" "sckan-2024-09-21" "ilxtr:neuron-2" ""
    (example_page [("source", "sckan-2024-09-21"); ("path", "ilxtr:neuron-2")]).

(** ** The start of the page ([index.js]) *)

(** The four constants that [index.js] reads from the query of the address
    and hands to [new App], in that order; [None] is [null], what
    [searchParams.get] gives for a parameter that the query does not hold. *)
Module Index.
Record t : Type := {
  MAP_SERVER : option string;
  SCKAN : option string;
  PATH : option string;
  LAYOUT : option string
}.

Definition read (doc : Document.t) : t :=
  let searchParams := Document.searchParams doc in
  {| MAP_SERVER := searchParams_get "server" searchParams;
     SCKAN := searchParams_get "sckan" searchParams;
     PATH := searchParams_get "path" searchParams;
     LAYOUT := searchParams_get "layout" searchParams |}.
End Index.

(** ** Further notions used in the statements *)

(** The pairs of a query that have the key [key]. *)
Definition pairsOf (key : string) (ps : list (string * string)) : list (string * string) :=
  List.filter (fun kv => String.eqb (fst kv) key) ps.

(** The calls that clearing a graph makes to the engine: its instance is
    destroyed when it has one. *)
Definition clearingCalls (graph : option ConnectivityGraph.t) : list EngineCall :=
  match graph with
  | Some g => match ConnectivityGraph.cy g with
              | Some _ => [cytoscape_destroy]
              | None => []
              end
  | None => []
  end.

(** The terms of the two ends of the edges of a path, in the order in which
    [#cacheLabels] meets them. *)
Definition edgeTerms (connectivity : list KnowledgeEdge) : list string :=
  flat_map (fun edge => terms (fst edge) ++ terms (snd edge)) connectivity.

(** The number of occurrences of a code unit in a string. *)
Fixpoint countChar (c : ascii) (s : string) : nat :=
  match s with
  | EmptyString => 0
  | String x rest => (if Ascii.eqb x c then 1 else 0) + countChar c rest
  end.

(** The readable form of the key of a path, to which [#setPathsFromSCKAN]
    compares its label: the key without its first six code units, with the
    first [-prime] turned into a quote and every hyphen into a space. *)
Definition readableKey (key : string) : string :=
  JS.replaceAll (JS.replace (JS.sliceFrom 6 key) "-prime" "'") "-" " ".

(** What an option shows apart from the selection: its value, its label and
    its [style.display]. *)
Definition unselected (o : OptionElement.t) : string * string * string :=
  (OptionElement.value o, OptionElement.label o, OptionElement.display o).

(** A value that can be written between double quotes in the selector
    [option[value="..."]] as it is: it holds no double quote, no backslash
    and no line break. *)
Definition selectorSafe (value : string) : bool :=
  forallb (fun c => negb (Ascii.eqb c JS.dquote || Ascii.eqb c JS.backslash
                          || Ascii.eqb c JS.newline || Ascii.eqb c "012"%char
                          || Ascii.eqb c "013"%char))
    (list_ascii_of_string value).

(** The paths of the answer of a map that have a connectivity that is not
    empty, in the order in which the keys of the answer are enumerated. *)
Definition connectivityPaths (paths : list (string * PathwayItem)) : list string :=
  map fst (List.filter (fun entry => App.hasConnectivity (snd entry)) paths).

(** The paths that the [pathways] endpoint of a map gives: none when the
    request fails, when the response is not [ok], when its body is not JSON
    or is [null], and when it has no [paths]. *)
Definition pathsOfMap (r : response Pathways) : list (string * PathwayItem) :=
  match r with
  | resolved true (jsonValue {| paths := Some paths |}) => paths
  | _ => []
  end.

(** The [disabled] property of the five controls: the server, source, path
    and layout selectors and the search box. *)
Definition disabled (doc : Document.t) : bool * bool * bool * bool * bool :=
  (Document.serverSelectorDisabled doc, Document.sourceSelectorDisabled doc,
   Document.pathSelectorDisabled doc, Document.layoutSelectorDisabled doc,
   Document.pathSearchDisabled doc).

(** The rows that a query of the knowledge store gives: none when the
    request fails, when the response is not [ok] and when its body is not
    JSON. *)
Definition rowsOf (r : response DataValues) : list (string * json Knowledge.t) :=
  match r with
  | resolved true (jsonValue data) => values data
  | _ => []
  end.

(** The releases that the [sources] endpoint gives: none when the request
    fails, when its body is not JSON or is [null], and when it has no
    [sources]; a response that is not [ok] is read all the same. *)
Definition sourcesOf (r : response SourceList) : list string :=
  match r with
  | resolved _ (jsonValue {| sources := Some s |}) => s
  | _ => []
  end.

(** The origin once the releases are listed: the one given when there is
    one, and the first release that is not empty otherwise. *)
Definition chosenSource (source : string) (releases : list string) : string :=
  if JS.truthy source then source
  else match List.filter JS.truthy releases with
       | first :: _ => first
       | [] => source
       end.

(** The option of the source selector for a release, when the origin is
    [source]. *)
Definition releaseOption (source release : string) : SourceItem :=
  option_ {| OptionElement.value := release; OptionElement.label := release;
             OptionElement.selected := String.eqb source release;
             OptionElement.display := "" |} release.

(** ** Further examples *)

(** A server whose release holds one path and one row that is not JSON. *)
Definition example_unreadable_network : Network :=
  {| fetch_schema_version := fetch_schema_version example_origin_network;
     fetch_sources := fetch_sources example_origin_network;
     fetch_query :=
       fun _ _ _ =>
         resolved true
           (jsonValue
              {| values :=
                   [("ilxtr:neuron-1",
                     jsonValue {| Knowledge.label := Some "neuron 1";
                                  Knowledge.connectivity := example_knowledge |});
                    ("ilxtr:neuron-2", notJSON)] |});
     fetch_connectivity := fetch_connectivity example_origin_network;
     fetch_pathways := fetch_pathways example_origin_network;
     fetch_maps := fetch_maps example_origin_network |}.

(** The maps that a server lists: two maps of the rat, the older one
    first, and a map of the mouse. *)
Definition example_maps : list MapDescriptor :=
  [ {| map_id := "rat-flatmap"; uuid := "rat-old"; created := "2023-05-01" |};
    {| map_id := "rat-flatmap"; uuid := "rat-new"; created := "2024-10-01" |};
    {| map_id := "mouse-flatmap"; uuid := "mouse"; created := "2024-01-15" |} ].

(** A server whose maps answer the JSON [null] to every request of a
    connectivity. *)
Definition example_null_network : Network :=
  {| fetch_schema_version := fetch_schema_version example_origin_network;
     fetch_sources := fetch_sources example_origin_network;
     fetch_query := fetch_query example_origin_network;
     fetch_connectivity := fun _ => resolved true jsonNull;
     fetch_pathways := fetch_pathways example_origin_network;
     fetch_maps := fetch_maps example_origin_network |}.



(* ===================================================================== *)
(** * Part II. Properties *)
(* ===================================================================== *)

(** ** The monad *)

Lemma bind_returns {S A B : Type} (m : M S A) (k : A -> M S B) (s s' : S) (a : A) :
  m s = (Returns a, s') -> bind m k s = k a s'.
Proof. intros H. unfold bind. rewrite H. reflexivity. Qed.

Lemma bind_throws {S A B : Type} (m : M S A) (k : A -> M S B) (s s' : S) (e : error) :
  m s = (Throws e, s') -> bind m k s = (Throws e, s').
Proof. intros H. unfold bind. rewrite H. reflexivity. Qed.

Lemma bind_returns_inv {S A B : Type} (m : M S A) (k : A -> M S B) (s s'' : S) (b : B) :
  bind m k s = (Returns b, s'') ->
  exists (a : A) (s' : S), m s = (Returns a, s') /\ k a s' = (Returns b, s'').
Proof.
  unfold bind. destruct (m s) as [[a | e] s']; intros H.
  - exists a, s'. split; [reflexivity | exact H].
  - discriminate H.
Qed.

Lemma bind_get {S B : Type} (k : S -> M S B) (s : S) : bind get k s = k s s.
Proof. reflexivity. Qed.

Lemma bind_modify {S B : Type} (u : S -> S) (k : unit -> M S B) (s : S) :
  bind (modify u) k s = k tt (u s).
Proof. reflexivity. Qed.

Lemma bind_ret {S A B : Type} (a : A) (k : A -> M S B) (s : S) : bind (ret a) k s = k a s.
Proof. reflexivity. Qed.

Lemma bind_assoc {S A B C : Type} (m : M S A) (k : A -> M S B) (k' : B -> M S C) (s : S) :
  bind (bind m k) k' s = bind m (fun a => bind (k a) k') s.
Proof. unfold bind. destruct (m s) as [[a | e] s']; reflexivity. Qed.

(** ** Strings *)

Lemma append_nil (s : string) : EmptyString +:+ s = s.
Proof. reflexivity. Qed.

Lemma append_cons (c : ascii) (a b : string) : String c a +:+ b = String c (a +:+ b).
Proof. reflexivity. Qed.

Lemma append_assoc (a b c : string) : (a +:+ b) +:+ c = a +:+ (b +:+ c).
Proof.
  induction a as [|x a IH]; [reflexivity |].
  rewrite !append_cons, IH. reflexivity.
Qed.

Lemma unescapeChar_escapeChar (c : ascii) (rest : string) :
  JS.unescapeChar (JS.escapeChar c +:+ rest) = Some (c, rest).
Proof.
  destruct c as [[] [] [] [] [] [] [] []]; reflexivity.
Qed.

(** *** [JSON.stringify] is injective on knowledge nodes *)

Lemma string_cons_inj (c1 c2 : ascii) (s1 s2 : string) :
  String c1 s1 = String c2 s2 -> c1 = c2 /\ s1 = s2.
Proof. intros H. injection H as -> ->. split; reflexivity. Qed.

Lemma escape_dquote_inj (s1 : string) :
  forall s2 r1 r2,
    JS.escape s1 +:+ String JS.dquote r1 = JS.escape s2 +:+ String JS.dquote r2 ->
    s1 = s2 /\ r1 = r2.
Proof.
  induction s1 as [|c1 s1 IH]; intros [|c2 s2] r1 r2 H.
  - injection H as ->. split; reflexivity.
  - apply (f_equal JS.unescapeChar) in H.
    change (JS.escape (String c2 s2)) with (JS.escapeChar c2 +:+ JS.escape s2) in H.
    rewrite append_assoc, unescapeChar_escapeChar in H. discriminate H.
  - apply (f_equal JS.unescapeChar) in H.
    change (JS.escape (String c1 s1)) with (JS.escapeChar c1 +:+ JS.escape s1) in H.
    rewrite append_assoc, unescapeChar_escapeChar in H. discriminate H.
  - change (JS.escape (String c1 s1)) with (JS.escapeChar c1 +:+ JS.escape s1) in H.
    change (JS.escape (String c2 s2)) with (JS.escapeChar c2 +:+ JS.escape s2) in H.
    rewrite !append_assoc in H.
    apply (f_equal JS.unescapeChar) in H.
    rewrite !unescapeChar_escapeChar in H.
    injection H as -> H.
    destruct (IH _ _ _ H) as [-> ->]. split; reflexivity.
Qed.

Lemma stringifyString_inj (s1 s2 r1 r2 : string) :
  JS.stringifyString s1 +:+ r1 = JS.stringifyString s2 +:+ r2 -> s1 = s2 /\ r1 = r2.
Proof.
  unfold JS.stringifyString, JS.str. rewrite !append_cons, !append_assoc, !append_cons, !append_nil.
  intros H. injection H as H. exact (escape_dquote_inj _ _ _ _ H).
Qed.

Lemma stringifyString_head (s r : string) :
  exists t, JS.stringifyString s +:+ r = String JS.dquote t.
Proof. unfold JS.stringifyString. rewrite append_cons. eauto. Qed.

Lemma join_cons (sep x : string) (xs : list string) :
  JS.join sep (x :: xs) = x +:+ match xs with [] => "" | _ => sep +:+ JS.join sep xs end.
Proof.
  destruct xs; simpl.
  - unfold JS.join. simpl. induction x; [reflexivity|]. rewrite append_cons. congruence.
  - reflexivity.
Qed.

Lemma stringifyStrings_items_inj (xs : list string) :
  forall ys r1 r2,
    JS.join "," (map JS.stringifyString xs) +:+ String "]" r1
    = JS.join "," (map JS.stringifyString ys) +:+ String "]" r2 ->
    xs = ys /\ r1 = r2.
Proof.
  induction xs as [|x xs IH]; intros [|y ys] r1 r2 H.
  - injection H as ->. split; reflexivity.
  - exfalso. rewrite map_cons, join_cons, append_assoc in H.
    destruct (stringifyString_head y
                (match map JS.stringifyString ys with
                 | [] => ""
                 | _ => "," +:+ JS.join "," (map JS.stringifyString ys)
                 end +:+ String "]" r2)) as [t Ht].
    rewrite Ht in H. discriminate H.
  - exfalso. rewrite map_cons, join_cons, append_assoc in H.
    destruct (stringifyString_head x
                (match map JS.stringifyString xs with
                 | [] => ""
                 | _ => "," +:+ JS.join "," (map JS.stringifyString xs)
                 end +:+ String "]" r1)) as [t Ht].
    rewrite Ht in H. discriminate H.
  - rewrite !map_cons, !join_cons, !append_assoc in H.
    apply stringifyString_inj in H as [-> H].
    destruct xs as [|x' xs], ys as [|y' ys].
    + injection H as ->. split; reflexivity.
    + exfalso. discriminate H.
    + exfalso. discriminate H.
    + rewrite !map_cons in H. cbv iota in H.
      rewrite !append_assoc, !append_cons, !append_nil in H.
      apply string_cons_inj in H as [_ H].
      destruct (IH (y' :: ys) _ _ H) as [-> ->]. split; reflexivity.
Qed.

Lemma stringifyNode_inj (n1 n2 : KnowledgeNode) :
  stringifyNode n1 = stringifyNode n2 -> n1 = n2.
Proof.
  destruct n1 as [t1 q1], n2 as [t2 q2]. unfold stringifyNode, JS.stringifyStrings.
  simpl fst; simpl snd.
  rewrite !append_cons, !append_nil. intros H.
  apply string_cons_inj in H as [_ H].
  apply stringifyString_inj in H as [-> H].
  apply string_cons_inj in H as [_ H].
  apply string_cons_inj in H as [_ H].
  rewrite !append_assoc in H.
  apply stringifyStrings_items_inj in H as [-> _]. reflexivity.
Qed.

(** ** The model builder *)

Lemma includes_In (xs : list string) (x : string) :
  ConnectivityGraph.includes xs x = true <-> x ∈ xs.
Proof.
  unfold ConnectivityGraph.includes. rewrite existsb_exists. split.
  - intros (y & Hy & E). apply String.eqb_eq in E. subst y. now apply list_elem_of_In.
  - intros H. exists x. split; [now apply list_elem_of_In | apply String.eqb_refl].
Qed.

Lemma includes_stringifyNode (nodes : list KnowledgeNode) (node : KnowledgeNode) :
  ConnectivityGraph.includes (map stringifyNode nodes) (stringifyNode node)
  = bool_decide (node ∈ nodes).
Proof.
  apply eq_true_iff_eq. rewrite includes_In, bool_decide_eq_true. split.
  - intros H. apply list_elem_of_fmap in H as (n & E & Hn).
    apply stringifyNode_inj in E. now subst.
  - intros H. apply list_elem_of_fmap. eauto.
Qed.

Ltac case_roles ax den som node :=
  destruct (ConnectivityGraph.includes ax (stringifyNode node)),
    (ConnectivityGraph.includes den (stringifyNode node)),
    (ConnectivityGraph.includes som (stringifyNode node)); reflexivity.

Lemma graphNode_built (g : ConnectivityGraph.t) (ax den : list string) (node : KnowledgeNode) :
  ConnectivityGraph.axons g = Some ax ->
  ConnectivityGraph.dendrites g = Some den ->
  ConnectivityGraph.graphNode node g
  = (Returns (builtNode (ConnectivityGraph.labelCache g) ax den (ConnectivityGraph.somas g) node), g).
Proof.
  intros Ha Hd. unfold ConnectivityGraph.graphNode, builtNode.
  cbv beta iota zeta delta [bind get]. rewrite Ha, Hd.
  cbv beta iota zeta delta [bind ret ConnectivityGraph.defined].
  case_roles ax den (ConnectivityGraph.somas g) node.
Qed.

Lemma flags_builtNode cache ax den som node :
  flags (builtNode cache ax den som node)
  = rolePrecedence (ConnectivityGraph.includes ax (stringifyNode node))
      (ConnectivityGraph.includes den (stringifyNode node))
      (ConnectivityGraph.includes som (stringifyNode node)).
Proof.
  unfold builtNode, rolePrecedence, flags.
  case_roles ax den som node.
Qed.

Lemma id_builtNode cache ax den som node :
  GraphNode.id (builtNode cache ax den som node) = stringifyNode node.
Proof.
  unfold builtNode.
  case_roles ax den som node.
Qed.

Lemma label_builtNode cache ax den som node :
  GraphNode.label (builtNode cache ax den som node)
  = JS.join (JS.str JS.newline) (ConnectivityGraph.labelLines cache node).
Proof.
  unfold builtNode.
  case_roles ax den som node.
Qed.

(** The object after the loop of [addConnectivity] over [conn]. *)
Lemma addEdge_built (g : ConnectivityGraph.t) (ax den : list string) (e : KnowledgeEdge) :
  ConnectivityGraph.axons g = Some ax ->
  ConnectivityGraph.dendrites g = Some den ->
  let N := builtNode (ConnectivityGraph.labelCache g) ax den (ConnectivityGraph.somas g) in
  ConnectivityGraph.addEdge e g
  = (Returns tt,
     ConnectivityGraph.push_edge (builtEdge e)
       (ConnectivityGraph.push_node (N (snd e)) (ConnectivityGraph.push_node (N (fst e)) g))).
Proof.
  intros Ha Hd N. unfold ConnectivityGraph.addEdge.
  rewrite (bind_returns _ _ _ _ _ (graphNode_built g ax den (fst e) Ha Hd)).
  rewrite (bind_returns _ _ _ _ _ (graphNode_built g ax den (snd e) Ha Hd)).
  subst N. unfold bind, modify, builtEdge. rewrite !id_builtNode. reflexivity.
Qed.

Lemma forOf_addEdge (conn : list KnowledgeEdge) :
  forall (g : ConnectivityGraph.t) (ax den : list string),
    ConnectivityGraph.axons g = Some ax ->
    ConnectivityGraph.dendrites g = Some den ->
    let N := builtNode (ConnectivityGraph.labelCache g) ax den (ConnectivityGraph.somas g) in
    forOf conn ConnectivityGraph.addEdge g
    = (Returns tt,
       {| ConnectivityGraph.cy := ConnectivityGraph.cy g;
          ConnectivityGraph.nodes :=
            ConnectivityGraph.nodes g ++ flat_map (fun e => [N (fst e); N (snd e)]) conn;
          ConnectivityGraph.edges := ConnectivityGraph.edges g ++ map builtEdge conn;
          ConnectivityGraph.axons := ConnectivityGraph.axons g;
          ConnectivityGraph.dendrites := ConnectivityGraph.dendrites g;
          ConnectivityGraph.somas := ConnectivityGraph.somas g;
          ConnectivityGraph.labelCache := ConnectivityGraph.labelCache g |}).
Proof.
  induction conn as [|e conn IH]; intros g ax den Ha Hd N.
  - simpl. unfold ret. rewrite !app_nil_r. destruct g; reflexivity.
  - simpl forOf. rewrite (bind_returns _ _ _ _ _ (addEdge_built g ax den e Ha Hd)).
    rewrite (IH _ ax den) by exact Ha || exact Hd. simpl.
    fold N. rewrite <- !app_assoc. reflexivity.
Qed.

(** The object that [addConnectivity] leaves when it is given a knowledge
    that has its three arrays, on an object just made. *)
Lemma addConnectivity_built (cache : gmap string string) (k : ConnectivityKnowledge.t)
  (conn : list KnowledgeEdge) (ax den : list KnowledgeNode) :
  ConnectivityKnowledge.connectivity k = Some conn ->
  ConnectivityKnowledge.axons k = Some ax ->
  ConnectivityKnowledge.dendrites k = Some den ->
  let som := map stringifyNode (roleSet (ConnectivityKnowledge.somas k)) in
  let N := builtNode cache (map stringifyNode ax) (map stringifyNode den) som in
  ConnectivityGraph.addConnectivity (Some k) (ConnectivityGraph.new cache)
  = (Returns tt,
     {| ConnectivityGraph.cy := None;
        ConnectivityGraph.nodes :=
          match conn with
          | [] => [ConnectivityGraph.MISSING]
          | _ => flat_map (fun e => [N (fst e); N (snd e)]) conn
          end;
        ConnectivityGraph.edges := map builtEdge conn;
        ConnectivityGraph.axons := Some (map stringifyNode ax);
        ConnectivityGraph.dendrites := Some (map stringifyNode den);
        ConnectivityGraph.somas := som;
        ConnectivityGraph.labelCache := cache |}).
Proof.
  intros Hc Ha Hd som N. unfold ConnectivityGraph.addConnectivity.
  cbv beta iota zeta delta [bind ConnectivityGraph.defined ret]. rewrite Ha.
  cbv beta iota zeta delta [bind ConnectivityGraph.defined ret modify]. rewrite Hd.
  cbv beta iota zeta delta [bind ConnectivityGraph.defined ret modify]. rewrite Hc.
  subst som N.
  destruct (ConnectivityKnowledge.somas k) as [soms|]; cbv beta iota zeta delta [modify ret roleSet];
    (destruct conn as [|e conn]; [reflexivity|]);
    cbv beta iota zeta delta [length Nat.eqb negb];
    erewrite forOf_addEdge by reflexivity; reflexivity.
Qed.

Lemma flat_map_pair_lookup {A B : Type} (f h : A -> B) (xs : list A) :
  forall i : nat,
    flat_map (fun x => [f x; h x]) xs !! (2 * i)%nat = f <$> xs !! i
    /\ flat_map (fun x => [f x; h x]) xs !! (2 * i + 1)%nat = h <$> xs !! i.
Proof.
  induction xs as [|x xs IH]; intros i.
  - split; reflexivity.
  - destruct i as [|i].
    + split; reflexivity.
    + replace (2 * S i)%nat with (S (S (2 * i))) by lia.
      replace (S (S (2 * i)) + 1)%nat with (S (S (2 * i + 1))) by lia.
      simpl. exact (IH i).
Qed.

Lemma lookup_map {A B : Type} (f : A -> B) (xs : list A) (i : nat) :
  map f xs !! i = f <$> xs !! i.
Proof.
  revert i. induction xs as [|x xs IH]; intros [|i]; try reflexivity. exact (IH i).
Qed.

Lemma flat_map_pair_length {A B : Type} (f h : A -> B) (xs : list A) :
  length (flat_map (fun x => [f x; h x]) xs) = (2 * length xs)%nat.
Proof. induction xs as [|x xs IH]; simpl; [reflexivity | rewrite IH; lia]. Qed.

(** *** Splitting a label into its lines *)

Lemma split_newlineFree (s : string) :
  JS.newlineFree s = true -> JS.split JS.newline s = [s].
Proof.
  induction s as [|c s IH]; [reflexivity |].
  simpl. intros H. apply andb_prop in H as [Hc Hs].
  apply negb_true_iff in Hc. rewrite Hc, (IH Hs). reflexivity.
Qed.

Lemma split_append_newline (s rest : string) :
  JS.newlineFree s = true ->
  JS.split JS.newline (s +:+ String JS.newline rest) = s :: JS.split JS.newline rest.
Proof.
  induction s as [|c s IH]; intros H.
  - reflexivity.
  - rewrite append_cons. simpl in H |- *. apply andb_prop in H as [Hc Hs].
    apply negb_true_iff in Hc. rewrite Hc, (IH Hs). reflexivity.
Qed.

Lemma split_join (lines : list string) :
  lines <> [] ->
  forallb JS.newlineFree lines = true ->
  JS.split JS.newline (JS.join (JS.str JS.newline) lines) = lines.
Proof.
  induction lines as [|l lines IH]; intros Hne H; [congruence |].
  simpl in H. apply andb_prop in H as [Hl Hs].
  rewrite join_cons. destruct lines as [|l' lines].
  - replace (l +:+ "") with l by (clear; induction l; [reflexivity | rewrite append_cons; congruence]).
    now apply split_newlineFree.
  - unfold JS.str at 1. rewrite append_cons, append_nil.
    rewrite split_append_newline by exact Hl.
    rewrite IH by (congruence || exact Hs). reflexivity.
Qed.

Lemma labelLines_length cache node :
  length (ConnectivityGraph.labelLines cache node) = (2 * length (terms node))%nat.
Proof.
  unfold ConnectivityGraph.labelLines, terms. rewrite length_app, length_map. lia.
Qed.

Lemma labelLines_terms cache node :
  ConnectivityGraph.labelLines cache node
  = terms node ++ map (ConnectivityGraph.humanLabel cache) (terms node).
Proof. reflexivity. Qed.

(** C1, as amended. For every [ConnectivityKnowledge] object that has its
    [axons] and [dendrites] arrays and an empty [connectivity] list,
    [addConnectivity] on an object just made returns without throwing and
    leaves exactly one node, the sentinel of id ['MISSING'] and label
    ['NO PATHS'] with no flag, and no edge. *)
Theorem C1_empty_connectivity_gives_sentinel (cache : gmap string string)
  (k : ConnectivityKnowledge.t) (ax den : list KnowledgeNode) :
  ConnectivityKnowledge.connectivity k = Some [] ->
  ConnectivityKnowledge.axons k = Some ax ->
  ConnectivityKnowledge.dendrites k = Some den ->
  exists g : ConnectivityGraph.t,
    ConnectivityGraph.addConnectivity (Some k) (ConnectivityGraph.new cache) = (Returns tt, g)
    /\ ConnectivityGraph.nodes g = [ConnectivityGraph.MISSING]
    /\ ConnectivityGraph.edges g = []
    /\ ConnectivityGraph.elements g = [NodeElement ConnectivityGraph.MISSING].
Proof.
  intros Hc Ha Hd. eexists. split.
  - exact (addConnectivity_built cache k [] ax den Hc Ha Hd).
  - repeat split; reflexivity.
Qed.

(** The fallback of the gateway, [emptyConnectivity], is such an object. *)
Lemma C1_witness :
  exists g : ConnectivityGraph.t,
    ConnectivityGraph.addConnectivity (Some App.emptyConnectivity) (ConnectivityGraph.new ∅)
    = (Returns tt, g)
    /\ ConnectivityGraph.nodes g = [ConnectivityGraph.MISSING]
    /\ ConnectivityGraph.edges g = []
    /\ ConnectivityGraph.elements g = [NodeElement ConnectivityGraph.MISSING].
Proof.
  exact (C1_empty_connectivity_gives_sentinel ∅ App.emptyConnectivity [] []
           eq_refl eq_refl eq_refl).
Defined.

(** C1, as stated, fails: when the knowledge is missing ([undefined], what
    [Map.get] returns for a path that the map does not hold), and when it is
    malformed (here an object with an empty [connectivity] and no [axons]),
    [addConnectivity] throws a [TypeError] and leaves no node at all. *)
Lemma C1_counterexample :
  ConnectivityGraph.addConnectivity None (ConnectivityGraph.new ∅)
  = (Throws (TypeError "Cannot read properties of undefined, reading axons"),
     ConnectivityGraph.new ∅)
  /\ ConnectivityGraph.addConnectivity
       (Some {| ConnectivityKnowledge.connectivity := Some [];
                ConnectivityKnowledge.axons := None;
                ConnectivityKnowledge.dendrites := None;
                ConnectivityKnowledge.somas := None |})
       (ConnectivityGraph.new ∅)
     = (Throws (TypeError "Cannot read properties of undefined, reading map"),
        ConnectivityGraph.new ∅).
Proof. split; reflexivity. Qed.

(** C2. For every [ConnectivityKnowledge] (an object with its [axons] and
    [dendrites] arrays) whose [connectivity] list is not empty and has n
    edges, [addConnectivity] on an object just made returns and leaves 2n
    nodes and n edges in the order of the input: the nodes at 2i and 2i+1
    are those of the two ends of edge i, and the edge at i has the id
    [sourceId_targetId] of their ids, its source and its target. An edge
    that occurs twice in the input occurs twice in the result. *)
Theorem C2_nodes_and_edges_in_input_order (cache : gmap string string)
  (k : ConnectivityKnowledge.t) (conn : list KnowledgeEdge) (ax den : list KnowledgeNode) :
  ConnectivityKnowledge.connectivity k = Some conn ->
  conn <> [] ->
  ConnectivityKnowledge.axons k = Some ax ->
  ConnectivityKnowledge.dendrites k = Some den ->
  exists g : ConnectivityGraph.t,
    ConnectivityGraph.addConnectivity (Some k) (ConnectivityGraph.new cache) = (Returns tt, g)
    /\ length (ConnectivityGraph.nodes g) = (2 * length conn)%nat
    /\ length (ConnectivityGraph.edges g) = length conn
    /\ (forall (i : nat) (e : KnowledgeEdge),
          conn !! i = Some e ->
          GraphNode.id <$> ConnectivityGraph.nodes g !! (2 * i)%nat
          = Some (stringifyNode (fst e))
          /\ GraphNode.id <$> ConnectivityGraph.nodes g !! (2 * i + 1)%nat
             = Some (stringifyNode (snd e))
          /\ ConnectivityGraph.edges g !! i
             = Some {| GraphEdge.id := stringifyNode (fst e) +:+ "_" +:+ stringifyNode (snd e);
                       GraphEdge.source := stringifyNode (fst e);
                       GraphEdge.target := stringifyNode (snd e) |})
    /\ (forall (i j : nat) (e : KnowledgeEdge),
          i <> j -> conn !! i = Some e -> conn !! j = Some e ->
          ConnectivityGraph.edges g !! i = Some (builtEdge e)
          /\ ConnectivityGraph.edges g !! j = Some (builtEdge e)).
Proof.
  intros Hc Hne Ha Hd. eexists. split.
  - exact (addConnectivity_built cache k conn ax den Hc Ha Hd).
  - destruct conn as [|e0 conn]; [congruence |].
    cbv beta iota zeta delta [ConnectivityGraph.nodes ConnectivityGraph.edges].
    split; [apply flat_map_pair_length |].
    split; [apply length_map |].
    split.
    + intros i e Hi.
      unfold KnowledgeEdge in *.
      destruct (flat_map_pair_lookup
                  (fun e => builtNode cache (map stringifyNode ax) (map stringifyNode den)
                              (map stringifyNode (roleSet (ConnectivityKnowledge.somas k))) (fst e))
                  (fun e => builtNode cache (map stringifyNode ax) (map stringifyNode den)
                              (map stringifyNode (roleSet (ConnectivityKnowledge.somas k))) (snd e))
                  (e0 :: conn) i) as [H0 H1].
      rewrite Hi in H0, H1.
      rewrite H0, H1, lookup_map, Hi. cbv beta iota delta [fmap option_fmap option_map].
      rewrite !id_builtNode. repeat split.
    + intros i j e _ Hi Hj. unfold KnowledgeEdge in *.
      rewrite !lookup_map, Hi, Hj. split; reflexivity.
Qed.

(** The theorem on the example path of one edge. *)
Lemma C2_witness :
  exists g : ConnectivityGraph.t,
    ConnectivityGraph.addConnectivity (Some example_knowledge) (ConnectivityGraph.new ∅)
    = (Returns tt, g)
    /\ length (ConnectivityGraph.nodes g) = 2%nat
    /\ length (ConnectivityGraph.edges g) = 1%nat.
Proof.
  destruct (C2_nodes_and_edges_in_input_order ∅ example_knowledge
              [(("A", []), ("B", ["C"]))] [("A", [])] [("A", [])]
              eq_refl ltac:(discriminate) eq_refl eq_refl) as (g & H & Hn & He & _).
  exists g. repeat split; assumption.
Defined.

(** C3. For every [KnowledgeNode] converted to a [GraphNode], on an object
    whose role arrays are the ids of the axon, dendrite and soma sets, the
    flags follow the precedence: in both the axon and the dendrite sets,
    both-axon-dendrite; else in the axon set, axon; else in the soma set,
    soma; else in the dendrite set, dendrite; else no flag. A node of both
    the axon and the dendrite sets is flagged neither axon nor dendrite, be
    it a soma or not. *)
Theorem C3_role_precedence (g : ConnectivityGraph.t) (node : KnowledgeNode)
  (ax den som : list KnowledgeNode) :
  ConnectivityGraph.axons g = Some (map stringifyNode ax) ->
  ConnectivityGraph.dendrites g = Some (map stringifyNode den) ->
  ConnectivityGraph.somas g = map stringifyNode som ->
  exists n : GraphNode.t,
    ConnectivityGraph.graphNode node g = (Returns n, g)
    /\ flags n = rolePrecedence (bool_decide (node ∈ ax)) (bool_decide (node ∈ den))
                   (bool_decide (node ∈ som))
    /\ (node ∈ ax -> node ∈ den ->
        GraphNode.both_a_d n = true /\ GraphNode.axon n = false
        /\ GraphNode.dendrite n = false /\ GraphNode.soma n = false).
Proof.
  intros Ha Hd Hs. eexists. split; [exact (graphNode_built g _ _ node Ha Hd) |].
  assert (F : flags (builtNode (ConnectivityGraph.labelCache g) (map stringifyNode ax)
                       (map stringifyNode den) (ConnectivityGraph.somas g) node)
              = rolePrecedence (bool_decide (node ∈ ax)) (bool_decide (node ∈ den))
                  (bool_decide (node ∈ som))).
  { rewrite flags_builtNode, Hs, !includes_stringifyNode. reflexivity. }
  split; [exact F |].
  intros Hina Hind. unfold flags in F.
  rewrite (bool_decide_eq_true_2 _ Hina), (bool_decide_eq_true_2 _ Hind) in F.
  unfold rolePrecedence in F. simpl in F.
  injection F as -> -> -> ->. repeat split.
Qed.

(** The theorem on a node that is both an axon and a dendrite. *)
Lemma C3_witness :
  exists n : GraphNode.t,
    ConnectivityGraph.graphNode ("A", [])
      (ConnectivityGraph.set_dendrites [stringifyNode ("A", [])]
         (ConnectivityGraph.set_axons [stringifyNode ("A", [])] (ConnectivityGraph.new ∅)))
    = (Returns n,
       ConnectivityGraph.set_dendrites [stringifyNode ("A", [])]
         (ConnectivityGraph.set_axons [stringifyNode ("A", [])] (ConnectivityGraph.new ∅)))
    /\ flags n = (true, false, false, false).
Proof.
  destruct (C3_role_precedence
              (ConnectivityGraph.set_dendrites [stringifyNode ("A", [])]
                 (ConnectivityGraph.set_axons [stringifyNode ("A", [])] (ConnectivityGraph.new ∅)))
              ("A", []) [("A", [])] [("A", [])] [] eq_refl eq_refl eq_refl)
    as (n & H & F & _).
  exists n. split; [exact H | exact F].
Defined.

(** The label that [#graphNode] builds, on an object whose role arrays are
    assigned: the node is returned, nothing is thrown, and its label is the
    lines joined by line feeds, where the lines are the terms followed by
    what the cache holds for each of them, the empty string standing for a
    term that the cache does not hold. *)
Lemma graphNode_label_lines (g : ConnectivityGraph.t) (node : KnowledgeNode)
  (ax den : list string) :
  ConnectivityGraph.axons g = Some ax ->
  ConnectivityGraph.dendrites g = Some den ->
  exists n : GraphNode.t,
    ConnectivityGraph.graphNode node g = (Returns n, g)
    /\ GraphNode.label n
       = JS.join (JS.str JS.newline)
           (terms node
            ++ map (fun T => match ConnectivityGraph.labelCache g !! T with
                             | Some foo => foo
                             | None => ""
                             end) (terms node)).
Proof.
  intros Ha Hd. eexists. split; [exact (graphNode_built g ax den node Ha Hd) |].
  apply label_builtNode.
Qed.

(** C7, as amended. For every term T at position i of the terms of a node
    none of whose terms and resolved display strings holds a line feed, on
    an object whose role arrays are assigned: [#graphNode] returns (it does
    not throw) a node whose label splits at the line feeds into twice as
    many lines as the node has terms, where line i is T and line i of the
    second half is the string that the cache holds for T when it holds one,
    and the empty string when it holds none. *)
Theorem C7_label_round_trip (g : ConnectivityGraph.t) (node : KnowledgeNode)
  (ax den : list string) (i : nat) (T : string) :
  ConnectivityGraph.axons g = Some ax ->
  ConnectivityGraph.dendrites g = Some den ->
  terms node !! i = Some T ->
  forallb JS.newlineFree
    (ConnectivityGraph.labelLines (ConnectivityGraph.labelCache g) node) = true ->
  exists n : GraphNode.t,
    ConnectivityGraph.graphNode node g = (Returns n, g)
    /\ length (JS.split JS.newline (GraphNode.label n)) = (2 * length (terms node))%nat
    /\ JS.split JS.newline (GraphNode.label n) !! i = Some T
    /\ (forall foo : string,
          ConnectivityGraph.labelCache g !! T = Some foo ->
          JS.split JS.newline (GraphNode.label n) !! (length (terms node) + i)%nat
          = Some foo)
    /\ (ConnectivityGraph.labelCache g !! T = None ->
        JS.split JS.newline (GraphNode.label n) !! (length (terms node) + i)%nat
        = Some "").
Proof.
  intros Ha Hd Hi Hfree. eexists. split; [exact (graphNode_built g ax den node Ha Hd) |].
  rewrite label_builtNode, split_join by (discriminate || exact Hfree).
  split; [apply labelLines_length |].
  rewrite labelLines_terms. split.
  - rewrite lookup_app_l; [exact Hi | eapply lookup_lt_Some; exact Hi].
  - assert (H : (terms node
                 ++ map (ConnectivityGraph.humanLabel (ConnectivityGraph.labelCache g))
                      (terms node)) !! (length (terms node) + i)%nat
                = Some (ConnectivityGraph.humanLabel (ConnectivityGraph.labelCache g) T)).
    { rewrite lookup_app_r by lia.
      replace (length (terms node) + i - length (terms node))%nat with i by lia.
      rewrite lookup_map, Hi. reflexivity. }
    rewrite H. unfold ConnectivityGraph.humanLabel.
    split; [intros foo -> | intros ->]; reflexivity.
Qed.

(** The theorem on a node of two terms, the first of which is resolved. *)
Lemma C7_witness :
  exists n : GraphNode.t,
    ConnectivityGraph.graphNode ("t", ["u"]) (example_graph example_cache)
    = (Returns n, example_graph example_cache)
    /\ JS.split JS.newline (GraphNode.label n) !! 0%nat = Some "t"
    /\ JS.split JS.newline (GraphNode.label n) !! 2%nat = Some "foo".
Proof.
  destruct (C7_label_round_trip (example_graph example_cache) ("t", ["u"]) [] [] 0 "t"
              eq_refl eq_refl eq_refl ltac:(vm_compute; reflexivity))
    as (n & H & _ & H0 & Hfoo & _).
  exists n. split; [exact H |]. split; [exact H0 |]. exact (Hfoo "foo" eq_refl).
Defined.

(** C7, as stated, fails: the node whose one term T is the two lines [a] and
    [b] has T at position 0 and, with nothing in the cache, T is unresolved;
    the lines of its label are [a], [b] and the empty line, and the position
    of T in the second half, line 1, shows [b] and not the empty string. *)
Lemma C7_counterexample :
  exists n : GraphNode.t,
    ConnectivityGraph.graphNode example_two_line_term (example_graph ∅)
    = (Returns n, example_graph ∅)
    /\ terms example_two_line_term !! 0%nat = Some (fst example_two_line_term)
    /\ ConnectivityGraph.labelCache (example_graph ∅) !! fst example_two_line_term = None
    /\ JS.split JS.newline (GraphNode.label n)
          !! (length (terms example_two_line_term) + 0)%nat
       = Some "b".
Proof. eexists. repeat split. Qed.

(** C9, as amended. For every [KnowledgeNode] with k qualifying terms, none
    of whose terms and resolved display strings holds a line feed, on an
    object whose role arrays are assigned: splitting the label of the built
    node at the line feeds gives exactly 2(k+1) lines, the first k+1 are the
    raw terms (the primary term first), the others are their resolved
    display strings in the same order, and [trimLabel] shows the second
    half, capitalised, and nothing of the first. *)
Theorem C9_label_halves (g : ConnectivityGraph.t) (node : KnowledgeNode)
  (ax den : list string) :
  ConnectivityGraph.axons g = Some ax ->
  ConnectivityGraph.dendrites g = Some den ->
  forallb JS.newlineFree
    (ConnectivityGraph.labelLines (ConnectivityGraph.labelCache g) node) = true ->
  exists n : GraphNode.t,
    ConnectivityGraph.graphNode node g = (Returns n, g)
    /\ length (JS.split JS.newline (GraphNode.label n)) = (2 * (length (snd node) + 1))%nat
    /\ take (length (snd node) + 1) (JS.split JS.newline (GraphNode.label n))
       = fst node :: snd node
    /\ drop (length (snd node) + 1) (JS.split JS.newline (GraphNode.label n))
       = map (ConnectivityGraph.humanLabel (ConnectivityGraph.labelCache g))
           (fst node :: snd node)
    /\ trimLabel (GraphNode.label n)
       = capitalizeLabels
           (JS.join (JS.str JS.newline)
              (map (ConnectivityGraph.humanLabel (ConnectivityGraph.labelCache g))
                 (fst node :: snd node))).
Proof.
  intros Ha Hd Hfree. eexists. split; [exact (graphNode_built g ax den node Ha Hd) |].
  assert (Hsplit : JS.split JS.newline
             (GraphNode.label (builtNode (ConnectivityGraph.labelCache g) ax den
                                 (ConnectivityGraph.somas g) node))
           = (fst node :: snd node)
             ++ map (ConnectivityGraph.humanLabel (ConnectivityGraph.labelCache g))
                  (fst node :: snd node)).
  { rewrite label_builtNode. apply split_join; [discriminate | exact Hfree]. }
  assert (Hlen : length (fst node :: snd node) = (length (snd node) + 1)%nat)
    by (simpl; lia).
  unfold trimLabel, JS.slice. rewrite Hsplit.
  split; [rewrite length_app, length_map, Hlen; lia |].
  split; [rewrite <- Hlen; apply take_app_length |].
  split; [rewrite <- Hlen; apply drop_app_length |].
  rewrite length_app, length_map, Hlen.
  replace ((length (snd node) + 1 + (length (snd node) + 1)) / 2)%nat
    with (length (fst node :: snd node)).
  - change (@skipn string) with (@drop string). rewrite drop_app_length. reflexivity.
  - rewrite Hlen.
    replace (length (snd node) + 1 + (length (snd node) + 1))%nat
      with ((length (snd node) + 1) * 2)%nat by lia.
    rewrite Nat.div_mul by lia. reflexivity.
Qed.

(** The theorem on a node of two terms, the first of which is resolved. *)
Lemma C9_witness :
  exists n : GraphNode.t,
    ConnectivityGraph.graphNode ("t", ["u"]) (example_graph example_cache)
    = (Returns n, example_graph example_cache)
    /\ JS.split JS.newline (GraphNode.label n) = ["t"; "u"; "foo"; ""]
    /\ trimLabel (GraphNode.label n) = String "F" (String "o" (String "o" (JS.str JS.newline))).
Proof.
  destruct (C9_label_halves (example_graph example_cache) ("t", ["u"]) [] []
              eq_refl eq_refl ltac:(vm_compute; reflexivity)) as (n & H & _ & Ht & Hd & Htrim).
  exists n. split; [exact H |]. split.
  - rewrite <- (take_drop 2 (JS.split JS.newline (GraphNode.label n))).
    change 2%nat with (length (snd ("t", ["u"])) + 1)%nat.
    rewrite Ht, Hd. reflexivity.
  - rewrite Htrim. reflexivity.
Defined.

(** C9, as stated, fails: for the node whose one term is the two lines [a]
    and [b], with nothing in the cache, k is 0 and the label has three lines
    and not two, and [trimLabel] shows the raw [b] of the term. *)
Lemma C9_counterexample :
  exists n : GraphNode.t,
    ConnectivityGraph.graphNode example_two_line_term (example_graph ∅)
    = (Returns n, example_graph ∅)
    /\ JS.split JS.newline (GraphNode.label n) = ["a"; "b"; ""]
    /\ trimLabel (GraphNode.label n) = String "B" (JS.str JS.newline).
Proof. eexists. repeat split. Qed.

(** ** What a computation leaves as it was *)

Section Keeps.

Context {S V : Type} (f : S -> V).

Lemma keeps_ret {A : Type} (a : A) : keeps f (ret a).
Proof. intros s. reflexivity. Qed.

Lemma keeps_throw {A : Type} (e : error) : keeps f (throw (A := A) e).
Proof. intros s. reflexivity. Qed.

Lemma keeps_get : keeps f get.
Proof. intros s. reflexivity. Qed.

Lemma keeps_modify (u : S -> S) : (forall s, f (u s) = f s) -> keeps f (modify u).
Proof. intros H s. exact (H s). Qed.

Lemma keeps_bind {A B : Type} (m : M S A) (k : A -> M S B) :
  keeps f m -> (forall a, keeps f (k a)) -> keeps f (bind m k).
Proof.
  intros Hm Hk s. unfold bind. specialize (Hm s).
  destruct (m s) as [[a | e] s']; simpl in Hm |- *.
  - rewrite (Hk a s'). exact Hm.
  - exact Hm.
Qed.

Lemma keeps_forOf {A : Type} (xs : list A) (body : A -> M S unit) :
  (forall x, keeps f (body x)) -> keeps f (forOf xs body).
Proof.
  intros H. induction xs as [|x xs IH]; simpl.
  - apply keeps_ret.
  - apply keeps_bind; [apply H | intros _; exact IH].
Qed.

Lemma keeps_defined {A : Type} (property : string) (x : option A) :
  keeps f (ConnectivityGraph.defined property x).
Proof. destruct x; [apply keeps_ret | apply keeps_throw]. Qed.

End Keeps.

(** One step of a proof that a computation keeps a view. *)
Ltac keeps_step :=
  match goal with
  | |- keeps _ (ret _) => apply keeps_ret
  | |- keeps _ (throw _) => apply keeps_throw
  | |- keeps _ get => apply keeps_get
  | |- keeps _ (ConnectivityGraph.defined _ _) => apply keeps_defined
  | |- keeps _ (bind _ _) => apply keeps_bind; [| intros ?]
  | |- keeps _ (forOf _ _) => apply keeps_forOf; intros ?
  | |- keeps _ (modify _) => apply keeps_modify; intros ?
  | |- keeps _ (if ?b then _ else _) => destruct b
  | |- keeps _ (match ?x with _ => _ end) => destruct x
  | |- keeps _ (let (_, _) := ?x in _) => destruct x
  end.

Section Frame.

Context {V W : Type} (f : App.t -> V) (h : Document.t -> W).

(** [f] sees of the document what [h] sees of it, at most. *)
Hypothesis f_document :
  forall d app, h d = h (App.document app) -> f (App.set_document d app) = f app.
Hypothesis f_connectivityGraph : forall x app, f (App.set_connectivityGraph x app) = f app.
Hypothesis f_currentPath : forall x app, f (App.set_currentPath x app) = f app.
Hypothesis f_knowledgeByPath : forall x app, f (App.set_knowledgeByPath x app) = f app.
Hypothesis f_labelCache : forall x app, f (App.set_labelCache x app) = f app.
Hypothesis f_labelledTerms : forall x app, f (App.set_labelledTerms x app) = f app.
Hypothesis f_connectivityFromMap :
  forall x app, f (App.set_connectivityFromMap x app) = f app.
Hypothesis h_pathPromptDisplay : forall x d, h (Document.set_pathPromptDisplay x d) = h d.
Hypothesis h_spinnerDisplay : forall x d, h (Document.set_spinnerDisplay x d) = h d.
Hypothesis h_pathOptions : forall x d, h (Document.set_pathOptions x d) = h d.
Hypothesis h_callEngine : forall x d, h (Document.callEngine x d) = h d.
Hypothesis h_appendTooltip : forall d, h (Document.appendTooltip d) = h d.

Variable net : Network.

Lemma keeps_onDocument {A : Type} (m : M Document.t A) :
  keeps h m -> keeps f (App.onDocument m).
Proof.
  intros H app. unfold App.onDocument. specialize (H (App.document app)).
  destruct (m (App.document app)) as [r d]. simpl in *. now apply f_document.
Qed.

Lemma keeps_onGraph {A : Type} (m : M ConnectivityGraph.t A) : keeps f (App.onGraph m).
Proof.
  intros app. unfold App.onGraph. destruct (App.connectivityGraph app) as [g|]; [| reflexivity].
  destruct (m g) as [r g']. simpl. apply f_connectivityGraph.
Qed.

Lemma keeps_hidePrompt : keeps f App.hidePrompt.
Proof. apply keeps_onDocument. keeps_step. apply h_pathPromptDisplay. Qed.

Lemma keeps_showPrompt : keeps f App.showPrompt.
Proof. apply keeps_onDocument. keeps_step. apply h_pathPromptDisplay. Qed.

Lemma keeps_hideSpinner : keeps f App.hideSpinner.
Proof. apply keeps_onDocument. keeps_step. apply h_spinnerDisplay. Qed.

Lemma keeps_showSpinner : keeps f App.showSpinner.
Proof. apply keeps_onDocument. keeps_step. apply h_spinnerDisplay. Qed.

Lemma keeps_query (sql : string) (params : list string) : keeps f (App.query net sql params).
Proof. unfold App.query. repeat keeps_step. Qed.

Lemma keeps_JSON_parse {T : Type} (text : json T) : keeps f (App.JSON_parse text).
Proof. unfold App.JSON_parse. repeat keeps_step. Qed.

Lemma keeps_cacheTermLabel (last : option string) (row : string * json Knowledge.t) :
  keeps f (App.cacheTermLabel last row).
Proof.
  unfold App.cacheTermLabel. destruct row as [key text].
  repeat (keeps_step || apply keeps_JSON_parse || apply f_labelCache).
Qed.

Lemma keeps_cacheTermLabels (rows : list (string * json Knowledge.t)) :
  forall last, keeps f (App.cacheTermLabels last rows).
Proof.
  induction rows as [|row rows IH]; intros last; simpl.
  - apply keeps_ret.
  - apply keeps_bind; [apply keeps_cacheTermLabel | intros last'; apply IH].
Qed.

Lemma keeps_getCachedTermLabels : keeps f (App.getCachedTermLabels net).
Proof.
  unfold App.getCachedTermLabels.
  repeat (keeps_step || apply keeps_query || apply keeps_cacheTermLabels).
Qed.

Lemma keeps_cacheNodeLabels (node : KnowledgeNode) : keeps f (App.cacheNodeLabels node).
Proof. unfold App.cacheNodeLabels. repeat (keeps_step || apply f_labelledTerms). Qed.

Lemma keeps_cacheLabels (k : ConnectivityKnowledge.t) : keeps f (App.cacheLabels k).
Proof. unfold App.cacheLabels. repeat (keeps_step || apply keeps_cacheNodeLabels). Qed.

Lemma keeps_selectPath (neuronPath : string) : keeps f (App.selectPath neuronPath).
Proof.
  unfold App.selectPath.
  repeat (keeps_step || apply keeps_onDocument || apply h_pathOptions).
Qed.

Lemma keeps_queryMapPaths : keeps f (App.queryMapPaths net).
Proof. unfold App.queryMapPaths. repeat keeps_step. Qed.

Lemma keeps_setPathsFromMap : keeps f (App.setPathsFromMap net).
Proof. unfold App.setPathsFromMap. repeat (keeps_step || apply keeps_queryMapPaths). Qed.

Lemma keeps_addPathFromSCKAN (row : string * json Knowledge.t) :
  keeps f (App.addPathFromSCKAN row).
Proof.
  unfold App.addPathFromSCKAN. destruct row as [key text].
  repeat (keeps_step || apply keeps_JSON_parse || apply f_knowledgeByPath
          || apply keeps_cacheLabels).
Qed.

Lemma keeps_addPathsFromSCKAN (rows : list (string * json Knowledge.t)) :
  keeps f (App.addPathsFromSCKAN rows).
Proof.
  induction rows as [|row rows IH]; simpl.
  - apply keeps_ret.
  - repeat (keeps_step || apply keeps_addPathFromSCKAN || exact IH).
Qed.

Lemma keeps_setPathsFromSCKAN : keeps f (App.setPathsFromSCKAN net).
Proof.
  unfold App.setPathsFromSCKAN.
  repeat (keeps_step || apply keeps_query || apply keeps_addPathsFromSCKAN).
Qed.

Lemma keeps_setPathList : keeps f (App.setPathList net).
Proof.
  unfold App.setPathList.
  repeat (keeps_step || apply f_knowledgeByPath || apply f_labelledTerms
          || apply keeps_setPathsFromMap || apply keeps_setPathsFromSCKAN
          || apply keeps_getCachedTermLabels || apply keeps_onDocument
          || apply h_pathOptions).
Qed.

Lemma keeps_fetchMapConnectivity (mapuuid pathId : string) :
  keeps f (App.fetchMapConnectivity net mapuuid pathId).
Proof. unfold App.fetchMapConnectivity. repeat keeps_step. Qed.

Lemma keeps_CytoscapeGraph_new roots elements layout :
  keeps h (CytoscapeGraph.new roots elements layout).
Proof.
  unfold CytoscapeGraph.new.
  repeat (keeps_step || apply h_callEngine || apply h_appendTooltip).
Qed.

Lemma keeps_showConnectivity (layout : string) (g : ConnectivityGraph.t) :
  keeps h (ConnectivityGraph.showConnectivity layout g).
Proof.
  unfold ConnectivityGraph.showConnectivity, ConnectivityGraph.roots.
  repeat (keeps_step || apply keeps_CytoscapeGraph_new).
Qed.

Lemma keeps_ConnectivityGraph_clearConnectivity (g : ConnectivityGraph.t) :
  keeps h (ConnectivityGraph.clearConnectivity g).
Proof.
  unfold ConnectivityGraph.clearConnectivity, CytoscapeGraph.remove.
  repeat (keeps_step || apply h_callEngine).
Qed.

Lemma keeps_showGraph (neuronPath layout : string) :
  keeps f (App.showGraph net neuronPath layout).
Proof.
  unfold App.showGraph.
  repeat (keeps_step || apply keeps_showSpinner || apply keeps_hideSpinner
          || apply keeps_hidePrompt || apply keeps_showPrompt
          || apply keeps_fetchMapConnectivity || apply f_connectivityFromMap
          || apply keeps_cacheLabels || apply keeps_getCachedTermLabels
          || apply f_connectivityGraph || apply keeps_onGraph
          || (apply keeps_onDocument; apply keeps_showConnectivity)
          || apply f_currentPath).
Qed.

Lemma keeps_clearConnectivity : keeps f App.clearConnectivity.
Proof.
  unfold App.clearConnectivity.
  repeat (keeps_step || apply keeps_showPrompt || apply f_connectivityGraph
          || (apply keeps_onDocument; apply keeps_ConnectivityGraph_clearConnectivity)
          || apply f_currentPath).
Qed.

End Frame.

(** ** Teardown *)

(** C8. Clearing the graph never throws and creates no tooltip element;
    clearing a controller that has just been cleared changes nothing at
    all, and so does clearing a controller that holds no graph and no
    current path. The same holds of the builder and its presenter: its
    [clearConnectivity] returns, creates no tooltip, and changes nothing
    when no visual is shown, which is the case after it has run once. *)
Theorem C8_clear_is_idempotent (app : App.t) (g : ConnectivityGraph.t) (doc : Document.t) :
  let cleared := snd (App.clearConnectivity app) in
  let g' := ConnectivityGraph.set_cy None g in
  let doc' := snd (ConnectivityGraph.clearConnectivity g doc) in
  App.clearConnectivity app = (Returns tt, cleared)
  /\ App.clearConnectivity cleared = (Returns tt, cleared)
  /\ App.connectivityGraph cleared = None
  /\ App.currentPath cleared = ""
  /\ Document.tooltipsCreated (App.document cleared)
     = Document.tooltipsCreated (App.document app)
  /\ App.clearConnectivity (App.set_currentPath "" (App.set_connectivityGraph None app))
     = (Returns tt, App.set_currentPath "" (App.set_connectivityGraph None app))
  /\ ConnectivityGraph.clearConnectivity g doc = (Returns g', doc')
  /\ ConnectivityGraph.clearConnectivity g' doc' = (Returns g', doc')
  /\ Document.tooltipsCreated doc' = Document.tooltipsCreated doc
  /\ ConnectivityGraph.clearConnectivity g' doc = (Returns g', doc).
Proof.
  destruct app as [[gr|] cp kb lc lt ms so pa la sfm cfm ha d];
    [destruct gr as [[c|] ns es axs des sos lca] |];
    destruct g as [[c'|] ns' es' axs' des' sos' lca']; repeat split.
Qed.

(** ** The schema version *)

(** What [#getSchemaVersion] returns, by the response to its request. *)
Lemma getSchemaVersion_returns (net : Network) (app : App.t) :
  App.getSchemaVersion net app
  = (Returns
       match fetch_schema_version net (App.mapServer app +:+ "knowledge/schema-version") with
       | resolved _ (jsonValue data) =>
           if number_truthy (App.toNumber (version data))
           then App.toNumber (version data) else zero
       | _ => zero
       end, app).
Proof.
  unfold App.getSchemaVersion. cbv beta iota zeta delta [bind get App.getJsonData].
  destruct (fetch_schema_version net (App.mapServer app +:+ "knowledge/schema-version"))
    as [|ok [| |data]]; reflexivity.
Qed.

(** What [run] does when the schema version it gets is below the minimum. *)
Lemma run_incompatible (net : Network) (app : App.t) (n : number) :
  let started := snd (App.setServerList (snd (App.disableTools app))) in
  App.getSchemaVersion net started = (Returns n, started) ->
  lessThan n App.MIN_SCHEMA_VERSION = true ->
  App.run net app
  = (Returns tt,
     App.set_document (Document.set_noServerDisplay "block" (App.document started)) started).
Proof.
  intros started Hn Hlt. unfold App.run.
  assert (Hd : App.disableTools app = (Returns tt, snd (App.disableTools app)))
    by reflexivity.
  rewrite (bind_returns _ _ _ _ _ Hd).
  assert (Hs : App.setServerList (snd (App.disableTools app)) = (Returns tt, started)).
  { subst started. unfold App.setServerList. cbv beta iota zeta delta [bind get].
    destruct (App.serverList App.MAP_ENDPOINTS (App.mapServer (snd (App.disableTools app))))
      as [os sv]. reflexivity. }
  rewrite (bind_returns _ _ _ _ _ Hs).
  rewrite (bind_returns _ _ _ _ _ Hn), Hlt. reflexivity.
Qed.

(** C10, as amended. [#getSchemaVersion] always returns a number, without
    throwing and without changing the state. The number is 0 when the fetch
    fails, when the body is not JSON or is [null], when the version is
    absent, and when the version is [NaN] or zero; it is the version itself
    otherwise, an infinity included. When it is 0, [run] shows the
    no-server message and stops there: the controls stay disabled and no
    handler is set. *)
Theorem C10_schema_version_is_total (net : Network) (app : App.t) :
  let r := fetch_schema_version net (App.mapServer app +:+ "knowledge/schema-version") in
  let started := snd (App.setServerList (snd (App.disableTools app))) in
  exists n : number,
    App.getSchemaVersion net app = (Returns n, app)
    /\ (r = rejected -> n = zero)
    /\ (forall ok, r = resolved ok notJSON -> n = zero)
    /\ (forall ok, r = resolved ok jsonNull -> n = zero)
    /\ (forall ok data, r = resolved ok (jsonValue data) -> version data = None -> n = zero)
    /\ (forall ok data v, r = resolved ok (jsonValue data) -> version data = Some v ->
          number_truthy v = false -> n = zero)
    /\ (forall ok data v, r = resolved ok (jsonValue data) -> version data = Some v ->
          number_truthy v = true -> n = v)
    /\ lessThan zero App.MIN_SCHEMA_VERSION = true
    /\ (fst (App.getSchemaVersion net started) = Returns zero ->
        App.run net app
        = (Returns tt,
           App.set_document
             (Document.set_noServerDisplay "block" (App.document started)) started)).
Proof.
  intros r started. eexists. split; [apply getSchemaVersion_returns |]. fold r.
  split; [intros -> ; reflexivity |].
  split; [intros ok -> ; reflexivity |].
  split; [intros ok -> ; reflexivity |].
  split; [intros ok data -> Hv; rewrite Hv; reflexivity |].
  split; [intros ok data v -> Hv Hf; rewrite Hv; simpl; rewrite Hf; reflexivity |].
  split; [intros ok data v -> Hv Ht; rewrite Hv; simpl; rewrite Ht; reflexivity |].
  split; [reflexivity |].
  intros Hz. pose proof (getSchemaVersion_returns net started) as E.
  destruct (App.getSchemaVersion net started) as [o s'] eqn:G.
  cbn [fst] in Hz. subst o.
  assert (Es : s' = started) by congruence. rewrite Es in G.
  exact (run_incompatible net app zero G eq_refl).
Qed.

(** The theorem on a backend whose version is [NaN]. *)
Lemma C10_witness :
  App.getSchemaVersion (example_schema_network NaN) example_new_app
  = (Returns zero, example_new_app)
  /\ Document.noServerDisplay
       (App.document (snd (App.run (example_schema_network NaN) example_new_app)))
     = "block"
  /\ App.handlers (snd (App.run (example_schema_network NaN) example_new_app)) = false.
Proof.
  destruct (C10_schema_version_is_total (example_schema_network NaN) example_new_app)
    as (n & H & _ & _ & _ & _ & Hfalsy & _ & _ & Hrun).
  rewrite (Hfalsy true {| version := Some NaN |} NaN eq_refl eq_refl eq_refl) in H.
  split; [exact H |]. rewrite (Hrun eq_refl). split; reflexivity.
Defined.

(** C10, as stated, fails: a backend whose version is the number
    [Infinity] (what [JSON.parse] makes of [1e999]) has a version that is
    not a finite number, and [#getSchemaVersion] returns [Infinity] and not
    0; the backend passes the check of the minimum, and [run] goes on to set
    the handlers without showing the no-server message. *)
Lemma C10_counterexample :
  App.getSchemaVersion (example_schema_network (Infinity false)) example_new_app
  = (Returns (Infinity false), example_new_app)
  /\ lessThan (Infinity false) App.MIN_SCHEMA_VERSION = false
  /\ Document.noServerDisplay
       (App.document (snd (App.run (example_schema_network (Infinity false)) example_new_app)))
     = ""
  /\ App.handlers (snd (App.run (example_schema_network (Infinity false)) example_new_app))
     = true.
Proof. repeat split; vm_compute; reflexivity. Qed.

(** ** The search box *)

Lemma filterOptions_lookup (searchValue : string) (options : list OptionElement.t) (i : nat) :
  App.filterOptions searchValue options !! S i
  = App.filterOption searchValue <$> options !! S i.
Proof.
  destruct options as [|first others]; [reflexivity |].
  simpl. apply lookup_map.
Qed.

Lemma filterOptions_first (searchValue : string) (options : list OptionElement.t) :
  App.filterOptions searchValue options !! 0%nat = options !! 0%nat.
Proof. destruct options; reflexivity. Qed.

Lemma filterOptions_length (searchValue : string) (options : list OptionElement.t) :
  length (App.filterOptions searchValue options) = length options.
Proof. destruct options; simpl; [reflexivity | now rewrite length_map]. Qed.

Lemma visible_filterOption (searchValue : string) (o : OptionElement.t) :
  visible (App.filterOption searchValue o)
  = Nat.eqb (String.length (JS.trim searchValue)) 0
    || JS.includes (JS.toLowerCase (OptionElement.label o)) searchValue
    || JS.includes (JS.toLowerCase (OptionElement.label o)) (foldToHyphens searchValue).
Proof.
  unfold App.filterOption, App.found, foldToHyphens, visible. rewrite orb_assoc.
  destruct (_ || _ || _); reflexivity.
Qed.

(** C6, as amended. For every text entered in the search box, with q its
    lower-case form: the handler returns and leaves the Selection State and
    the address as they were; the first option of the path selector is not
    touched; every other option keeps its value, label and selection, and it
    is visible if and only if q is empty once trimmed, or its lower-case
    label has q as a substring, or its lower-case label has as a substring q
    with each run of white space folded to one hyphen. *)
Theorem C6_search_filter (value : string) (app : App.t) :
  let q := JS.toLowerCase value in
  exists app' : App.t,
    App.pathSearch_oninput value app = (Returns tt, app')
    /\ selection app' = selection app
    /\ address (App.document app') = address (App.document app)
    /\ length (Document.pathOptions (App.document app'))
       = length (Document.pathOptions (App.document app))
    /\ Document.pathOptions (App.document app') !! 0%nat
       = Document.pathOptions (App.document app) !! 0%nat
    /\ (forall (i : nat) (o : OptionElement.t),
          Document.pathOptions (App.document app) !! S i = Some o ->
          exists o' : OptionElement.t,
            Document.pathOptions (App.document app') !! S i = Some o'
            /\ OptionElement.value o' = OptionElement.value o
            /\ OptionElement.label o' = OptionElement.label o
            /\ OptionElement.selected o' = OptionElement.selected o
            /\ visible o'
               = Nat.eqb (String.length (JS.trim q)) 0
                 || JS.includes (JS.toLowerCase (OptionElement.label o)) q
                 || JS.includes (JS.toLowerCase (OptionElement.label o)) (foldToHyphens q)).
Proof.
  intros q. eexists. split; [reflexivity |].
  destruct app as [gr cp kb lc lt ms so pa la sfm cfm ha d]. destruct d.
  cbn -[App.filterOptions JS.toLowerCase JS.trim].
  split; [reflexivity |]. split; [reflexivity |].
  split; [apply filterOptions_length |].
  split; [apply filterOptions_first |].
  intros i o Hi. rewrite filterOptions_lookup, Hi. eexists. split; [reflexivity |].
  split; [reflexivity |]. split; [reflexivity |]. split; [reflexivity |].
  apply visible_filterOption.
Qed.

(** The theorem on the example options and a query of two words. *)
Lemma C6_witness :
  exists app' : App.t,
    App.pathSearch_oninput "Heart Vagal" example_search_app = (Returns tt, app')
    /\ map visible (Document.pathOptions (App.document app')) = [true; false; true].
Proof.
  destruct (C6_search_filter "Heart Vagal" example_search_app)
    as (app' & H & _ & _ & _ & _ & _).
  exists app'. split; [exact H |].
  injection H as <-. reflexivity.
Defined.

(** C6, as stated, fails on the specification's own example: with the
    options labelled [Bladder neuron path] and [Heart-vagal-path], the query
    [heart path] folds to [heart-path], which is no substring of
    [heart-vagal-path], and the second option is hidden like the first. The
    query [vagal] does leave the second option alone visible. *)
Lemma C6_counterexample :
  foldToHyphens (JS.toLowerCase "heart path") = "heart-path"
  /\ map visible
       (Document.pathOptions
          (App.document (snd (App.pathSearch_oninput "heart path" example_search_app))))
     = [true; false; false]
  /\ map visible
       (Document.pathOptions
          (App.document (snd (App.pathSearch_oninput "vagal" example_search_app))))
     = [true; false; true].
Proof. repeat split. Qed.

(** ** The label cache *)

(** C4, the code at the failing input. The lookup of three terms gets four
    rows, the more recent release first; the term [UBERON:1] has the first
    row and the last one. The last row is not next to the first, so its key
    differs from [last_entity] and it is stored over the first: the cache
    ends with one entry for the term, taken from the older release. *)
Lemma C4_later_duplicate_overwrites :
  let result := App.getCachedTermLabels example_label_network example_label_app in
  fst result = Returns tt
  /\ App.labelCache (snd result) !! "UBERON:1" = Some "heart (2023)"
  /\ size (App.labelCache (snd result)) = 3%nat
  /\ App.labelCache (snd result)
     = {[ "UBERON:1" := "heart (2023)"; "UBERON:2" := "lung (2024)";
          "UBERON:3" := "liver (2024)" ]}.
Proof. vm_compute. repeat split. Qed.

(** Where the rows of a term are next to each other, the first one is kept:
    a row whose key is [last_entity] changes nothing. *)
Lemma cacheTermLabel_adjacent_duplicate (key : string) (text : json Knowledge.t)
  (app : App.t) :
  App.cacheTermLabel (Some key) (key, text) app = (Returns (Some key), app).
Proof.
  unfold App.cacheTermLabel. rewrite bool_decide_eq_true_2 by reflexivity. reflexivity.
Qed.

(** ** The switch of origin *)


Lemma searchParams_get_set_other (key other value : string) (ps : list (string * string)) :
  String.eqb key other = false ->
  searchParams_get other (App.searchParams_set key value ps) = searchParams_get other ps.
Proof.
  intros Hne. induction ps as [|[k v] ps IH]; simpl.
  - rewrite Hne. reflexivity.
  - destruct (String.eqb k key) eqn:Ek.
    + apply String.eqb_eq in Ek. subst k. simpl. rewrite Hne.
      clear IH. induction ps as [|[k' v'] ps IH]; simpl; [reflexivity |].
      destruct (String.eqb k' key) eqn:Ek'; simpl.
      * apply String.eqb_eq in Ek'. subst k'. rewrite Hne. exact IH.
      * destruct (String.eqb k' other); [reflexivity | exact IH].
    + simpl. destruct (String.eqb k other); [reflexivity | exact IH].
Qed.

(** What [showConnectivity] does when it returns. *)
Lemma showConnectivity_returns (layout : string) (g g' : ConnectivityGraph.t)
  (doc doc' : Document.t) :
  ConnectivityGraph.showConnectivity layout g doc = (Returns g', doc') ->
  exists c : CytoscapeGraph.t,
    g' = ConnectivityGraph.set_cy (Some c) g
    /\ doc' = Document.appendTooltip
                (Document.callEngine
                   (cytoscape_new (ConnectivityGraph.elements g) (CytoscapeGraph.cy_layout c))
                   doc).
Proof.
  unfold ConnectivityGraph.showConnectivity, ConnectivityGraph.roots.
  destruct (ConnectivityGraph.dendrites g) as [dens|]; [| discriminate].
  cbv beta iota zeta delta [bind ret modify ConnectivityGraph.defined CytoscapeGraph.new].
  intros H. injection H as <- <-. eexists. split; reflexivity.
Qed.

(** What [#showGraph] leaves when a path is selected and it returns: the
    path is the current one, the prompt is hidden, and the graph built is
    shown by the last call to the engine. *)
Lemma showGraph_returns (net : Network) (neuronPath layout : string) (app app' : App.t) :
  JS.truthy (App.path app) = true ->
  App.showGraph net neuronPath layout app = (Returns tt, app') ->
  App.currentPath app' = App.path app
  /\ Document.pathPromptDisplay (App.document app') = "none"
  /\ exists (g : ConnectivityGraph.t) (c : CytoscapeGraph.t),
       App.connectivityGraph app' = Some g
       /\ ConnectivityGraph.cy g = Some c
       /\ last (Document.engineCalls (App.document app'))
          = Some (cytoscape_new (ConnectivityGraph.elements g) (CytoscapeGraph.cy_layout c)).
Proof.
  intros Ht H. unfold App.showGraph in H. rewrite bind_get, Ht in H.
  apply bind_returns_inv in H as ([] & a1 & H1 & H).
  apply bind_returns_inv in H as (info & a2 & H2 & H).
  assert (K2 : App.path a2 = App.path app).
  { transitivity (App.path a1).
    - match type of H2 with ?m a1 = _ =>
        assert (K : keeps App.path m)
      end.
      { repeat (keeps_step || apply keeps_fetchMapConnectivity || apply keeps_cacheLabels
                || apply keeps_getCachedTermLabels || (intros; reflexivity)). }
      specialize (K a1). rewrite H2 in K. exact K.
    - injection H1 as <-. reflexivity. }
  rewrite bind_get, bind_modify in H.
  apply bind_returns_inv in H as ([] & a4 & H4 & H).
  unfold App.onGraph in H4. cbn [App.connectivityGraph App.set_connectivityGraph] in H4.
  destruct (ConnectivityGraph.addConnectivity info _) as [r g1]. 
  injection H4 as -> <-.
  apply bind_returns_inv in H as ([] & a5 & H5 & H). injection H5 as <-.
  apply bind_returns_inv in H as ([] & a6 & H6 & H). injection H6 as <-.
  rewrite bind_get in H.
  cbv beta iota zeta delta [App.connectivityGraph App.set_connectivityGraph App.set_document
                             App.document ConnectivityGraph.defined] in H.
  rewrite bind_ret in H.
  apply bind_returns_inv in H as (g2 & a7 & H7 & H).
  unfold App.onDocument in H7.
  destruct (ConnectivityGraph.showConnectivity _ g1 _) as [r7 d7] eqn:E7.
  injection H7 as -> <-.
  apply showConnectivity_returns in E7 as (c & -> & ->).
  cbv beta iota zeta delta [bind modify get ret] in H. injection H as <-.
  cbn. split; [exact K2 |]. split; [reflexivity |].
  exists (ConnectivityGraph.set_cy (Some c) g1), c.
  split; [reflexivity |]. split; [reflexivity |].
  rewrite last_snoc. reflexivity.
Qed.




(** What [#fetchMapConnectivity] returns depends on the server of the
    controller alone, and the controller is left as it is. *)
Lemma fetchMapConnectivity_state (net : Network) (mapuuid pathId : string) (app : App.t) :
  snd (App.fetchMapConnectivity net mapuuid pathId app) = app.
Proof.
  unfold App.fetchMapConnectivity. rewrite bind_get.
  destruct (fetch_connectivity net _) as [|[] []]; reflexivity.
Qed.

Lemma fetchMapConnectivity_mapServer (net : Network) (mapuuid pathId : string)
  (app1 app2 : App.t) :
  App.mapServer app1 = App.mapServer app2 ->
  fst (App.fetchMapConnectivity net mapuuid pathId app1)
  = fst (App.fetchMapConnectivity net mapuuid pathId app2).
Proof.
  intros H. unfold App.fetchMapConnectivity. rewrite !bind_get, H.
  destruct (fetch_connectivity net _) as [|[] []]; reflexivity.
Qed.

(** What [#showGraph] shows when a path is selected and it returns: the
    graph that [addConnectivity] builds, with the label cache that the
    controller then holds, from the connectivity read for the selected
    path, which is the answer of the map when the origin is a map and the
    stored knowledge of the path otherwise. *)
Lemma showGraph_shows (net : Network) (neuronPath layout : string) (app app' : App.t) :
  JS.truthy (App.path app) = true ->
  App.showGraph net neuronPath layout app = (Returns tt, app') ->
  exists (info : ConnectivityKnowledge.t) (dens : list string),
    let built :=
      snd (ConnectivityGraph.addConnectivity (Some info)
             (ConnectivityGraph.new (App.labelCache app'))) in
    let option :=
      CytoscapeGraph.layoutOption (App.layout app) (dens ++ ConnectivityGraph.somas built) in
    (if App.sourceFromMap app
     then fst (App.fetchMapConnectivity net (App.source app) (App.path app) app)
          = Returns (Some info)
          /\ App.connectivityFromMap app' = Some info
     else Knowledge.connectivity <$> (App.knowledgeByPath app !! App.path app) = Some info
          /\ App.labelCache app' = App.labelCache app)
    /\ fst (ConnectivityGraph.addConnectivity (Some info)
              (ConnectivityGraph.new (App.labelCache app'))) = Returns tt
    /\ ConnectivityGraph.dendrites built = Some dens
    /\ App.connectivityGraph app'
       = Some (ConnectivityGraph.set_cy
                 (Some {| CytoscapeGraph.cy_elements := ConnectivityGraph.elements built;
                          CytoscapeGraph.cy_layout := option;
                          CytoscapeGraph.tooltip_hidden := true |})
                 built)
    /\ Document.engineCalls (App.document app')
       = Document.engineCalls (App.document app)
         ++ [cytoscape_new (ConnectivityGraph.elements built) option].
Proof.
  intros Ht H. unfold App.showGraph in H. rewrite bind_get, Ht in H.
  apply bind_returns_inv in H as ([] & a1 & H1 & H).
  assert (E1 : a1 = snd (App.showSpinner app)) by (rewrite H1; reflexivity).
  clear H1.
  apply bind_returns_inv in H as (info & a2 & H2 & H).
  assert (K2 : (App.path a2, App.layout a2, Document.engineCalls (App.document a2))
               = (App.path app, App.layout app, Document.engineCalls (App.document app))).
  { transitivity (App.path a1, App.layout a1, Document.engineCalls (App.document a1));
      [| subst a1; reflexivity].
    match type of H2 with ?m a1 = _ =>
      assert (K : keeps (fun a => (App.path a, App.layout a,
                                   Document.engineCalls (App.document a))) m)
    end.
    { repeat (keeps_step || apply keeps_fetchMapConnectivity || apply keeps_cacheLabels
              || apply keeps_getCachedTermLabels || (intros; reflexivity)). }
    specialize (K a1). rewrite H2 in K. exact K. }
  assert (I2 : if App.sourceFromMap app
               then fst (App.fetchMapConnectivity net (App.source app) (App.path app) app)
                    = Returns info
                    /\ App.connectivityFromMap a2 = info
               else Knowledge.connectivity <$> (App.knowledgeByPath app !! App.path app) = info
                    /\ App.labelCache a2 = App.labelCache app).
  { destruct (App.sourceFromMap app) eqn:Em.
    - apply bind_returns_inv in H2 as (fromMap & a1' & Hf & H2).
      pose proof (fetchMapConnectivity_state net (App.source app) (App.path app) a1) as Hs.
      rewrite Hf in Hs. cbn [snd] in Hs. subst a1'.
      pose proof (fetchMapConnectivity_mapServer net (App.source app) (App.path app) a1 app) as Hv.
      rewrite Hf in Hv. cbn [fst] in Hv.
      rewrite bind_modify in H2.
      match type of H2 with ?m ?s = _ =>
        assert (K : keeps App.connectivityFromMap m)
      end.
      { repeat (keeps_step || apply keeps_cacheLabels
                || apply keeps_getCachedTermLabels || (intros; reflexivity)). }
      match type of H2 with ?m ?s = _ => specialize (K s) end.
      rewrite H2 in K. cbn [snd] in K.
      apply bind_returns_inv in H2 as (object & b1 & _ & H2).
      apply bind_returns_inv in H2 as (connectivity & b2 & _ & H2).
      apply bind_returns_inv in H2 as ([] & b3 & _ & H2).
      injection H2 as <- _.
      split; [symmetry; apply Hv; subst a1; reflexivity | exact K].
    - injection H2 as <- <-. subst a1. split; reflexivity. }
  rewrite bind_get, bind_modify in H.
  apply bind_returns_inv in H as ([] & a4 & H4 & H).
  unfold App.onGraph in H4. cbn [App.connectivityGraph App.set_connectivityGraph] in H4.
  destruct (ConnectivityGraph.addConnectivity info _) as [r g1] eqn:Eg.
  injection H4 as -> <-.
  apply bind_returns_inv in H as ([] & a5 & H5 & H). injection H5 as <-.
  apply bind_returns_inv in H as ([] & a6 & H6 & H). injection H6 as <-.
  rewrite bind_get in H.
  cbv beta iota zeta delta [App.connectivityGraph App.set_connectivityGraph App.set_document
                             App.document ConnectivityGraph.defined] in H.
  rewrite bind_ret in H.
  apply bind_returns_inv in H as (g2 & a7 & H7 & H).
  unfold App.onDocument in H7.
  destruct (ConnectivityGraph.showConnectivity _ g1 _) as [r7 d7] eqn:E7.
  injection H7 as -> <-.
  unfold ConnectivityGraph.showConnectivity, ConnectivityGraph.roots in E7.
  destruct (ConnectivityGraph.dendrites g1) as [dens|] eqn:Ed; [| discriminate].
  cbv beta iota zeta delta [bind ret modify ConnectivityGraph.defined CytoscapeGraph.new] in E7.
  injection E7 as <- <-.
  cbv beta iota zeta delta [bind modify get ret] in H. injection H as <-.
  destruct info as [info|].
  2:{ discriminate Eg. }
  exists info, dens.
  cbn [App.set_currentPath App.labelCache App.connectivityFromMap App.connectivityGraph
       App.document].
  change (let (_, _, _, _, _, _, _, _, _, _, _, _, document) := a2 in document)
    with (App.document a2).
  cbn [Document.appendTooltip Document.callEngine Document.engineCalls
       Document.set_pathPromptDisplay Document.set_spinnerDisplay].
  injection K2 as Kp Kl Ke. rewrite Eg, Kl, Ke. cbn [fst snd].
  split; [exact I2 |]. split; [reflexivity |]. split; [exact Ed |].
  split; reflexivity.
Qed.



(** ** The graph of a path without data *)

(** A fetch of a map's connectivity that fails gives the fallback. *)
Lemma fetchMapConnectivity_failed (net : Network) (mapuuid pathId : string) (app : App.t) :
  let url := App.mapServer app +:+ "flatmap/" +:+ mapuuid +:+ "/connectivity/" +:+ pathId in
  (fetch_connectivity net url = rejected
   \/ (exists body, fetch_connectivity net url = resolved false body)
   \/ fetch_connectivity net url = resolved true notJSON) ->
  App.fetchMapConnectivity net mapuuid pathId app = (Returns (Some App.emptyConnectivity), app).
Proof.
  intros url H. unfold App.fetchMapConnectivity. rewrite bind_get. fold url.
  destruct H as [-> | [[body ->] | ->]]; reflexivity.
Qed.

(** On a map-backed origin, a selected path whose connectivity cannot be
    fetched (the request fails, the response is not [ok], or its body is not
    JSON) is shown as the sentinel node alone. *)
Lemma showGraph_failed_fetch (net : Network) (neuronPath layout : string) (app : App.t) :
  let url := App.mapServer app +:+ "flatmap/" +:+ App.source app +:+ "/connectivity/"
             +:+ App.path app in
  JS.truthy (App.path app) = true ->
  App.sourceFromMap app = true ->
  (fetch_connectivity net url = rejected
   \/ (exists body, fetch_connectivity net url = resolved false body)
   \/ fetch_connectivity net url = resolved true notJSON) ->
  exists (app' : App.t) (g : ConnectivityGraph.t),
    App.showGraph net neuronPath layout app = (Returns tt, app')
    /\ App.connectivityGraph app' = Some g
    /\ ConnectivityGraph.nodes g = [ConnectivityGraph.MISSING]
    /\ ConnectivityGraph.edges g = [].
Proof.
  intros url Ht Hm Hf. unfold App.showGraph. rewrite bind_get, Ht.
  rewrite (bind_returns _ _ _ _ _
             (eq_refl : App.showSpinner app = (Returns tt, snd (App.showSpinner app)))).
  rewrite Hm.
  assert (Hfetch : App.fetchMapConnectivity net (App.source app) (App.path app)
                     (snd (App.showSpinner app))
                   = (Returns (Some App.emptyConnectivity), snd (App.showSpinner app))).
  { apply fetchMapConnectivity_failed. exact Hf. }
  rewrite !bind_assoc, (bind_returns _ _ _ _ _ Hfetch).
  eexists. eexists. split; [reflexivity |]. repeat split.
Qed.

(** On a release, a selected path that the release does not hold makes
    [#showGraph] throw: [addConnectivity] is handed [undefined]. *)
Lemma showGraph_missing_path_throws (net : Network) (neuronPath layout : string)
  (app : App.t) :
  JS.truthy (App.path app) = true ->
  App.sourceFromMap app = false ->
  App.knowledgeByPath app !! App.path app = None ->
  fst (App.showGraph net neuronPath layout app)
  = Throws (TypeError "Cannot read properties of undefined, reading axons").
Proof.
  intros Ht Hm Hk. unfold App.showGraph. rewrite bind_get, Ht.
  rewrite (bind_returns _ _ _ _ _
             (eq_refl : App.showSpinner app = (Returns tt, snd (App.showSpinner app)))).
  rewrite Hm, Hk. reflexivity.
Qed.

(** The roles of the nodes that [addConnectivity] builds, by the role sets
    of the knowledge. *)
Lemma addConnectivity_roles (cache : gmap string string) (k : ConnectivityKnowledge.t)
  (conn : list KnowledgeEdge) (ax den : list KnowledgeNode) (i : nat) (e : KnowledgeEdge) :
  ConnectivityKnowledge.connectivity k = Some conn ->
  ConnectivityKnowledge.axons k = Some ax ->
  ConnectivityKnowledge.dendrites k = Some den ->
  conn !! i = Some e ->
  let role := fun node =>
    rolePrecedence (bool_decide (node ∈ ax)) (bool_decide (node ∈ den))
      (bool_decide (node ∈ roleSet (ConnectivityKnowledge.somas k))) in
  exists g : ConnectivityGraph.t,
    ConnectivityGraph.addConnectivity (Some k) (ConnectivityGraph.new cache) = (Returns tt, g)
    /\ flags <$> ConnectivityGraph.nodes g !! (2 * i)%nat = Some (role (fst e))
    /\ flags <$> ConnectivityGraph.nodes g !! (2 * i + 1)%nat = Some (role (snd e)).
Proof.
  intros Hc Ha Hd Hi role. eexists. split.
  - exact (addConnectivity_built cache k conn ax den Hc Ha Hd).
  - destruct conn as [|e0 conn]; [discriminate Hi |].
    cbv beta iota zeta delta [ConnectivityGraph.nodes]. unfold KnowledgeEdge in *.
    destruct (flat_map_pair_lookup
                (fun e => builtNode cache (map stringifyNode ax) (map stringifyNode den)
                            (map stringifyNode (roleSet (ConnectivityKnowledge.somas k))) (fst e))
                (fun e => builtNode cache (map stringifyNode ax) (map stringifyNode den)
                            (map stringifyNode (roleSet (ConnectivityKnowledge.somas k))) (snd e))
                (e0 :: conn) i) as [H0 H1].
    rewrite Hi in H0, H1. rewrite H0, H1.
    cbv beta iota delta [fmap option_fmap option_map].
    rewrite !flags_builtNode, !includes_stringifyNode. split; reflexivity.
Qed.

(* ===================================================================== *)
(** * Part III. Further properties of the code *)
(* ===================================================================== *)

(** ** Identifiers *)

(** What follows the text of a node is told apart from it: the text of a
    node is never a proper prefix of the text of another. *)
Lemma stringifyNode_rest_inj (n1 n2 : KnowledgeNode) (r1 r2 : string) :
  stringifyNode n1 +:+ r1 = stringifyNode n2 +:+ r2 -> n1 = n2 /\ r1 = r2.
Proof.
  destruct n1 as [t1 q1], n2 as [t2 q2]. unfold stringifyNode, JS.stringifyStrings.
  simpl fst; simpl snd.
  rewrite !append_assoc, !append_cons, !append_nil. intros H.
  apply string_cons_inj in H as [_ H].
  apply stringifyString_inj in H as [-> H].
  apply string_cons_inj in H as [_ H].
  apply string_cons_inj in H as [_ H].
  apply stringifyStrings_items_inj in H as [-> H].
  apply string_cons_inj in H as [_ H]. split; [reflexivity | exact H].
Qed.

Lemma builtEdge_id_inj (e1 e2 : KnowledgeEdge) :
  GraphEdge.id (builtEdge e1) = GraphEdge.id (builtEdge e2) -> e1 = e2.
Proof.
  destruct e1 as [a1 b1], e2 as [a2 b2]. unfold builtEdge. cbn [GraphEdge.id fst snd].
  intros H.
  apply stringifyNode_rest_inj in H as [-> H].
  rewrite !append_cons, !append_nil in H.
  apply string_cons_inj in H as [_ H].
  apply stringifyNode_inj in H. subst. reflexivity.
Qed.

(** The nodes that [addConnectivity] leaves on an object just made. *)
Lemma addConnectivity_nodes (cache : gmap string string) (k : ConnectivityKnowledge.t)
  (conn : list KnowledgeEdge) (ax den : list KnowledgeNode) (a : GraphNode.t) :
  a ∈ match conn with
      | [] => [ConnectivityGraph.MISSING]
      | _ => flat_map (fun e => [builtNode cache (map stringifyNode ax) (map stringifyNode den)
                                   (map stringifyNode (roleSet (ConnectivityKnowledge.somas k)))
                                   (fst e);
                                 builtNode cache (map stringifyNode ax) (map stringifyNode den)
                                   (map stringifyNode (roleSet (ConnectivityKnowledge.somas k)))
                                   (snd e)]) conn
      end ->
  a = ConnectivityGraph.MISSING /\ conn = []
  \/ exists (e : KnowledgeEdge) (node : KnowledgeNode),
       e ∈ conn /\ (node = fst e \/ node = snd e)
       /\ a = builtNode cache (map stringifyNode ax) (map stringifyNode den)
                (map stringifyNode (roleSet (ConnectivityKnowledge.somas k))) node.
Proof.
  destruct conn as [|e0 conn].
  - intros H. apply list_elem_of_singleton in H. left. split; [exact H | reflexivity].
  - intros H. right. apply list_elem_of_In, in_flat_map in H as (e & He & Ha).
    exists e. destruct Ha as [<- | [<- | []]].
    + exists (fst e). split; [now apply list_elem_of_In |]. split; [left |]; reflexivity.
    + exists (snd e). split; [now apply list_elem_of_In |]. split; [right |]; reflexivity.
Qed.

(** X1. On an object just made, for a knowledge that has its arrays, the
    nodes that [addConnectivity] pushes are told apart by their [id]: two
    nodes of the graph with the same [id] are the same node, label and flags
    included. *)
Theorem X1_nodes_of_one_id_are_equal (cache : gmap string string)
  (k : ConnectivityKnowledge.t) (conn : list KnowledgeEdge) (ax den : list KnowledgeNode) :
  ConnectivityKnowledge.connectivity k = Some conn ->
  ConnectivityKnowledge.axons k = Some ax ->
  ConnectivityKnowledge.dendrites k = Some den ->
  exists g : ConnectivityGraph.t,
    ConnectivityGraph.addConnectivity (Some k) (ConnectivityGraph.new cache) = (Returns tt, g)
    /\ forall a b : GraphNode.t,
         a ∈ ConnectivityGraph.nodes g -> b ∈ ConnectivityGraph.nodes g ->
         GraphNode.id a = GraphNode.id b -> a = b.
Proof.
  intros Hc Ha Hd. eexists. split; [exact (addConnectivity_built cache k conn ax den Hc Ha Hd) |].
  cbv beta iota zeta delta [ConnectivityGraph.nodes]. intros a b Hin_a Hin_b E.
  apply addConnectivity_nodes in Hin_a as [[-> Hna] | (ea & na & Hea & _ & ->)];
    apply addConnectivity_nodes in Hin_b as [[-> Hnb] | (eb & nb & Heb & _ & ->)].
  - reflexivity.
  - subst conn. apply elem_of_nil in Heb. contradiction.
  - subst conn. apply elem_of_nil in Hea. contradiction.
  - rewrite !id_builtNode in E. apply stringifyNode_inj in E. subst nb. reflexivity.
Qed.

(** The theorem on the path of one edge. *)
Lemma X1_witness :
  exists g : ConnectivityGraph.t,
    ConnectivityGraph.addConnectivity (Some example_knowledge) (ConnectivityGraph.new ∅)
    = (Returns tt, g)
    /\ forall a b : GraphNode.t,
         a ∈ ConnectivityGraph.nodes g -> b ∈ ConnectivityGraph.nodes g ->
         GraphNode.id a = GraphNode.id b -> a = b.
Proof.
  exact (X1_nodes_of_one_id_are_equal ∅ example_knowledge _ _ _ eq_refl eq_refl eq_refl).
Defined.

(** X2. The [id] of an edge, the ids of its two ends joined by an
    underscore, tells the edge: two edges of the graph have the same [id]
    only when they come from equal edges of the knowledge, and they are then
    the same edge. *)
Theorem X2_edge_id_tells_the_edge (cache : gmap string string)
  (k : ConnectivityKnowledge.t) (conn : list KnowledgeEdge) (ax den : list KnowledgeNode) :
  ConnectivityKnowledge.connectivity k = Some conn ->
  ConnectivityKnowledge.axons k = Some ax ->
  ConnectivityKnowledge.dendrites k = Some den ->
  exists g : ConnectivityGraph.t,
    ConnectivityGraph.addConnectivity (Some k) (ConnectivityGraph.new cache) = (Returns tt, g)
    /\ forall (i j : nat) (x y : GraphEdge.t),
         ConnectivityGraph.edges g !! i = Some x ->
         ConnectivityGraph.edges g !! j = Some y ->
         GraphEdge.id x = GraphEdge.id y ->
         conn !! i = conn !! j /\ x = y.
Proof.
  intros Hc Ha Hd. eexists. split; [exact (addConnectivity_built cache k conn ax den Hc Ha Hd) |].
  cbv beta iota zeta delta [ConnectivityGraph.edges]. intros i j x y Hx Hy E.
  unfold KnowledgeEdge in *. rewrite lookup_map in Hx, Hy.
  destruct (conn !! i) as [ei|]; [| discriminate Hx].
  destruct (conn !! j) as [ej|]; [| discriminate Hy].
  injection Hx as <-. injection Hy as <-.
  apply builtEdge_id_inj in E. subst ej. split; reflexivity.
Qed.

(** The theorem on the path of one edge. *)
Lemma X2_witness :
  exists g : ConnectivityGraph.t,
    ConnectivityGraph.addConnectivity (Some example_knowledge) (ConnectivityGraph.new ∅)
    = (Returns tt, g)
    /\ forall (i j : nat) (x y : GraphEdge.t),
         ConnectivityGraph.edges g !! i = Some x ->
         ConnectivityGraph.edges g !! j = Some y ->
         GraphEdge.id x = GraphEdge.id y ->
         ([(("A", []), ("B", ["C"]))] : list KnowledgeEdge) !! i
         = ([(("A", []), ("B", ["C"]))] : list KnowledgeEdge) !! j /\ x = y.
Proof.
  exact (X2_edge_id_tells_the_edge ∅ example_knowledge _ _ _ eq_refl eq_refl eq_refl).
Defined.

(** X3. The elements handed to the engine are closed: every edge element
    has for [source] and [target] the ids of node elements of the same
    list, which holds one node element when the path has no edge and three
    elements for each edge otherwise. *)
Theorem X3_edges_join_nodes_of_the_graph (cache : gmap string string)
  (k : ConnectivityKnowledge.t) (conn : list KnowledgeEdge) (ax den : list KnowledgeNode) :
  ConnectivityKnowledge.connectivity k = Some conn ->
  ConnectivityKnowledge.axons k = Some ax ->
  ConnectivityKnowledge.dendrites k = Some den ->
  exists g : ConnectivityGraph.t,
    ConnectivityGraph.addConnectivity (Some k) (ConnectivityGraph.new cache) = (Returns tt, g)
    /\ length (ConnectivityGraph.elements g)
       = match conn with [] => 1%nat | _ => (3 * length conn)%nat end
    /\ forall e : GraphEdge.t,
         EdgeElement e ∈ ConnectivityGraph.elements g ->
         exists a b : GraphNode.t,
           NodeElement a ∈ ConnectivityGraph.elements g
           /\ NodeElement b ∈ ConnectivityGraph.elements g
           /\ GraphNode.id a = GraphEdge.source e
           /\ GraphNode.id b = GraphEdge.target e.
Proof.
  intros Hc Ha Hd. eexists. split; [exact (addConnectivity_built cache k conn ax den Hc Ha Hd) |].
  unfold ConnectivityGraph.elements.
  cbv beta iota zeta delta [ConnectivityGraph.nodes ConnectivityGraph.edges].
  set (N := builtNode cache (map stringifyNode ax) (map stringifyNode den)
              (map stringifyNode (roleSet (ConnectivityKnowledge.somas k)))).
  split.
  - rewrite length_app, !length_map. destruct conn as [|e0 conn]; [reflexivity |].
    unfold KnowledgeEdge in *. rewrite flat_map_pair_length. lia.
  - intros e He. apply elem_of_app in He as [He | He].
    + apply list_elem_of_In, in_map_iff in He as (n & Hn & _). discriminate Hn.
    + apply list_elem_of_In, in_map_iff in He as (e' & E & He). injection E as ->.
      apply in_map_iff in He as (ke & <- & Hke).
      destruct conn as [|e0 conn]; [contradiction |].
      exists (N (fst ke)), (N (snd ke)).
      assert (Hin : forall node, node = fst ke \/ node = snd ke ->
                NodeElement (N node)
                ∈ map NodeElement (flat_map (fun e => [N (fst e); N (snd e)]) (e0 :: conn))
                  ++ map EdgeElement (map builtEdge (e0 :: conn))).
      { intros node Hnode. apply elem_of_app. left. apply list_elem_of_In, in_map.
        apply in_flat_map. exists ke. split; [exact Hke |].
        destruct Hnode as [-> | ->]; [left | right; left]; reflexivity. }
      split; [apply Hin; left; reflexivity |].
      split; [apply Hin; right; reflexivity |].
      subst N. rewrite !id_builtNode. split; reflexivity.
Qed.

(** The theorem on the path of one edge. *)
Lemma X3_witness :
  exists g : ConnectivityGraph.t,
    ConnectivityGraph.addConnectivity (Some example_knowledge) (ConnectivityGraph.new ∅)
    = (Returns tt, g)
    /\ length (ConnectivityGraph.elements g) = 3%nat
    /\ forall e : GraphEdge.t,
         EdgeElement e ∈ ConnectivityGraph.elements g ->
         exists a b : GraphNode.t,
           NodeElement a ∈ ConnectivityGraph.elements g
           /\ NodeElement b ∈ ConnectivityGraph.elements g
           /\ GraphNode.id a = GraphEdge.source e
           /\ GraphNode.id b = GraphEdge.target e.
Proof.
  exact (X3_edges_join_nodes_of_the_graph ∅ example_knowledge _ _ _ eq_refl eq_refl eq_refl).
Defined.

(** ** Showing the graph *)

Lemma keeps_graphNode {V : Type} (f : ConnectivityGraph.t -> V) (node : KnowledgeNode) :
  keeps f (ConnectivityGraph.graphNode node).
Proof. unfold ConnectivityGraph.graphNode. repeat keeps_step. Qed.

(** [addConnectivity] assigns the role arrays before anything else: when it
    returns, [#dendrites] is an array. *)
Lemma addConnectivity_returns_dendrites (knowledge : option ConnectivityKnowledge.t)
  (g0 g : ConnectivityGraph.t) :
  ConnectivityGraph.addConnectivity knowledge g0 = (Returns tt, g) ->
  is_Some (ConnectivityGraph.dendrites g).
Proof.
  unfold ConnectivityGraph.addConnectivity. intros H.
  apply bind_returns_inv in H as (k & g1 & _ & H).
  apply bind_returns_inv in H as (ax & g2 & _ & H).
  rewrite bind_modify in H.
  apply bind_returns_inv in H as (den & g3 & _ & H).
  rewrite bind_modify in H.
  match type of H with bind ?m ?k' ?s = _ =>
    assert (K : keeps (fun x => is_Some (ConnectivityGraph.dendrites x)) (bind m k'))
  end.
  { repeat (keeps_step || apply keeps_graphNode || reflexivity
            || unfold ConnectivityGraph.addEdge). }
  specialize (K (ConnectivityGraph.set_dendrites (map stringifyNode den) g3)).
  rewrite H in K. cbn [snd ConnectivityGraph.set_dendrites ConnectivityGraph.dendrites] in K.
  rewrite K. eauto.
Qed.

(** X4. [showConnectivity] on an object just made throws a [TypeError]
    when it reads the roots, and the page is left as it was: no instance of
    the engine, no tooltip. Once [addConnectivity] has returned on the
    object, [showConnectivity] returns for every layout: it makes one
    instance of the engine from the elements of the graph, with the layout
    chosen by name and the dendrites and somas as roots, creates one
    tooltip, and keeps the instance in [#cy]. *)
Theorem X4_showConnectivity_after_addConnectivity (cache : gmap string string)
  (knowledge : option ConnectivityKnowledge.t) (g0 g : ConnectivityGraph.t)
  (layout : string) (doc : Document.t) :
  ConnectivityGraph.addConnectivity knowledge g0 = (Returns tt, g) ->
  (exists message : string,
     ConnectivityGraph.showConnectivity layout (ConnectivityGraph.new cache) doc
     = (Throws (TypeError message), doc))
  /\ exists (den : list string) (c : CytoscapeGraph.t),
       ConnectivityGraph.dendrites g = Some den
       /\ CytoscapeGraph.cy_elements c = ConnectivityGraph.elements g
       /\ CytoscapeGraph.cy_layout c
          = CytoscapeGraph.layoutOption layout (den ++ ConnectivityGraph.somas g)
       /\ ConnectivityGraph.showConnectivity layout g doc
          = (Returns (ConnectivityGraph.set_cy (Some c) g),
             Document.appendTooltip
               (Document.callEngine
                  (cytoscape_new (ConnectivityGraph.elements g) (CytoscapeGraph.cy_layout c))
                  doc)).
Proof.
  intros H. split; [eexists; reflexivity |].
  destruct (addConnectivity_returns_dendrites _ _ _ H) as [den Hden].
  exists den,
    {| CytoscapeGraph.cy_elements := ConnectivityGraph.elements g;
       CytoscapeGraph.cy_layout :=
         CytoscapeGraph.layoutOption layout (den ++ ConnectivityGraph.somas g);
       CytoscapeGraph.tooltip_hidden := true |}.
  split; [exact Hden |]. split; [reflexivity |]. split; [reflexivity |].
  unfold ConnectivityGraph.showConnectivity, ConnectivityGraph.roots. rewrite Hden.
  reflexivity.
Qed.

(** The theorem on the path of one edge, shown with the layout [dagre]. *)
Lemma X4_witness :
  let g := snd (ConnectivityGraph.addConnectivity (Some example_knowledge)
                  (ConnectivityGraph.new ∅)) in
  (exists message : string,
     ConnectivityGraph.showConnectivity "dagre" (ConnectivityGraph.new ∅) (example_page [])
     = (Throws (TypeError message), example_page []))
  /\ exists (den : list string) (c : CytoscapeGraph.t),
       ConnectivityGraph.dendrites g = Some den
       /\ CytoscapeGraph.cy_elements c = ConnectivityGraph.elements g
       /\ CytoscapeGraph.cy_layout c
          = CytoscapeGraph.layoutOption "dagre" (den ++ ConnectivityGraph.somas g)
       /\ ConnectivityGraph.showConnectivity "dagre" g (example_page [])
          = (Returns (ConnectivityGraph.set_cy (Some c) g),
             Document.appendTooltip
               (Document.callEngine
                  (cytoscape_new (ConnectivityGraph.elements g) (CytoscapeGraph.cy_layout c))
                  (example_page []))).
Proof.
  exact (X4_showConnectivity_after_addConnectivity ∅ (Some example_knowledge)
           (ConnectivityGraph.new ∅) _ "dagre" (example_page []) eq_refl).
Defined.

(** X5. When a path is selected and [#showGraph] returns, the page has
    got exactly one more call to the engine, the creation of an instance for
    the graph just built with the layout of the Selection State, and one
    more tooltip; no instance is destroyed, the one of a graph shown before
    included. The spinner and the prompt are hidden. *)
Theorem X5_showGraph_makes_one_instance (net : Network) (neuronPath layout : string)
  (app app' : App.t) :
  JS.truthy (App.path app) = true ->
  App.showGraph net neuronPath layout app = (Returns tt, app') ->
  exists (g : ConnectivityGraph.t) (c : CytoscapeGraph.t) (den : list string),
    App.connectivityGraph app' = Some g
    /\ ConnectivityGraph.cy g = Some c
    /\ ConnectivityGraph.dendrites g = Some den
    /\ CytoscapeGraph.cy_layout c
       = CytoscapeGraph.layoutOption (App.layout app) (den ++ ConnectivityGraph.somas g)
    /\ Document.engineCalls (App.document app')
       = Document.engineCalls (App.document app)
         ++ [cytoscape_new (ConnectivityGraph.elements g) (CytoscapeGraph.cy_layout c)]
    /\ Document.tooltipsCreated (App.document app')
       = S (Document.tooltipsCreated (App.document app))
    /\ Document.spinnerDisplay (App.document app') = "none"
    /\ Document.pathPromptDisplay (App.document app') = "none".
Proof.
  intros Ht H. unfold App.showGraph in H. rewrite bind_get, Ht in H.
  apply bind_returns_inv in H as ([] & a1 & H1 & H).
  apply bind_returns_inv in H as (info & a2 & H2 & H).
  set (view := fun a : App.t =>
                 (App.layout a, Document.engineCalls (App.document a),
                  Document.tooltipsCreated (App.document a))).
  assert (K2 : view a2 = view app).
  { transitivity (view a1).
    - match type of H2 with ?m a1 = _ => assert (K : keeps view m) end.
      { repeat (keeps_step || apply keeps_fetchMapConnectivity || apply keeps_cacheLabels
                || apply keeps_getCachedTermLabels || (intros; reflexivity)). }
      specialize (K a1). rewrite H2 in K. exact K.
    - injection H1 as <-. reflexivity. }
  rewrite bind_get, bind_modify in H.
  apply bind_returns_inv in H as ([] & a4 & H4 & H).
  unfold App.onGraph in H4. cbn [App.connectivityGraph App.set_connectivityGraph] in H4.
  destruct (ConnectivityGraph.addConnectivity info _) as [r g1] eqn:Eadd.
  injection H4 as -> <-.
  destruct (addConnectivity_returns_dendrites _ _ _ Eadd) as [den Hden].
  apply bind_returns_inv in H as ([] & a5 & H5 & H). injection H5 as <-.
  apply bind_returns_inv in H as ([] & a6 & H6 & H). injection H6 as <-.
  rewrite bind_get in H.
  cbv beta iota zeta delta [App.connectivityGraph App.set_connectivityGraph App.set_document
                             App.document ConnectivityGraph.defined] in H.
  rewrite bind_ret in H.
  apply bind_returns_inv in H as (g2 & a7 & H7 & H).
  unfold App.onDocument in H7.
  unfold ConnectivityGraph.showConnectivity, ConnectivityGraph.roots in H7.
  rewrite Hden in H7.
  cbv beta iota zeta delta [bind ret modify ConnectivityGraph.defined CytoscapeGraph.new] in H7.
  injection H7 as <- <-.
  cbv beta iota zeta delta [bind modify get ret] in H. injection H as <-.
  subst view. cbv beta in K2. injection K2 as Kl Ke Kt.
  eexists. eexists. exists den.
  cbn. change (let (_, _, _, _, _, _, _, _, _, _, _, _, document) := a2 in document)
    with (App.document a2).
  rewrite Kl, Ke, Kt.
  split; [reflexivity |]. split; [reflexivity |]. split; [exact Hden |].
  repeat split.
Qed.

(** The theorem on the page opened on a release and a path of it, when the
    layout is changed after [run]. *)
Lemma X5_witness :
  let started := snd (App.run example_origin_network example_origin_app) in
  let app' := snd (App.showGraph example_origin_network "" "" started) in
  length (Document.engineCalls (App.document started)) = 1%nat
  /\ length (Document.engineCalls (App.document app')) = 2%nat
  /\ Document.tooltipsCreated (App.document app') = 2%nat.
Proof.
  destruct (X5_showGraph_makes_one_instance example_origin_network "" ""
              (snd (App.run example_origin_network example_origin_app))
              (snd (App.showGraph example_origin_network "" ""
                      (snd (App.run example_origin_network example_origin_app))))
              ltac:(vm_compute; reflexivity) ltac:(vm_compute; reflexivity))
    as (g & c & den & _ & _ & _ & _ & He & Htt & _).
  cbv zeta. rewrite He, Htt, length_app. vm_compute. repeat split.
Defined.

(** ** What the node style shows *)

Lemma append_empty_r (s : string) : s +:+ "" = s.
Proof. induction s as [|c s IH]; [reflexivity | rewrite append_cons, IH; reflexivity]. Qed.

Lemma length_append (a b : string) :
  String.length (a +:+ b) = (String.length a + String.length b)%nat.
Proof. induction a as [|c a IH]; [reflexivity | rewrite append_cons; simpl; rewrite IH; reflexivity]. Qed.

(** The pieces of a split: there is one at least, and none holds a line
    feed. *)
Lemma split_pieces (s : string) :
  JS.split JS.newline s <> [] /\ forallb JS.newlineFree (JS.split JS.newline s) = true.
Proof.
  induction s as [|c s [IHne IHf]]; [split; [discriminate | reflexivity] |].
  simpl. destruct (Ascii.eqb c JS.newline) eqn:E.
  - split; [discriminate |]. simpl. exact IHf.
  - destruct (JS.split JS.newline s) as [|piece pieces]; [congruence |].
    split; [discriminate |]. simpl in IHf |- *. rewrite E. exact IHf.
Qed.

(** Joining the pieces of a split gives the string back. *)
Lemma join_split (s : string) :
  JS.join (JS.str JS.newline) (JS.split JS.newline s) = s.
Proof.
  induction s as [|c s IH]; [reflexivity |].
  simpl. destruct (Ascii.eqb c JS.newline) eqn:E.
  - apply Ascii.eqb_eq in E. subst c. rewrite join_cons.
    destruct (JS.split JS.newline s) as [|piece pieces] eqn:Es.
    + destruct (split_pieces s) as [Hne _]. congruence.
    + rewrite IH. reflexivity.
  - destruct (JS.split JS.newline s) as [|piece pieces] eqn:Es.
    + destruct (split_pieces s) as [Hne _]. congruence.
    + rewrite join_cons in IH |- *. rewrite append_cons, IH. reflexivity.
Qed.

Lemma capitalizeLabel_idempotent (label : string) :
  capitalizeLabel (capitalizeLabel label) = capitalizeLabel label.
Proof.
  destruct label as [|c rest]; [reflexivity |].
  destruct c as [[] [] [] [] [] [] [] []]; reflexivity.
Qed.

Lemma capitalizeLabel_newlineFree (label : string) :
  JS.newlineFree (capitalizeLabel label) = JS.newlineFree label.
Proof.
  destruct label as [|c rest]; [reflexivity |].
  destruct c as [[] [] [] [] [] [] [] []]; reflexivity.
Qed.

Lemma capitalizeLabel_length (label : string) :
  String.length (capitalizeLabel label) = String.length label.
Proof.
  destruct label as [|c rest]; [reflexivity |].
  destruct c as [[] [] [] [] [] [] [] []]; reflexivity.
Qed.

Lemma forallb_newlineFree_capitalize (lines : list string) :
  forallb JS.newlineFree (map capitalizeLabel lines) = forallb JS.newlineFree lines.
Proof.
  induction lines as [|l lines IH]; [reflexivity |].
  simpl. rewrite capitalizeLabel_newlineFree, IH. reflexivity.
Qed.

(** The lines of [capitalizeLabels]: the lines of the input, each with its
    first letter put in upper case. *)
Lemma split_capitalizeLabels (input : string) :
  JS.split JS.newline (capitalizeLabels input)
  = map capitalizeLabel (JS.split JS.newline input).
Proof.
  unfold capitalizeLabels. destruct (split_pieces input) as [Hne Hf].
  apply split_join.
  - destruct (JS.split JS.newline input); [congruence | discriminate].
  - rewrite forallb_newlineFree_capitalize. exact Hf.
Qed.

Lemma length_join_capitalize (lines : list string) :
  String.length (JS.join (JS.str JS.newline) (map capitalizeLabel lines))
  = String.length (JS.join (JS.str JS.newline) lines).
Proof.
  induction lines as [|l lines IH]; [reflexivity |].
  rewrite map_cons, !join_cons, !length_append, capitalizeLabel_length.
  destruct lines as [|l' lines]; [reflexivity |].
  rewrite map_cons in IH |- *. rewrite !length_append, IH. reflexivity.
Qed.

(** X6. [capitalizeLabels] changes the first letter of each line and
    nothing else: the string keeps its length and its number of lines, each
    line is the line of the input with [capitalizeLabel] applied, and
    applying the function to its own result changes nothing. *)
Theorem X6_capitalizeLabels_is_idempotent (input : string) :
  capitalizeLabels (capitalizeLabels input) = capitalizeLabels input
  /\ String.length (capitalizeLabels input) = String.length input
  /\ JS.split JS.newline (capitalizeLabels input)
     = map capitalizeLabel (JS.split JS.newline input)
  /\ length (JS.split JS.newline (capitalizeLabels input))
     = length (JS.split JS.newline input).
Proof.
  split; [| split; [| split]].
  - unfold capitalizeLabels at 1. rewrite split_capitalizeLabels.
    unfold capitalizeLabels. f_equal. rewrite map_map.
    apply map_ext. intros l. apply capitalizeLabel_idempotent.
  - unfold capitalizeLabels. rewrite length_join_capitalize, join_split. reflexivity.
  - apply split_capitalizeLabels.
  - rewrite split_capitalizeLabels. apply length_map.
Qed.

(** X7. [trimLabel] shows the lines of the label from the middle on, each
    with its first letter in upper case; with an odd number of lines the
    middle line is shown too, so that a line at least is shown: a label of
    one line, as the one of the sentinel node, is shown whole. *)
Theorem X7_trimLabel_shows_the_second_half (label : string) :
  let lines := JS.split JS.newline label in
  let n := length lines in
  JS.split JS.newline (trimLabel label) = map capitalizeLabel (JS.slice (n / 2) lines)
  /\ length (JS.split JS.newline (trimLabel label)) = (n - n / 2)%nat
  /\ (1 <= n - n / 2)%nat
  /\ (n = 1%nat -> trimLabel label = capitalizeLabel label)
  /\ trimLabel (GraphNode.label ConnectivityGraph.MISSING) = "NO PATHS".
Proof.
  intros lines n.
  destruct (split_pieces label) as [Hne Hf]. fold lines in Hne, Hf.
  assert (Hn : (1 <= n)%nat).
  { subst n. destruct lines; [congruence | simpl; lia]. }
  assert (Hhalf : (n / 2 < n)%nat) by (apply Nat.div_lt; lia).
  assert (Hsplit : JS.split JS.newline (JS.join (JS.str JS.newline) (JS.slice (n / 2) lines))
                   = JS.slice (n / 2) lines).
  { apply split_join.
    - unfold JS.slice. intros E. apply (f_equal (@length string)) in E.
      rewrite length_skipn in E. change (length (@nil string)) with 0%nat in E.
      fold n in E. lia.
    - unfold JS.slice. apply forallb_forall. intros x Hx.
      assert (Hx' : In x lines).
      { rewrite <- (firstn_skipn (n / 2) lines). apply in_or_app. right. exact Hx. }
      clear Hx. revert x Hx'. apply forallb_forall. exact Hf. }
  assert (E : JS.split JS.newline (trimLabel label)
              = map capitalizeLabel (JS.slice (n / 2) lines)).
  { unfold trimLabel. fold lines. fold n. rewrite split_capitalizeLabels, Hsplit. reflexivity. }
  split; [exact E |].
  split; [rewrite E, length_map; unfold JS.slice; rewrite length_skipn; reflexivity |].
  split; [lia |].
  split; [| reflexivity].
  intros H1. unfold trimLabel, capitalizeLabels. fold lines. fold n. rewrite Hsplit, H1.
  change (1 / 2)%nat with 0%nat. unfold JS.slice. rewrite skipn_O.
  destruct lines as [|l [|l' rest]] eqn:El; try discriminate H1.
  assert (Hl : label = l).
  { rewrite <- (join_split label). fold lines. rewrite El. rewrite join_cons.
    apply append_empty_r. }
  subst l. rewrite map_cons, join_cons. apply append_empty_r.
Qed.

(** The theorem on a label of one line. *)
Lemma X7_witness : trimLabel "heart" = "Heart".
Proof.
  destruct (X7_trimLabel_shows_the_second_half "heart") as (_ & _ & _ & H & _).
  exact (H eq_refl).
Defined.

(** ** The address *)

Lemma searchParams_get_set (key value : string) (ps : list (string * string)) :
  searchParams_get key (App.searchParams_set key value ps) = Some value.
Proof.
  induction ps as [|[k v] ps IH]; simpl.
  - rewrite String.eqb_refl. reflexivity.
  - destruct (String.eqb k key) eqn:E; simpl.
    + rewrite String.eqb_refl. reflexivity.
    + rewrite E. exact IH.
Qed.

Lemma pairsOf_filter_other (key : string) (ps : list (string * string)) :
  pairsOf key (List.filter (fun kv => negb (String.eqb (fst kv) key)) ps) = [].
Proof.
  unfold pairsOf. induction ps as [|[k v] ps IH]; [reflexivity |].
  simpl. destruct (String.eqb k key) eqn:E; simpl; [exact IH | rewrite E; exact IH].
Qed.

Lemma pairsOf_set (key value : string) (ps : list (string * string)) :
  pairsOf key (App.searchParams_set key value ps) = [(key, value)].
Proof.
  induction ps as [|[k v] ps IH]; simpl.
  - unfold pairsOf. simpl. rewrite String.eqb_refl. reflexivity.
  - destruct (String.eqb k key) eqn:E.
    + unfold pairsOf. simpl. rewrite String.eqb_refl. f_equal. apply pairsOf_filter_other.
    + unfold pairsOf in *. simpl. rewrite E. exact IH.
Qed.

Lemma filter_other_id (key : string) (ps : list (string * string)) :
  pairsOf key ps = [] ->
  List.filter (fun kv => negb (String.eqb (fst kv) key)) ps = ps.
Proof.
  unfold pairsOf. induction ps as [|[k v] ps IH]; [reflexivity |].
  simpl. destruct (String.eqb k key) eqn:E; simpl; [discriminate |].
  intros H. rewrite (IH H). reflexivity.
Qed.

Lemma searchParams_set_set (key value : string) (ps : list (string * string)) :
  App.searchParams_set key value (App.searchParams_set key value ps)
  = App.searchParams_set key value ps.
Proof.
  induction ps as [|[k v] ps IH]; simpl.
  - rewrite String.eqb_refl. reflexivity.
  - destruct (String.eqb k key) eqn:E; simpl.
    + rewrite String.eqb_refl. f_equal. apply filter_other_id, pairsOf_filter_other.
    + rewrite E, IH. reflexivity.
Qed.

(** X8. [#updateURL] always returns and pushes one entry on the session
    history. In the query of the new address the parameter has the value
    given, it occurs once whatever the number of its occurrences before,
    and every other parameter reads as before; setting the same value a
    second time leaves the query as it is. *)
Theorem X8_updateURL_sets_one_parameter (key value : string) (app : App.t) :
  let app' := snd (App.updateURL key value app) in
  let ps := Document.searchParams (App.document app) in
  let ps' := Document.searchParams (App.document app') in
  App.updateURL key value app = (Returns tt, app')
  /\ searchParams_get key ps' = Some value
  /\ pairsOf key ps' = [(key, value)]
  /\ (forall other : string,
        String.eqb key other = false -> searchParams_get other ps' = searchParams_get other ps)
  /\ Document.historyLength (App.document app') = S (Document.historyLength (App.document app))
  /\ Document.searchParams (App.document (snd (App.updateURL key value app'))) = ps'.
Proof.
  intros app' ps ps'.
  assert (E : ps' = App.searchParams_set key value ps) by reflexivity.
  split; [reflexivity |].
  split; [rewrite E; apply searchParams_get_set |].
  split; [rewrite E; apply pairsOf_set |].
  split; [intros other Hne; rewrite E; now apply searchParams_get_set_other |].
  split; [reflexivity |].
  change (App.searchParams_set key value ps' = ps'). rewrite E. apply searchParams_set_set.
Qed.

(** The theorem on an address that holds the origin and the path, when the
    path is set. *)
Lemma X8_witness :
  let app' := snd (App.updateURL "path" "ilxtr:neuron-2" example_origin_app) in
  searchParams_get "source" (Document.searchParams (App.document app'))
  = Some "sckan-2024-09-21"
  /\ searchParams_get "path" (Document.searchParams (App.document app'))
     = Some "ilxtr:neuron-2".
Proof.
  destruct (X8_updateURL_sets_one_parameter "path" "ilxtr:neuron-2" example_origin_app)
    as (_ & Hp & _ & Ho & _).
  cbv zeta. split; [| exact Hp]. rewrite (Ho "source" eq_refl). reflexivity.
Defined.

(** *** What the handlers leave of the address *)

Lemma keeps_getJsonData {V T : Type} (f : App.t -> V) (r : response T) :
  keeps f (App.getJsonData r).
Proof. unfold App.getJsonData. repeat keeps_step. Qed.

Lemma keeps_getAvailableMaps {V : Type} (f : App.t -> V) (net : Network) :
  keeps f (App.getAvailableMaps net).
Proof. unfold App.getAvailableMaps. repeat keeps_step. Qed.

(** [#setSourceList] writes the origin and the children of the source
    selector, and nothing else. *)
Lemma keeps_setSourceList {V W : Type} (f : App.t -> V) (h : Document.t -> W)
  (net : Network) :
  (forall d app, h d = h (App.document app) -> f (App.set_document d app) = f app) ->
  (forall x app, f (App.set_source x app) = f app) ->
  (forall x d, h (Document.set_sourceOptions x d) = h d) ->
  keeps f (App.setSourceList net).
Proof.
  intros Hd Hs Ho. unfold App.setSourceList.
  repeat (keeps_step || apply keeps_getJsonData || apply keeps_getAvailableMaps
          || apply Hs || (apply (keeps_onDocument f h Hd); keeps_step; apply Ho)).
Qed.

(** [#updateURL] followed by [#hideSpinner], when the value is read from
    the state. *)
Lemma updateURL_hideSpinner (key : string) (field : App.t -> string) (a app' : App.t) :
  bind (bind get (fun s => App.updateURL key (field s))) (fun _ => App.hideSpinner) a
  = (Returns tt, app') ->
  Document.searchParams (App.document app')
  = App.searchParams_set key (field a) (Document.searchParams (App.document a)).
Proof.
  cbv beta iota zeta delta [App.updateURL App.hideSpinner App.onDocument bind get modify].
  intros H. injection H as <-. reflexivity.
Qed.

Ltac frame_facts := intros; try reflexivity; simpl in *; congruence.

(** The query of the address after the handler of the path selector has
    returned for a value that is not empty. *)
Lemma pathSelector_onchange_address (net : Network) (value : string) (app app' : App.t) :
  JS.truthy value = true ->
  App.pathSelector_onchange net value app = (Returns tt, app') ->
  Document.searchParams (App.document app')
  = App.searchParams_set "path" value (Document.searchParams (App.document app)).
Proof.
  intros Hv H. unfold App.pathSelector_onchange in H. rewrite Hv in H.
  apply bind_returns_inv in H as ([] & a1 & H1 & H). injection H1 as <-.
  rewrite bind_assoc, bind_modify, bind_assoc in H.
  apply bind_returns_inv in H as ([] & a3 & H3 & H). rewrite bind_get in H3.
  pose proof (keeps_showGraph
                (fun a => (App.path a, Document.searchParams (App.document a)))
                Document.searchParams
                ltac:(frame_facts) ltac:(frame_facts) ltac:(frame_facts) ltac:(frame_facts)
                ltac:(frame_facts) ltac:(frame_facts) ltac:(frame_facts) ltac:(frame_facts)
                ltac:(frame_facts) ltac:(frame_facts) net) as K.
  match type of H3 with App.showGraph _ ?p ?l ?s = _ => specialize (K p l s) end.
  rewrite H3 in K. cbn in K. injection K as Kp Ks.
  apply (updateURL_hideSpinner "path" App.path) in H. rewrite H, Kp, Ks. reflexivity.
Qed.

Lemma layoutSelector_onchange_address (net : Network) (value : string) (app app' : App.t) :
  App.layoutSelector_onchange net value app = (Returns tt, app') ->
  Document.searchParams (App.document app')
  = App.searchParams_set "layout" value (Document.searchParams (App.document app)).
Proof.
  intros H. unfold App.layoutSelector_onchange in H.
  apply bind_returns_inv in H as ([] & a1 & H1 & H). injection H1 as <-.
  rewrite bind_modify in H.
  apply bind_returns_inv in H as ([] & a3 & H3 & H). rewrite bind_get in H3.
  pose proof (keeps_showGraph
                (fun a => (App.layout a, Document.searchParams (App.document a)))
                Document.searchParams
                ltac:(frame_facts) ltac:(frame_facts) ltac:(frame_facts) ltac:(frame_facts)
                ltac:(frame_facts) ltac:(frame_facts) ltac:(frame_facts) ltac:(frame_facts)
                ltac:(frame_facts) ltac:(frame_facts) net) as K.
  match type of H3 with App.showGraph _ ?p ?l ?s = _ => specialize (K p l s) end.
  rewrite H3 in K. cbn in K. injection K as Kp Ks.
  apply (updateURL_hideSpinner "layout" App.layout) in H. rewrite H, Kp, Ks. reflexivity.
Qed.

Lemma serverSelector_onchange_address (net : Network) (value : string) (app app' : App.t) :
  App.serverSelector_onchange net value app = (Returns tt, app') ->
  Document.searchParams (App.document app')
  = App.searchParams_set "server" value (Document.searchParams (App.document app)).
Proof.
  intros H. unfold App.serverSelector_onchange in H.
  apply bind_returns_inv in H as ([] & a1 & H1 & H). injection H1 as <-.
  rewrite bind_modify in H.
  apply bind_returns_inv in H as ([] & a2 & H2 & H).
  pose proof (keeps_setSourceList (fun a => (App.mapServer a, Document.searchParams (App.document a)))
                Document.searchParams net
                ltac:(frame_facts) ltac:(frame_facts) ltac:(frame_facts)) as K2.
  match type of H2 with _ ?s = _ => specialize (K2 s) end. rewrite H2 in K2.
  apply bind_returns_inv in H as ([] & a3 & H3 & H).
  pose proof (keeps_setPathList (fun a => (App.mapServer a, Document.searchParams (App.document a)))
                Document.searchParams
                ltac:(frame_facts) ltac:(frame_facts) ltac:(frame_facts) ltac:(frame_facts)
                ltac:(frame_facts) net a2) as K3.
  rewrite H3 in K3.
  apply bind_returns_inv in H as ([] & a4 & H4 & H). rewrite bind_get in H4.
  pose proof (keeps_showGraph (fun a => (App.mapServer a, Document.searchParams (App.document a)))
                Document.searchParams
                ltac:(frame_facts) ltac:(frame_facts) ltac:(frame_facts) ltac:(frame_facts)
                ltac:(frame_facts) ltac:(frame_facts) ltac:(frame_facts) ltac:(frame_facts)
                ltac:(frame_facts) ltac:(frame_facts) net) as K4.
  match type of H4 with App.showGraph _ ?p ?l ?s = _ => specialize (K4 p l s) end.
  rewrite H4 in K4.
  cbn [snd] in K2, K3, K4.
  assert (K : (App.mapServer a4, Document.searchParams (App.document a4))
              = (value, Document.searchParams (App.document app))).
  { rewrite K4, K3, K2. reflexivity. }
  injection K as Km Ks.
  apply (updateURL_hideSpinner "server" App.mapServer) in H. rewrite H, Km, Ks. reflexivity.
Qed.

Lemma sourceSelector_onchange_address (net : Network) (value : string) (app app' : App.t) :
  JS.truthy value = true ->
  App.sourceSelector_onchange net value app = (Returns tt, app') ->
  Document.searchParams (App.document app')
  = App.searchParams_set "source" value (Document.searchParams (App.document app)).
Proof.
  intros Hv H. unfold App.sourceSelector_onchange in H. rewrite Hv in H.
  apply bind_returns_inv in H as ([] & a1 & H1 & H). injection H1 as <-.
  rewrite bind_modify in H.
  apply bind_returns_inv in H as ([] & a3 & H3 & H).
  match type of H3 with ?m ?s = _ =>
    assert (K : keeps (fun a => (App.source a, Document.searchParams (App.document a))) m)
  end.
  { repeat (keeps_step
            || (apply (keeps_setPathList _ Document.searchParams); frame_facts)
            || (apply (keeps_showGraph _ Document.searchParams); frame_facts)
            || (apply (keeps_selectPath _ Document.searchParams); frame_facts)
            || (apply (keeps_clearConnectivity _ Document.searchParams); frame_facts)
            || reflexivity). }
  match type of H3 with _ ?s = _ => specialize (K s) end.
  rewrite H3 in K. cbn in K. injection K as Kp Ks.
  apply (updateURL_hideSpinner "source" App.source) in H. rewrite H, Kp, Ks. reflexivity.
Qed.

(** X9. The address that the handlers write, as [index.js] reads it when
    the page is loaded again. When the handler of the path selector (for a
    value that is not empty), of the layout selector or of the server
    selector returns, the constant [PATH], [LAYOUT] or [MAP_SERVER] read
    from the new address is the value chosen. When the handler of the source
    selector returns for a value that is not empty, the new address holds
    the value under [source], and the constant [SCKAN], which is read from
    the parameter [sckan], is what it was before: the origin chosen is not
    read back. *)
Theorem X9_address_read_at_start (net : Network) (value : string) (app : App.t) :
  (JS.truthy value = true ->
   fst (App.pathSelector_onchange net value app) = Returns tt ->
   Index.PATH (Index.read (App.document (snd (App.pathSelector_onchange net value app))))
   = Some value)
  /\ (fst (App.layoutSelector_onchange net value app) = Returns tt ->
      Index.LAYOUT (Index.read (App.document (snd (App.layoutSelector_onchange net value app))))
      = Some value)
  /\ (fst (App.serverSelector_onchange net value app) = Returns tt ->
      Index.MAP_SERVER
        (Index.read (App.document (snd (App.serverSelector_onchange net value app))))
      = Some value)
  /\ (JS.truthy value = true ->
      fst (App.sourceSelector_onchange net value app) = Returns tt ->
      searchParams_get "source"
        (Document.searchParams (App.document (snd (App.sourceSelector_onchange net value app))))
      = Some value
      /\ Index.SCKAN
           (Index.read (App.document (snd (App.sourceSelector_onchange net value app))))
         = Index.SCKAN (Index.read (App.document app))).
Proof.
  split; [| split; [| split]].
  - intros Hv Hr.
    destruct (App.pathSelector_onchange net value app) as [r app'] eqn:E.
    cbn [fst snd] in *. subst r.
    unfold Index.read. cbn [Index.PATH].
    rewrite (pathSelector_onchange_address net value app app' Hv E).
    apply searchParams_get_set.
  - intros Hr.
    destruct (App.layoutSelector_onchange net value app) as [r app'] eqn:E.
    cbn [fst snd] in *. subst r.
    unfold Index.read. cbn [Index.LAYOUT].
    rewrite (layoutSelector_onchange_address net value app app' E).
    apply searchParams_get_set.
  - intros Hr.
    destruct (App.serverSelector_onchange net value app) as [r app'] eqn:E.
    cbn [fst snd] in *. subst r.
    unfold Index.read. cbn [Index.MAP_SERVER].
    rewrite (serverSelector_onchange_address net value app app' E).
    apply searchParams_get_set.
  - intros Hv Hr.
    destruct (App.sourceSelector_onchange net value app) as [r app'] eqn:E.
    cbn [fst snd] in *. subst r.
    unfold Index.read. cbn [Index.SCKAN].
    rewrite (sourceSelector_onchange_address net value app app' Hv E).
    split; [apply searchParams_get_set |].
    apply searchParams_get_set_other. reflexivity.
Qed.

(** The theorem on the page opened on a release and a path of it: the
    origin is switched to the map after [run]. *)
Lemma X9_witness :
  let started := snd (App.run example_origin_network example_origin_app) in
  let app' := snd (App.sourceSelector_onchange example_origin_network "rat-uuid" started) in
  searchParams_get "source" (Document.searchParams (App.document app')) = Some "rat-uuid"
  /\ Index.SCKAN (Index.read (App.document app')) = None.
Proof.
  destruct (X9_address_read_at_start example_origin_network "rat-uuid"
              (snd (App.run example_origin_network example_origin_app)))
    as (_ & _ & _ & H).
  destruct (H eq_refl ltac:(vm_compute; reflexivity)) as [Hs Hk].
  cbv zeta. rewrite Hs, Hk. split; reflexivity.
Defined.

(** ** Leaving the path *)

(** X10. The handler of the path selector for the empty value (the first
    option) always returns. The graph is cleared, its instance of the
    engine destroyed when it has one, the current path is empty, the prompt
    is shown and the spinner hidden. The Selection State and the address are
    left as they were, the selected path included: when it is not empty, a
    change of layout that returns shows the graph of that path again. The
    path is the current one, the prompt is hidden, the graph held is the
    one that [addConnectivity] builds from the connectivity of that path
    (what [#fetchMapConnectivity] returns for it on a map, the knowledge
    stored for it on a release, where the label cache is left as it was),
    and one call to the engine follows the calls of the clearing, which
    shows the elements of that graph in the new layout. *)
Theorem X10_leaving_the_path_keeps_the_selection (net : Network) (layout : string)
  (app : App.t) :
  let result := App.pathSelector_onchange net "" app in
  let app' := snd result in
  fst result = Returns tt
  /\ App.connectivityGraph app' = None
  /\ App.currentPath app' = ""
  /\ Document.pathPromptDisplay (App.document app') = "block"
  /\ Document.spinnerDisplay (App.document app') = "none"
  /\ Document.engineCalls (App.document app')
     = Document.engineCalls (App.document app) ++ clearingCalls (App.connectivityGraph app)
  /\ selection app' = selection app
  /\ address (App.document app') = address (App.document app)
  /\ (JS.truthy (App.path app) = true ->
      fst (App.layoutSelector_onchange net layout app') = Returns tt ->
      let app'' := snd (App.layoutSelector_onchange net layout app') in
      App.currentPath app'' = App.path app
      /\ Document.pathPromptDisplay (App.document app'') = "none"
      /\ exists (info : ConnectivityKnowledge.t) (dens : list string),
           let built :=
             snd (ConnectivityGraph.addConnectivity (Some info)
                    (ConnectivityGraph.new (App.labelCache app''))) in
           let option :=
             CytoscapeGraph.layoutOption layout (dens ++ ConnectivityGraph.somas built) in
           (if App.sourceFromMap app
            then fst (App.fetchMapConnectivity net (App.source app) (App.path app) app)
                 = Returns (Some info)
                 /\ App.connectivityFromMap app'' = Some info
            else Knowledge.connectivity <$> (App.knowledgeByPath app !! App.path app)
                 = Some info
                 /\ App.labelCache app'' = App.labelCache app)
           /\ fst (ConnectivityGraph.addConnectivity (Some info)
                     (ConnectivityGraph.new (App.labelCache app''))) = Returns tt
           /\ ConnectivityGraph.dendrites built = Some dens
           /\ App.connectivityGraph app''
              = Some (ConnectivityGraph.set_cy
                        (Some {| CytoscapeGraph.cy_elements :=
                                   ConnectivityGraph.elements built;
                                 CytoscapeGraph.cy_layout := option;
                                 CytoscapeGraph.tooltip_hidden := true |})
                        built)
           /\ Document.engineCalls (App.document app'')
              = Document.engineCalls (App.document app)
                ++ clearingCalls (App.connectivityGraph app)
                ++ [cytoscape_new (ConnectivityGraph.elements built) option]).
Proof.
  intros result app'.
  assert (E : result
              = (Returns tt,
                 App.set_document
                   (Document.set_spinnerDisplay "none"
                      (Document.set_pathPromptDisplay "block"
                         (App.document
                            (snd (App.clearConnectivity
                                    (snd (App.showSpinner app)))))))
                   (snd (App.clearConnectivity (snd (App.showSpinner app)))))).
  { subst result. unfold App.pathSelector_onchange.
    destruct app as [[gr|] cp kb lc lt ms so pa la sfm cfm ha d];
      [destruct gr as [[c|] ns es axs des sos lca] |]; reflexivity. }
  subst app'. rewrite E. cbn [fst snd].
  split; [reflexivity |].
  assert (F : App.connectivityGraph (snd (App.clearConnectivity (snd (App.showSpinner app))))
              = None
              /\ App.currentPath (snd (App.clearConnectivity (snd (App.showSpinner app)))) = ""
              /\ Document.engineCalls
                   (App.document (snd (App.clearConnectivity (snd (App.showSpinner app)))))
                 = Document.engineCalls (App.document app)
                   ++ clearingCalls (App.connectivityGraph app)
              /\ selection (snd (App.clearConnectivity (snd (App.showSpinner app))))
                 = selection app
              /\ address (App.document (snd (App.clearConnectivity (snd (App.showSpinner app)))))
                 = address (App.document app)
              /\ App.knowledgeByPath (snd (App.clearConnectivity (snd (App.showSpinner app))))
                 = App.knowledgeByPath app
              /\ App.labelCache (snd (App.clearConnectivity (snd (App.showSpinner app))))
                 = App.labelCache app).
  { destruct app as [[gr|] cp kb lc lt ms so pa la sfm cfm ha d];
      [destruct gr as [[c|] ns es axs des sos lca] |]; cbn; rewrite ?app_nil_r; repeat split. }
  destruct F as (F1 & F2 & F3 & F4 & F5 & F6 & F7).
  split; [exact F1 |]. split; [exact F2 |]. split; [reflexivity |]. split; [reflexivity |].
  split; [exact F3 |]. split; [exact F4 |]. split; [exact F5 |].
  intros Ht Hr.
  set (cleared := App.set_document _ _) in *.
  destruct (App.layoutSelector_onchange net layout cleared) as [r fin] eqn:El.
  cbn [fst snd] in *. subst r.
  unfold App.layoutSelector_onchange in El.
  apply bind_returns_inv in El as ([] & a1 & H1 & El).
  assert (E1 : a1 = snd (App.showSpinner cleared)) by (rewrite H1; reflexivity).
  subst a1. clear H1.
  rewrite bind_modify in El.
  apply bind_returns_inv in El as ([] & a3 & H3 & El). rewrite bind_get in H3.
  set (a2 := App.set_layout layout (snd (App.showSpinner cleared))) in *.
  assert (Hp : App.path a2 = App.path app).
  { subst a2 cleared. apply (f_equal (fun x => snd (fst x))) in F4. exact F4. }
  assert (Hm : App.sourceFromMap a2 = App.sourceFromMap app).
  { subst a2 cleared. apply (f_equal (fun x => snd (fst (fst x)))) in F4. exact F4. }
  assert (Hso : App.source a2 = App.source app).
  { subst a2 cleared. apply (f_equal (fun x => snd (fst (fst (fst x))))) in F4. exact F4. }
  assert (Hms : App.mapServer a2 = App.mapServer app).
  { subst a2 cleared. apply (f_equal (fun x => fst (fst (fst (fst x))))) in F4. exact F4. }
  assert (Hk : App.knowledgeByPath a2 = App.knowledgeByPath app) by exact F6.
  assert (Hl : App.labelCache a2 = App.labelCache app) by exact F7.
  assert (Hc : Document.engineCalls (App.document a2)
               = Document.engineCalls (App.document app)
                 ++ clearingCalls (App.connectivityGraph app)) by exact F3.
  assert (Ht2 : JS.truthy (App.path a2) = true) by (rewrite Hp; exact Ht).
  destruct (showGraph_returns net _ _ a2 a3 Ht2 H3) as (Hcur & Hprompt & _).
  destruct (showGraph_shows net _ _ a2 a3 Ht2 H3) as (info & dens & Hshow).
  cbv zeta in Hshow.
  change (App.layout a2) with layout in Hshow.
  rewrite Hm, Hso, Hp, Hk, Hl, Hc in Hshow.
  rewrite (fetchMapConnectivity_mapServer net (App.source app) (App.path app) a2 app Hms)
    in Hshow.
  destruct Hshow as (Hinfo & Hret & Hden & Hgr & Hcalls).
  cbv beta iota zeta delta [App.updateURL App.hideSpinner App.onDocument bind get modify] in El.
  injection El as <-.
  cbn [App.document App.set_document Document.searchParams Document.pushState
       Document.set_spinnerDisplay Document.pathOptions Document.pathPromptDisplay
       Document.engineCalls App.currentPath App.connectivityGraph App.labelCache
       App.connectivityFromMap].
  split; [congruence |]. split; [exact Hprompt |].
  exists info, dens. rewrite <- app_assoc in Hcalls.
  repeat split; assumption.
Qed.

(** The theorem on the page opened on a release and a path of it: the path
    is left after [run], and the layout is then changed. *)
Lemma X10_witness :
  let started := snd (App.run example_origin_network example_origin_app) in
  let left := snd (App.pathSelector_onchange example_origin_network "" started) in
  let shown := snd (App.layoutSelector_onchange example_origin_network "dagre" left) in
  App.currentPath left = ""
  /\ App.currentPath shown = "ilxtr:neuron-1"
  /\ (map GraphNode.both_a_d <$> (ConnectivityGraph.nodes <$> App.connectivityGraph shown))
     = Some [true; false]
  /\ (length <$> (ConnectivityGraph.edges <$> App.connectivityGraph shown)) = Some 1%nat
  /\ length (Document.engineCalls (App.document shown)) = 3%nat.
Proof.
  destruct (X10_leaving_the_path_keeps_the_selection example_origin_network "dagre"
              (snd (App.run example_origin_network example_origin_app)))
    as (_ & _ & Hc & _ & _ & _ & _ & _ & H).
  destruct (H ltac:(vm_compute; reflexivity) ltac:(vm_compute; reflexivity))
    as (Hcur & _ & info & dens & Hinfo & _ & _ & Hgr & Hcalls).
  vm_compute in Hinfo. destruct Hinfo as [Hinfo _]. injection Hinfo as <-.
  cbv zeta. split; [exact Hc |].
  split; [rewrite Hcur; vm_compute; reflexivity |].
  split; [rewrite Hgr; vm_compute; reflexivity |].
  split; [rewrite Hgr; vm_compute; reflexivity |].
  rewrite Hcalls, !length_app. vm_compute. reflexivity.
Defined.

(** ** The terms to label *)

Lemma labelledTerms_add_spec (term : string) (ts : list string) :
  NoDup ts ->
  NoDup (App.labelledTerms_add term ts)
  /\ (exists added, App.labelledTerms_add term ts = ts ++ added)
  /\ forall t, t ∈ App.labelledTerms_add term ts <-> t ∈ ts \/ t = term.
Proof.
  intros Hnd. unfold App.labelledTerms_add.
  destruct (ConnectivityGraph.includes ts term) eqn:E.
  - apply includes_In in E. split; [exact Hnd |]. split; [exists []; now rewrite app_nil_r |].
    intros t. split; [now left | intros [H | ->]; assumption].
  - assert (Hn : term ∉ ts).
    { intros H. apply includes_In in H. congruence. }
    split.
    + apply NoDup_app. split; [exact Hnd |]. split.
      * intros x Hx Hx'. apply list_elem_of_singleton in Hx'. now subst x.
      * apply NoDup_singleton.
    + split; [now exists [term] |]. intros t. rewrite elem_of_app, list_elem_of_singleton.
      reflexivity.
Qed.

Lemma fold_labelledTerms_add_spec (new : list string) :
  forall ts : list string,
    NoDup ts ->
    NoDup (fold_left (fun ts t => App.labelledTerms_add t ts) new ts)
    /\ (exists added, fold_left (fun ts t => App.labelledTerms_add t ts) new ts = ts ++ added)
    /\ forall t, t ∈ fold_left (fun ts t => App.labelledTerms_add t ts) new ts
                 <-> t ∈ ts \/ t ∈ new.
Proof.
  induction new as [|n new IH]; intros ts Hnd; simpl.
  - split; [exact Hnd |]. split; [exists []; now rewrite app_nil_r |].
    intros t. rewrite elem_of_nil. tauto.
  - destruct (labelledTerms_add_spec n ts Hnd) as (H1 & [a1 H2] & H3).
    destruct (IH _ H1) as (I1 & [a2 I2] & I3).
    split; [exact I1 |]. split.
    + exists (a1 ++ a2). rewrite I2, H2, app_assoc. reflexivity.
    + intros t. rewrite I3, H3, elem_of_cons. tauto.
Qed.

Lemma cacheNodeLabels_returns (node : KnowledgeNode) (app : App.t) :
  App.cacheNodeLabels node app
  = (Returns tt,
     App.set_labelledTerms
       (fold_left (fun ts t => App.labelledTerms_add t ts) (terms node) (App.labelledTerms app))
       app).
Proof.
  unfold App.cacheNodeLabels, terms.
  generalize (fst node :: snd node). intros ts. revert app.
  induction ts as [|t ts IH]; intros app.
  - destruct app; reflexivity.
  - simpl forOf. rewrite bind_assoc, bind_get, bind_modify, IH.
    destruct app; reflexivity.
Qed.

Lemma cacheEdges_returns (connectivity : list KnowledgeEdge) :
  forall app : App.t,
    forOf connectivity
      (fun edge => App.cacheNodeLabels (fst edge) ;; App.cacheNodeLabels (snd edge)) app
    = (Returns tt,
       App.set_labelledTerms
         (fold_left (fun ts t => App.labelledTerms_add t ts) (edgeTerms connectivity)
            (App.labelledTerms app))
         app).
Proof.
  induction connectivity as [|e connectivity IH]; intros app.
  - destruct app; reflexivity.
  - simpl forOf. rewrite bind_assoc.
    rewrite (bind_returns _ _ _ _ _ (cacheNodeLabels_returns (fst e) app)).
    rewrite (bind_returns _ _ _ _ _ (cacheNodeLabels_returns (snd e) _)).
    rewrite IH.
    change (edgeTerms (e :: connectivity))
      with ((terms (fst e) ++ terms (snd e)) ++ edgeTerms connectivity).
    rewrite !fold_left_app. destruct app; reflexivity.
Qed.

(** X11. [#labelledTerms] is kept as a set in the order of insertion:
    [#cacheLabels] always returns and changes nothing else; when the terms
    held have no repetition, the terms held afterwards have none, they start
    with the terms held before in their order, and they are the terms held
    before and the terms of the two ends of every edge of the path. *)
Theorem X11_cacheLabels_collects_the_terms (knowledge : ConnectivityKnowledge.t)
  (app : App.t) :
  NoDup (App.labelledTerms app) ->
  let connectivity :=
    match ConnectivityKnowledge.connectivity knowledge with Some c => c | None => [] end in
  exists ts : list string,
    App.cacheLabels knowledge app = (Returns tt, App.set_labelledTerms ts app)
    /\ NoDup ts
    /\ (exists added, ts = App.labelledTerms app ++ added)
    /\ forall t : string,
         t ∈ ts
         <-> t ∈ App.labelledTerms app
             \/ exists edge : KnowledgeEdge,
                  edge ∈ connectivity /\ (t ∈ terms (fst edge) \/ t ∈ terms (snd edge)).
Proof.
  intros Hnd connectivity.
  exists (fold_left (fun ts t => App.labelledTerms_add t ts) (edgeTerms connectivity)
            (App.labelledTerms app)).
  destruct (fold_labelledTerms_add_spec (edgeTerms connectivity) _ Hnd) as (H1 & H2 & H3).
  split.
  - unfold App.cacheLabels. subst connectivity.
    destruct (ConnectivityKnowledge.connectivity knowledge) as [c|].
    + apply cacheEdges_returns.
    + destruct app; reflexivity.
  - split; [exact H1 |]. split; [exact H2 |].
    intros t. rewrite H3. unfold edgeTerms. split; (intros [H | H]; [now left | right]).
    + apply list_elem_of_In, in_flat_map in H as (e & He & Ht).
      exists e. split; [now apply list_elem_of_In |].
      apply in_app_or in Ht as [Ht | Ht]; [left | right]; now apply list_elem_of_In.
    + destruct H as (e & He & Ht). apply list_elem_of_In, in_flat_map.
      exists e. split; [now apply list_elem_of_In |].
      apply in_or_app. destruct Ht as [Ht | Ht]; [left | right]; now apply list_elem_of_In.
Qed.

(** The theorem on the path of one edge, when the term [B] is held
    already. *)
Lemma X11_witness :
  exists ts : list string,
    App.cacheLabels example_knowledge (App.set_labelledTerms ["B"] example_new_app)
    = (Returns tt, App.set_labelledTerms ts (App.set_labelledTerms ["B"] example_new_app))
    /\ ts = ["B"; "A"; "C"].
Proof.
  destruct (X11_cacheLabels_collects_the_terms example_knowledge
              (App.set_labelledTerms ["B"] example_new_app)
              ltac:(apply NoDup_singleton)) as (ts & H & _).
  exists ts. split; [exact H |].
  assert (E : App.labelledTerms (snd (App.cacheLabels example_knowledge
                                         (App.set_labelledTerms ["B"] example_new_app)))
              = ts) by (rewrite H; reflexivity).
  rewrite <- E. reflexivity.
Defined.

(** ** The lookup of the labels *)

Lemma countChar_append (c : ascii) (a b : string) :
  countChar c (a +:+ b) = (countChar c a + countChar c b)%nat.
Proof.
  induction a as [|x a IH]; [reflexivity |].
  rewrite append_cons. simpl. rewrite IH. lia.
Qed.

Lemma countChar_repeat (c : ascii) (s : string) (n : nat) :
  countChar c (JS.repeat s n) = (n * countChar c s)%nat.
Proof.
  induction n as [|n IH]; [reflexivity |].
  simpl. rewrite countChar_append, IH. lia.
Qed.

(** X12. When [#getCachedTermLabels] has terms to look up, the query it
    sends has as many placeholders as it has parameters: for a set of
    [size] terms the SQL text holds [size] question marks, and the
    parameters are the [size] terms. *)
Theorem X12_one_placeholder_for_each_term (net : Network) (app : App.t) :
  App.labelledTerms app <> [] ->
  let size := length (App.labelledTerms app) in
  countChar "?" (App.sqlLabels size) = length (App.labelledTerms app)
  /\ App.getCachedTermLabels net app
     = bind (App.query net (App.sqlLabels size) (App.labelledTerms app))
         (fun data => bind (ConnectivityGraph.defined "values" data)
            (fun data => App.cacheTermLabels None (values data))) app.
Proof.
  intros Hne size.
  assert (Hs : size <> 0%nat).
  { subst size. destruct (App.labelledTerms app); [congruence | discriminate]. }
  split.
  - unfold App.sqlLabels. rewrite !countChar_append, countChar_repeat.
    change (countChar "?" ", ?") with 1%nat.
    change (countChar "?" ")") with 0%nat.
    change (countChar "?" (JS.str JS.newline)) with 0%nat.
    change (countChar "?" "select entity, knowledge from knowledge") with 0%nat.
    change (countChar "?" "                    order by source desc") with 0%nat.
    change (countChar "?" "                    where entity in (?") with 1%nat.
    fold size. lia.
  - unfold App.getCachedTermLabels. rewrite bind_get. fold size.
    destruct size; [congruence | reflexivity].
Qed.

(** The theorem on a controller that needs the labels of three terms. *)
Lemma X12_witness :
  countChar "?" (App.sqlLabels 3) = 3%nat
  /\ fst (App.getCachedTermLabels example_label_network example_label_app) = Returns tt.
Proof.
  destruct (X12_one_placeholder_for_each_term example_label_network example_label_app
              ltac:(discriminate)) as [Hc Hq].
  split; [exact Hc |]. rewrite Hq. vm_compute. reflexivity.
Defined.

(** ** The label cache *)

(** What one row of a lookup does: nothing (its key is [last_entity], or
    reading it throws), or the entry of its key is set. *)
Lemma cacheTermLabel_cases (last : option string) (key : string) (text : json Knowledge.t)
  (app : App.t) :
  (snd (App.cacheTermLabel last (key, text) app) = app
   /\ (fst (App.cacheTermLabel last (key, text) app) = Returns last /\ last = Some key
       \/ exists e, fst (App.cacheTermLabel last (key, text) app) = Throws e))
  \/ exists k : Knowledge.t,
       text = jsonValue k
       /\ App.cacheTermLabel last (key, text) app
          = (Returns (Some key),
             App.set_labelCache (<[key := App.labelOr k key]> (App.labelCache app)) app).
Proof.
  unfold App.cacheTermLabel.
  destruct (bool_decide (Some key = last)) eqn:E.
  - left. apply bool_decide_eq_true in E. split; [reflexivity |]. left. split; [reflexivity |].
    symmetry. exact E.
  - destruct text as [| |k].
    + left. split; [reflexivity |]. right. eexists. reflexivity.
    + left. split; [reflexivity |]. right. eexists. reflexivity.
    + right. exists k. split; reflexivity.
Qed.

(** A property of the cache that setting an entry to [label || key] keeps
    is kept by the rows of a lookup, whatever their outcome. *)
Lemma cacheTermLabels_invariant (P : gmap string string -> Prop) :
  (forall c key k, P c -> P (<[key := App.labelOr k key]> c)) ->
  forall (rows : list (string * json Knowledge.t)) (last : option string) (app : App.t),
    P (App.labelCache app) -> P (App.labelCache (snd (App.cacheTermLabels last rows app))).
Proof.
  intros HP rows. induction rows as [|[key text] rows IH]; intros last app H; [exact H |].
  change (App.cacheTermLabels last ((key, text) :: rows) app)
    with (bind (App.cacheTermLabel last (key, text))
            (fun l => App.cacheTermLabels l rows) app).
  destruct (cacheTermLabel_cases last key text app) as [[Es Hf] | (k & -> & E)].
  - destruct (App.cacheTermLabel last (key, text) app) as [[l | e] s] eqn:E;
      cbn [snd] in Es; subst s.
    + rewrite (bind_returns _ _ _ _ _ E). now apply IH.
    + rewrite (bind_throws _ _ _ _ _ E). exact H.
  - rewrite (bind_returns _ _ _ _ _ E). apply IH. cbn. now apply HP.
Qed.

Lemma getCachedTermLabels_invariant (P : gmap string string -> Prop) (net : Network)
  (app : App.t) :
  (forall c key k, P c -> P (<[key := App.labelOr k key]> c)) ->
  P (App.labelCache app) -> P (App.labelCache (snd (App.getCachedTermLabels net app))).
Proof.
  intros HP H. unfold App.getCachedTermLabels. rewrite bind_get.
  destruct (negb _); [| exact H].
  unfold App.query. rewrite bind_assoc, bind_get.
  destruct (fetch_query net _ _ _) as [|[] [| |data]]; try exact H;
    rewrite bind_ret; cbv beta iota zeta delta [ConnectivityGraph.defined];
    rewrite bind_ret; now apply cacheTermLabels_invariant.
Qed.

Lemma labelOr_truthy (k : Knowledge.t) (key : string) :
  JS.truthy key = true -> JS.truthy (App.labelOr k key) = true.
Proof.
  intros H. unfold App.labelOr. destruct (Knowledge.label k) as [l|]; [| exact H].
  destruct (JS.truthy l) eqn:E; [exact E | exact H].
Qed.

(** The entries of the keys of the rows, when the rows of a lookup have all
    been read: each holds what one of the rows of its key gives. *)
Lemma cacheTermLabels_entries (all : list (string * json Knowledge.t)) :
  let resolved := fun (c : gmap string string) (key : string) =>
    exists k : Knowledge.t,
      (key, jsonValue k) ∈ all /\ c !! key = Some (App.labelOr k key) in
  forall (rows : list (string * json Knowledge.t)) (last : option string) (app app' : App.t),
    (forall row, row ∈ rows -> row ∈ all) ->
    (forall key, last = Some key -> resolved (App.labelCache app) key) ->
    App.cacheTermLabels last rows app = (Returns tt, app') ->
    (forall key, resolved (App.labelCache app) key -> resolved (App.labelCache app') key)
    /\ forall row, row ∈ rows -> resolved (App.labelCache app') (fst row).
Proof.
  intros resolved rows.
  induction rows as [|[key text] rows IH]; intros last app app' Hin Hlast H.
  - injection H as <-. split; [tauto |]. intros row Hrow. apply elem_of_nil in Hrow. contradiction.
  - change (App.cacheTermLabels last ((key, text) :: rows) app)
      with (bind (App.cacheTermLabel last (key, text))
              (fun l => App.cacheTermLabels l rows) app) in H.
    apply bind_returns_inv in H as (last1 & app1 & H1 & H).
    assert (Hin' : forall row, row ∈ rows -> row ∈ all).
    { intros row Hrow. apply Hin. now right. }
    destruct (cacheTermLabel_cases last key text app) as [[Es Hf] | (k & -> & E)].
    + rewrite H1 in Es, Hf. cbn [fst snd] in Es, Hf. subst app1.
      destruct Hf as [[Hl Hk] | [e He]]; [| discriminate He].
      injection Hl as ->.
      destruct (IH last app app' Hin' Hlast H) as [Hkeep Hrows].
      split; [exact Hkeep |].
      intros row Hrow. apply elem_of_cons in Hrow as [-> | Hrow]; [| now apply Hrows].
      apply Hkeep, Hlast, Hk.
    + rewrite E in H1. injection H1 as <- <-.
      assert (Hnew : resolved (<[key := App.labelOr k key]> (App.labelCache app)) key).
      { exists k. split; [apply Hin; now left | apply lookup_insert_eq]. }
      assert (Hstep : forall key', resolved (App.labelCache app) key' ->
                        resolved (<[key := App.labelOr k key]> (App.labelCache app)) key').
      { intros key' (k' & Hk' & Hc).
        destruct (decide (key' = key)) as [-> | Hne]; [exact Hnew |].
        exists k'. split; [exact Hk' |]. rewrite lookup_insert_ne by congruence. exact Hc. }
      assert (Hlast' : forall key', Some key = Some key' ->
                resolved (App.labelCache
                            (App.set_labelCache
                               (<[key := App.labelOr k key]> (App.labelCache app)) app)) key').
      { intros key' Hk'. injection Hk' as <-. exact Hnew. }
      destruct (IH (Some key) _ app' Hin' Hlast' H) as [Hkeep Hrows].
      split; [intros key' Hk'; apply Hkeep, Hstep, Hk' |].
      intros row Hrow. apply elem_of_cons in Hrow as [-> | Hrow]; [| now apply Hrows].
      apply Hkeep. exact Hnew.
Qed.

(** X13. The label cache only grows, and a term that is not empty never
    gets the empty label: whatever the outcome of [#getCachedTermLabels],
    every term that had an entry still has one, and when no term that is
    not empty had the empty label, none has it afterwards. When the lookup
    gets rows and reads them all, the key of every row has an entry, which
    is [label || key] for the knowledge of one of the rows of that key. *)
Theorem X13_label_cache_only_grows (net : Network) (app : App.t) :
  let result := App.getCachedTermLabels net app in
  let cache' := App.labelCache (snd result) in
  (forall term : string, is_Some (App.labelCache app !! term) -> is_Some (cache' !! term))
  /\ ((forall t l, App.labelCache app !! t = Some l -> JS.truthy t = true -> JS.truthy l = true) ->
      forall t l, cache' !! t = Some l -> JS.truthy t = true -> JS.truthy l = true)
  /\ (forall rows : list (string * json Knowledge.t),
        App.labelledTerms app <> [] ->
        fetch_query net (App.mapServer app +:+ "knowledge/query/")
          (App.sqlLabels (length (App.labelledTerms app))) (App.labelledTerms app)
        = resolved true (jsonValue {| values := rows |}) ->
        fst result = Returns tt ->
        forall row, row ∈ rows ->
          exists k : Knowledge.t,
            (fst row, jsonValue k) ∈ rows
            /\ cache' !! fst row = Some (App.labelOr k (fst row))).
Proof.
  intros result cache'. split; [| split].
  - intros term H. subst cache' result.
    apply (getCachedTermLabels_invariant (fun c => is_Some (c !! term))); [| exact H].
    intros c key k Hc. apply lookup_insert_is_Some. destruct (decide (key = term)); [now left |].
    right. split; [assumption | exact Hc].
  - intros H. subst cache' result.
    apply (getCachedTermLabels_invariant
             (fun c => forall t l, c !! t = Some l -> JS.truthy t = true -> JS.truthy l = true));
      [| exact H].
    intros c key k Hc t l Hl Ht. destruct (decide (t = key)) as [-> | Hne].
    + rewrite lookup_insert_eq in Hl. injection Hl as <-. now apply labelOr_truthy.
    + rewrite lookup_insert_ne in Hl by congruence. exact (Hc t l Hl Ht).
  - intros rows Hne Hq Hr row Hrow. subst cache' result.
    destruct (App.getCachedTermLabels net app) as [r app'] eqn:E. cbn [fst snd] in *. subst r.
    unfold App.getCachedTermLabels in E. rewrite bind_get in E.
    destruct (App.labelledTerms app) as [|t0 ts] eqn:Et; [congruence |].
    change (negb (length (t0 :: ts) =? 0)%nat) with true in E. cbv iota in E.
    unfold App.query in E. rewrite bind_assoc, bind_get, Hq, bind_ret in E.
    cbv beta iota zeta delta [ConnectivityGraph.defined] in E. rewrite bind_ret in E.
    cbn [values] in E.
    destruct (cacheTermLabels_entries rows rows None app app'
                ltac:(tauto) ltac:(discriminate) E) as [_ Hrows].
    exact (Hrows row Hrow).
Qed.

(** The theorem on the lookup of three terms that gets four rows. *)
Lemma X13_witness :
  let cache' :=
    App.labelCache (snd (App.getCachedTermLabels example_label_network example_label_app)) in
  exists k : Knowledge.t,
    ("UBERON:1", jsonValue k) ∈ example_label_rows
    /\ cache' !! "UBERON:1" = Some (App.labelOr k "UBERON:1").
Proof.
  destruct (X13_label_cache_only_grows example_label_network example_label_app)
    as (_ & _ & H).
  exact (H example_label_rows ltac:(discriminate) eq_refl ltac:(vm_compute; reflexivity)
           ("UBERON:1", termKnowledge "heart (2024)") ltac:(left)).
Defined.

(** ** The list of paths of a release *)

(** What one row of the paths of a release does: reading it throws and
    nothing is changed, or it is not a path and nothing is changed, or it is
    a path, which is stored and listed. *)
Lemma addPathFromSCKAN_cases (key : string) (text : json Knowledge.t) (app : App.t) :
  (snd (App.addPathFromSCKAN (key, text) app) = app
   /\ ((exists e, fst (App.addPathFromSCKAN (key, text) app) = Throws e)
        /\ (text = notJSON \/ text = jsonNull)
       \/ fst (App.addPathFromSCKAN (key, text) app) = Returns []
          /\ exists k, text = jsonValue k))
  \/ exists (k : Knowledge.t) (app' : App.t),
       text = jsonValue k
       /\ App.addPathFromSCKAN (key, text) app
          = (Returns [(key, App.shortLabel (App.labelOr k key) key)], app')
       /\ App.knowledgeByPath app' = <[key := k]> (App.knowledgeByPath app)
       /\ App.document app' = App.document app.
Proof.
  unfold App.addPathFromSCKAN. destruct text as [| |k].
  - left. split; [reflexivity |]. left. split; [eexists; reflexivity | now left].
  - left. split; [reflexivity |]. left. split; [eexists; reflexivity | now right].
  - cbv beta iota zeta delta [App.JSON_parse ConnectivityGraph.defined]. rewrite !bind_ret.
    destruct (bool_decide _).
    + right. exists k. rewrite bind_get, bind_modify.
      pose proof (keeps_cacheLabels
                    (fun a => (App.knowledgeByPath a, App.document a))
                    ltac:(intros; reflexivity) (Knowledge.connectivity k)
                    (App.set_knowledgeByPath (<[key := k]> (App.knowledgeByPath app)) app)) as K.
      destruct (App.cacheLabels (Knowledge.connectivity k) _) as [r a] eqn:E.
      assert (Hr : r = Returns tt).
      { unfold App.cacheLabels in E.
        destruct (ConnectivityKnowledge.connectivity (Knowledge.connectivity k)) as [c|].
        - rewrite cacheEdges_returns in E. congruence.
        - unfold ret in E. congruence. }
      subst r. exists a. split; [reflexivity |].
      unfold bind at 1. rewrite E. split; [reflexivity |].
      cbn in K. injection K as K1 K2. split; [exact K1 | exact K2].
    + left. split; [reflexivity |]. right. split; [reflexivity | eauto].
Qed.

Lemma addPathsFromSCKAN_cons (row : string * json Knowledge.t)
  (rows : list (string * json Knowledge.t)) (app : App.t) :
  App.addPathsFromSCKAN (row :: rows) app
  = bind (App.addPathFromSCKAN row)
      (fun first => bind (App.addPathsFromSCKAN rows) (fun others => ret (first ++ others))) app.
Proof. reflexivity. Qed.

(** The paths stored when the rows have all been read: the ones stored
    before and the ones listed. *)
Lemma addPathsFromSCKAN_returns (rows : list (string * json Knowledge.t)) :
  forall (app app' : App.t) (data : list (string * string)),
    App.addPathsFromSCKAN rows app = (Returns data, app') ->
    App.document app' = App.document app
    /\ (length data <= length rows)%nat
    /\ (forall entry, entry ∈ data ->
          exists k, (fst entry, jsonValue k) ∈ rows
                    /\ snd entry = App.shortLabel (App.labelOr k (fst entry)) (fst entry))
    /\ forall key : string,
         is_Some (App.knowledgeByPath app' !! key)
         <-> is_Some (App.knowledgeByPath app !! key) \/ key ∈ map fst data.
Proof.
  induction rows as [|[key text] rows IH]; intros app app' data H.
  - injection H as <- <-. split; [reflexivity |]. split; [simpl; lia |].
    split; [intros entry He; apply elem_of_nil in He; contradiction |].
    intros key. simpl. rewrite elem_of_nil. tauto.
  - rewrite addPathsFromSCKAN_cons in H.
    apply bind_returns_inv in H as (first & a1 & H1 & H).
    apply bind_returns_inv in H as (others & a2 & H2 & H). injection H as <- <-.
    destruct (IH _ _ _ H2) as (Id & Il & Ie & Ik).
    destruct (addPathFromSCKAN_cases key text app) as [[Es Hf] | (k & a & -> & E & Ekb & Ed)].
    + rewrite H1 in Es, Hf. cbn [fst snd] in Es, Hf. subst a1.
      destruct Hf as [[[e He] _] | [Hr _]]; [discriminate He |]. injection Hr as ->.
      split; [exact Id |]. split; [simpl; lia |]. split.
      * intros entry He. destruct (Ie entry He) as (k & Hk & Hl).
        exists k. split; [now right | exact Hl].
      * exact Ik.
    + rewrite E in H1. injection H1 as <- <-.
      split; [congruence |]. split; [simpl; lia |]. split.
      * intros entry He. apply elem_of_cons in He as [-> | He].
        -- exists k. split; [now left | reflexivity].
        -- destruct (Ie entry He) as (k' & Hk & Hl). exists k'. split; [now right | exact Hl].
      * intros key'. rewrite Ik, Ekb. simpl. rewrite elem_of_cons, lookup_insert_is_Some.
        destruct (decide (key = key')) as [-> | Hne]; [tauto |].
        split; [intros [[H | [_ H]] | H] | intros [H | [H | H]]]; try tauto; congruence.
Qed.

(** A row that cannot be read makes the reading of the rows throw. *)
Lemma addPathsFromSCKAN_throws (rows : list (string * json Knowledge.t)) (key : string) :
  (key, notJSON) ∈ rows \/ (key, jsonNull) ∈ rows ->
  forall app : App.t,
    (exists e, fst (App.addPathsFromSCKAN rows app) = Throws e)
    /\ App.document (snd (App.addPathsFromSCKAN rows app)) = App.document app.
Proof.
  induction rows as [|[key' text] rows IH]; intros Hbad app.
  - destruct Hbad as [H | H]; apply elem_of_nil in H; contradiction.
  - rewrite addPathsFromSCKAN_cons.
    destruct (addPathFromSCKAN_cases key' text app) as [[Es Hf] | (k & a & -> & E & _ & Ed)].
    + destruct (App.addPathFromSCKAN (key', text) app) as [[first | e] s] eqn:E;
        cbn [fst snd] in Es, Hf; subst s.
      * destruct Hf as [[[e He] _] | [_ [k ->]]]; [discriminate He |].
        rewrite (bind_returns _ _ _ _ _ E).
        assert (Hrest : (key, notJSON) ∈ rows \/ (key, jsonNull) ∈ rows).
        { destruct Hbad as [H | H]; apply elem_of_cons in H as [H | H];
            try discriminate H; [now left | now right]. }
        destruct (IH Hrest app) as [[e He] Hd].
        destruct (App.addPathsFromSCKAN rows app) as [[others | e'] s] eqn:Er;
          cbn [fst snd] in He, Hd; [discriminate He |].
        rewrite (bind_throws _ _ _ _ _ Er). split; [eauto | exact Hd].
      * rewrite (bind_throws _ _ _ _ _ E). split; [eauto | reflexivity].
    + rewrite (bind_returns _ _ _ _ _ E).
      assert (Hrest : (key, notJSON) ∈ rows \/ (key, jsonNull) ∈ rows).
      { destruct Hbad as [H | H]; apply elem_of_cons in H as [H | H];
          try discriminate H; [now left | now right]. }
      destruct (IH Hrest a) as [[e He] Hd].
      destruct (App.addPathsFromSCKAN rows a) as [[others | e'] s] eqn:Er;
        cbn [fst snd] in He, Hd; [discriminate He |].
      rewrite (bind_throws _ _ _ _ _ Er). cbn [fst snd]. split; [eauto | congruence].
Qed.

(** The state is left as it is by a query. *)
Lemma query_state (net : Network) (sql : string) (params : list string) (app : App.t) :
  snd (App.query net sql params app) = app.
Proof. exact (keeps_query (fun a => a) net sql params app). Qed.

(** X14. On a release, when [#setPathList] returns, the paths stored in
    [#knowledgeByPath] are the values of the options written to the path
    selector after the first one, which is the option of the empty value:
    every path offered has its knowledge, and no other path has. *)
Theorem X14_release_paths_have_knowledge (net : Network) (app app' : App.t) :
  App.sourceFromMap app = false ->
  App.setPathList net app = (Returns tt, app') ->
  head (Document.pathOptions (App.document app')) = Some App.pleaseSelectPath
  /\ forall key : string,
       is_Some (App.knowledgeByPath app' !! key)
       <-> exists o : OptionElement.t,
             o ∈ tail (Document.pathOptions (App.document app'))
             /\ OptionElement.value o = key.
Proof.
  intros Hm H. unfold App.setPathList in H. rewrite !bind_modify, bind_get in H.
  cbn [App.sourceFromMap App.set_labelledTerms App.set_knowledgeByPath] in H. rewrite Hm in H.
  apply bind_returns_inv in H as (data & a3 & H3 & H).
  unfold App.setPathsFromSCKAN in H3. rewrite bind_get in H3.
  apply bind_returns_inv in H3 as (qr & a1 & H1 & H3).
  pose proof (query_state net App.sqlPaths
                [App.source (App.set_labelledTerms [] (App.set_knowledgeByPath ∅ app))]
                (App.set_labelledTerms [] (App.set_knowledgeByPath ∅ app))) as Eq.
  rewrite H1 in Eq. cbn [snd] in Eq. subst a1.
  apply bind_returns_inv in H3 as (dv & a2 & H2 & H3).
  destruct qr as [qr|]; [| discriminate H2]. injection H2 as -> <-.
  destruct (addPathsFromSCKAN_returns _ _ _ _ H3) as (_ & _ & _ & Hk).
  rewrite bind_get in H.
  apply bind_returns_inv in H as ([] & a4 & H4 & H).
  pose proof (keeps_getCachedTermLabels App.knowledgeByPath
                ltac:(intros; reflexivity) net a3) as K4.
  rewrite H4 in K4. cbn [snd] in K4.
  cbv beta iota zeta delta [App.onDocument modify] in H. injection H as <-.
  cbn [App.document App.set_document Document.pathOptions Document.set_pathOptions
       App.knowledgeByPath head tail].
  split; [reflexivity |]. intros key. rewrite K4, Hk.
  cbn [App.knowledgeByPath App.set_labelledTerms App.set_knowledgeByPath].
  rewrite lookup_empty. split.
  - intros [[x Hx] | Hin]; [discriminate Hx |].
    apply list_elem_of_In, in_map_iff in Hin as ([v l] & <- & Hin).
    exists (App.pathOption (App.path a3) (v, l)). split; [| reflexivity].
    apply list_elem_of_In, in_map. exact Hin.
  - intros (o & Ho & <-). right.
    apply list_elem_of_In, in_map_iff in Ho as ([v l] & <- & Hin).
    apply list_elem_of_In, in_map_iff. exists (v, l). split; [reflexivity | exact Hin].
Qed.

(** The theorem on the release that holds one path. *)
Lemma X14_witness :
  let app' := snd (App.setPathList example_origin_network example_origin_app) in
  head (Document.pathOptions (App.document app')) = Some App.pleaseSelectPath
  /\ is_Some (App.knowledgeByPath app' !! "ilxtr:neuron-1").
Proof.
  destruct (X14_release_paths_have_knowledge example_origin_network example_origin_app
              (snd (App.setPathList example_origin_network example_origin_app))
              eq_refl ltac:(vm_compute; reflexivity)) as [Hh Hk].
  split; [exact Hh |]. apply Hk.
  exists (App.pathOption "ilxtr:neuron-1" ("ilxtr:neuron-1", "")).
  split; [vm_compute; left | reflexivity].
Defined.

(** X15. On a release, one row of the list of paths that cannot be read
    (its knowledge is not JSON, or is [null]) makes [#setPathList] throw,
    whatever the other rows hold: the path selector keeps the options it
    had. *)
Theorem X15_unreadable_row_aborts_the_list (net : Network) (app : App.t)
  (rows : list (string * json Knowledge.t)) (key : string) :
  App.sourceFromMap app = false ->
  fetch_query net (App.mapServer app +:+ "knowledge/query/") App.sqlPaths [App.source app]
  = resolved true (jsonValue {| values := rows |}) ->
  (key, notJSON) ∈ rows \/ (key, jsonNull) ∈ rows ->
  (exists e : error, fst (App.setPathList net app) = Throws e)
  /\ Document.pathOptions (App.document (snd (App.setPathList net app)))
     = Document.pathOptions (App.document app).
Proof.
  intros Hm Hq Hbad. unfold App.setPathList. rewrite !bind_modify, bind_get.
  cbn [App.sourceFromMap App.set_labelledTerms App.set_knowledgeByPath]. rewrite Hm.
  set (a0 := App.set_labelledTerms [] (App.set_knowledgeByPath ∅ app)).
  assert (E : exists e a, App.setPathsFromSCKAN net a0 = (Throws e, a)
                          /\ App.document a = App.document app).
  { unfold App.setPathsFromSCKAN, App.query. rewrite bind_get, bind_assoc, bind_get.
    change (App.mapServer a0) with (App.mapServer app).
    change (App.source a0) with (App.source app). rewrite Hq, !bind_ret.
    cbv beta iota zeta delta [ConnectivityGraph.defined]. rewrite bind_ret. cbn [values].
    destruct (addPathsFromSCKAN_throws rows key Hbad a0) as [[e He] Hd].
    destruct (App.addPathsFromSCKAN rows a0) as [[d | e'] a] eqn:Er;
      cbn [fst snd] in He, Hd; [discriminate He |].
    exists e', a. split; [reflexivity | exact Hd]. }
  destruct E as (e & a & E & Hd).
  rewrite (bind_throws _ _ _ _ _ E). cbn [fst snd]. split; [eauto | rewrite Hd; reflexivity].
Qed.

(** The theorem on a release with one path and one row that is not JSON. *)
Lemma X15_witness :
  (exists e : error,
     fst (App.setPathList example_unreadable_network example_origin_app) = Throws e)
  /\ Document.pathOptions
       (App.document (snd (App.setPathList example_unreadable_network example_origin_app)))
     = [].
Proof.
  exact (X15_unreadable_row_aborts_the_list example_unreadable_network example_origin_app
           _ "ilxtr:neuron-2" eq_refl eq_refl ltac:(left; right; left)).
Defined.

(** ** The labels of the paths *)

Lemma length_sliceTo (n : nat) (s : string) :
  String.length (JS.sliceTo n s) = Nat.min n (String.length s).
Proof.
  unfold JS.sliceTo. revert n. induction s as [|c s IH]; intros [|n]; try reflexivity.
  simpl. rewrite IH. reflexivity.
Qed.

Lemma sliceTo_all (n : nat) (s : string) :
  (String.length s <= n)%nat -> JS.sliceTo n s = s.
Proof.
  unfold JS.sliceTo. revert n. induction s as [|c s IH]; intros [|n] H; try reflexivity.
  - simpl in H. lia.
  - simpl in H |- *. rewrite IH by lia. reflexivity.
Qed.

(** X16. The label written beside the key of a path of a release is
    short: it has 53 code units at most. It is empty when the label of the
    path is the readable form of its key, the label itself when the label
    has fewer than 50 code units, and its first 50 code units followed by
    three dots otherwise; a label of exactly 50 code units gets the three
    dots though nothing of it is cut. *)
Theorem X16_shortLabel_is_short (label key : string) :
  (String.length (App.shortLabel label key) <= 53)%nat
  /\ (label = readableKey key -> App.shortLabel label key = "")
  /\ (label <> readableKey key ->
      ((String.length label < 50)%nat -> App.shortLabel label key = label)
      /\ ((50 <= String.length label)%nat ->
          App.shortLabel label key = JS.sliceTo 50 label +:+ "...")
      /\ (String.length label = 50%nat -> App.shortLabel label key = label +:+ "..."))
  /\ App.shortLabel "neuron 1" "ilxtr:neuron-1" = "".
Proof.
  unfold App.shortLabel. fold (readableKey key).
  split; [| split; [| split; [| reflexivity]]].
  - destruct (String.eqb label (readableKey key)); [simpl; lia |].
    destruct (String.length label <? 50)%nat eqn:E.
    + apply Nat.ltb_lt in E. lia.
    + rewrite length_append, length_sliceTo.
      change (String.length "...") with 3%nat.
      pose proof (Nat.le_min_l 50 (String.length label)). lia.
  - intros ->. rewrite String.eqb_refl. reflexivity.
  - intros Hne. apply String.eqb_neq in Hne. rewrite Hne.
    destruct (String.length label <? 50)%nat eqn:E.
    + apply Nat.ltb_lt in E. split; [reflexivity |]. split; lia.
    + apply Nat.ltb_ge in E. split; [lia |]. split; [reflexivity |].
      intros H50. rewrite sliceTo_all by lia. reflexivity.
Qed.

(** The theorem on a label that is not the readable form of the key. *)
Lemma X16_witness : App.shortLabel "vagus nerve" "ilxtr:neuron-1" = "vagus nerve".
Proof.
  destruct (X16_shortLabel_is_short "vagus nerve" "ilxtr:neuron-1") as (_ & _ & H & _).
  destruct (H ltac:(discriminate)) as (Hshort & _).
  exact (Hshort ltac:(vm_compute; lia)).
Defined.

(** ** Selecting a path *)

Lemma selectOption_none (neuronPath : string) (options : list OptionElement.t) :
  App.selectOption neuronPath options = None
  <-> neuronPath ∉ map OptionElement.value options.
Proof.
  induction options as [|o options IH]; simpl.
  - split; [intros _ H; apply elem_of_nil in H; contradiction | reflexivity].
  - destruct (String.eqb (OptionElement.value o) neuronPath) eqn:E.
    + apply String.eqb_eq in E. split; [discriminate |].
      intros H. exfalso. apply H. rewrite E. now left.
    + apply String.eqb_neq in E. rewrite not_elem_of_cons.
      destruct (App.selectOption neuronPath options) as [rest|].
      * split; [discriminate |]. intros [_ H]. apply IH in H. discriminate H.
      * split; [| reflexivity]. intros _. split; [congruence | now apply IH].
Qed.

Lemma selectOption_some (neuronPath : string) (options : list OptionElement.t) :
  forall options' : list OptionElement.t,
    App.selectOption neuronPath options = Some options' ->
    map unselected options' = map unselected options
    /\ exists i : nat,
         (OptionElement.value <$> options !! i) = Some neuronPath
         /\ (forall j o, (j < i)%nat -> options !! j = Some o ->
               OptionElement.value o <> neuronPath)
         /\ forall j o, options' !! j = Some o ->
              OptionElement.selected o = bool_decide (j = i).
Proof.
  induction options as [|o options IH]; intros options' H; [discriminate H |].
  simpl in H. destruct (String.eqb (OptionElement.value o) neuronPath) eqn:E.
  - apply String.eqb_eq in E. injection H as <-. split.
    + simpl. f_equal. rewrite map_map. reflexivity.
    + exists 0%nat. split; [simpl; congruence |]. split; [intros; lia |].
      intros [|j] o' Ho'.
      * injection Ho' as <-. reflexivity.
      * simpl in Ho'. rewrite lookup_map in Ho'.
        destruct (options !! j); [| discriminate Ho']. injection Ho' as <-. reflexivity.
  - apply String.eqb_neq in E.
    destruct (App.selectOption neuronPath options) as [rest|]; [| discriminate H].
    injection H as <-. destruct (IH rest eq_refl) as (Hu & i & Hi & Hfirst & Hsel). split.
    + simpl. rewrite Hu. reflexivity.
    + exists (S i). split; [exact Hi |]. split.
      * intros [|j] o' Hj Ho'; [injection Ho' as <-; exact E |].
        apply (Hfirst j o'); [lia | exact Ho'].
      * intros [|j] o' Ho'.
        -- injection Ho' as <-. reflexivity.
        -- simpl in Ho'. rewrite (Hsel j o' Ho').
           apply bool_decide_ext. lia.
Qed.

(** X17. For a path that can be written in the selector as it is,
    [#selectPath] returns, and returns [true] exactly when the path has its
    knowledge stored and an option of the path selector has it for value.
    It then selects the first such option and no other one; the values,
    labels and visibility of the options stay as they are. When it returns
    [false] nothing is changed. *)
Theorem X17_selectPath_selects_one_option (neuronPath : string) (app : App.t) :
  selectorSafe neuronPath = true ->
  let result := App.selectPath neuronPath app in
  let options := Document.pathOptions (App.document app) in
  let options' := Document.pathOptions (App.document (snd result)) in
  exists found : bool,
    fst result = Returns found
    /\ (found = true
        <-> is_Some (App.knowledgeByPath app !! neuronPath)
            /\ neuronPath ∈ map OptionElement.value options)
    /\ (found = false -> snd result = app)
    /\ map unselected options' = map unselected options
    /\ (found = true ->
        exists i : nat,
          (OptionElement.value <$> options !! i) = Some neuronPath
          /\ (forall j o, (j < i)%nat -> options !! j = Some o ->
                OptionElement.value o <> neuronPath)
          /\ forall j o, options' !! j = Some o ->
               OptionElement.selected o = bool_decide (j = i)).
Proof.
  intros _ result options options'. subst result options'.
  unfold App.selectPath. rewrite bind_get.
  destruct (bool_decide (is_Some (App.knowledgeByPath app !! neuronPath))) eqn:Ek.
  - apply bool_decide_eq_true in Ek. fold options.
    destruct (App.selectOption neuronPath options) as [new|] eqn:Es.
    + exists true. destruct (selectOption_some _ _ _ Es) as (Hu & Hi).
      cbn. split; [reflexivity |]. split.
      * split; [| reflexivity]. intros _. split; [exact Ek |].
        destruct (decide (neuronPath ∈ map OptionElement.value options)) as [H | H];
          [exact H |].
        apply selectOption_none in H. congruence.
      * split; [discriminate |]. split; [exact Hu |]. intros _. exact Hi.
    + exists false. cbn. split; [reflexivity |]. split.
      * split; [discriminate |]. intros [_ H]. apply selectOption_none in Es. contradiction.
      * split; [reflexivity |]. split; [reflexivity | discriminate].
  - apply bool_decide_eq_false in Ek. exists false. cbn. split; [reflexivity |]. split.
    + split; [discriminate |]. intros [H _]. contradiction.
    + split; [reflexivity |]. split; [reflexivity | discriminate].
Qed.

(** The theorem on the page opened on a release and a path of it, once
    [run] has returned: the path is found, and its option is the second
    one. *)
Lemma X17_witness :
  let started := snd (App.run example_origin_network example_origin_app) in
  let result := App.selectPath "ilxtr:neuron-1" started in
  fst result = Returns true
  /\ map OptionElement.selected (Document.pathOptions (App.document (snd result)))
     = [false; true].
Proof.
  destruct (X17_selectPath_selects_one_option "ilxtr:neuron-1"
              (snd (App.run example_origin_network example_origin_app)) eq_refl)
    as (found & Hf & _).
  cbv zeta. split; [| vm_compute; reflexivity].
  rewrite Hf. vm_compute in Hf. injection Hf as <-. reflexivity.
Defined.

(** ** The list of servers *)

(** The option written for an endpoint when the server is [server]. *)
Lemma serverList_truthy (endpoints : list (string * string)) (server : string) :
  JS.truthy server = true ->
  App.serverList endpoints server
  = (map (fun entry : string * string =>
            {| OptionElement.value := snd entry; OptionElement.label := fst entry;
               OptionElement.selected := String.eqb server (snd entry);
               OptionElement.display := "" |}) endpoints,
     server).
Proof.
  intros H. induction endpoints as [|[key url] endpoints IH]; [reflexivity |].
  cbn [App.serverList]. rewrite H, IH. reflexivity.
Qed.

(** X18. [#setServerList] always returns and leaves a server that is not
    empty: the server given when there is one, and the first endpoint, the
    curation server, otherwise. It writes the four endpoints to the server
    selector, in their order, each selected exactly when it is that server:
    a server that is none of the endpoints is kept, with no option
    selected. *)
Theorem X18_setServerList_chooses_a_server (app : App.t) :
  let result := App.setServerList app in
  let app' := snd result in
  fst result = Returns tt
  /\ App.mapServer app'
     = (if JS.truthy (App.mapServer app) then App.mapServer app
        else "https://mapcore-demo.org/curation/flatmap/")
  /\ JS.truthy (App.mapServer app') = true
  /\ map (fun o => (OptionElement.label o, OptionElement.value o))
       (Document.serverOptions (App.document app'))
     = App.MAP_ENDPOINTS
  /\ (forall o : OptionElement.t,
        o ∈ Document.serverOptions (App.document app') ->
        OptionElement.selected o = String.eqb (App.mapServer app') (OptionElement.value o))
  /\ (App.source app', App.path app', App.layout app', App.sourceFromMap app')
     = (App.source app, App.path app, App.layout app, App.sourceFromMap app).
Proof.
  intros result app'.
  set (server := if JS.truthy (App.mapServer app) then App.mapServer app
                 else "https://mapcore-demo.org/curation/flatmap/").
  assert (Ht : JS.truthy server = true).
  { subst server. destruct (JS.truthy (App.mapServer app)) eqn:E; [exact E | reflexivity]. }
  assert (El : App.serverList App.MAP_ENDPOINTS (App.mapServer app)
               = App.serverList App.MAP_ENDPOINTS server).
  { subst server. destruct (JS.truthy (App.mapServer app)) eqn:E; [reflexivity |].
    unfold App.MAP_ENDPOINTS. cbn [App.serverList]. rewrite E. reflexivity. }
  assert (E : result
              = (Returns tt,
                 App.set_document
                   (Document.set_serverOptions
                      (fst (App.serverList App.MAP_ENDPOINTS server)) (App.document app))
                   (App.set_mapServer server app))).
  { subst result. unfold App.setServerList. rewrite bind_get, El, serverList_truthy by exact Ht.
    reflexivity. }
  subst app'. rewrite E. rewrite serverList_truthy by exact Ht.
  cbn [fst snd App.mapServer App.set_document App.set_mapServer App.document
       Document.serverOptions Document.set_serverOptions App.source App.path App.layout
       App.sourceFromMap].
  split; [reflexivity |]. split; [reflexivity |]. split; [exact Ht |].
  split; [reflexivity |]. split; [| reflexivity].
  intros o Ho. apply list_elem_of_In, in_map_iff in Ho as (entry & <- & _). reflexivity.
Qed.

(** The theorem on a controller made without a server. *)
Lemma X18_witness :
  let app' := snd (App.setServerList example_new_app) in
  App.mapServer app' = "https://mapcore-demo.org/curation/flatmap/"
  /\ map OptionElement.selected (Document.serverOptions (App.document app'))
     = [true; false; false; false].
Proof.
  destruct (X18_setServerList_chooses_a_server example_new_app) as (_ & Hs & _).
  cbv zeta. split; [exact Hs |]. vm_compute. reflexivity.
Defined.

(** ** The search box, one query after the other *)

Lemma filterOption_filterOption (v1 v2 : string) (o : OptionElement.t) :
  App.filterOption v2 (App.filterOption v1 o) = App.filterOption v2 o.
Proof. destruct o. reflexivity. Qed.

Lemma filterOptions_filterOptions (v1 v2 : string) (options : list OptionElement.t) :
  App.filterOptions v2 (App.filterOptions v1 options) = App.filterOptions v2 options.
Proof.
  destruct options as [|first others]; [reflexivity |].
  simpl. f_equal. rewrite map_map. apply map_ext. intros o. apply filterOption_filterOption.
Qed.

(** X19. The search filter keeps nothing of the queries before: after two
    inputs the options and the size of the path selector are what the
    second input alone gives, so that an input of the empty string shows
    every option again, with the size 1. Each input adds two listeners to
    the path selector, and none is removed. *)
Theorem X19_search_forgets_the_previous_query (first second : string) (app : App.t) :
  let once := snd (App.pathSearch_oninput first app) in
  let twice := snd (App.pathSearch_oninput second once) in
  let alone := snd (App.pathSearch_oninput second app) in
  let reset := snd (App.pathSearch_oninput "" once) in
  fst (App.pathSearch_oninput second once) = Returns tt
  /\ Document.pathOptions (App.document twice) = Document.pathOptions (App.document alone)
  /\ Document.pathSelectorSize (App.document twice)
     = Document.pathSelectorSize (App.document alone)
  /\ Document.pathSelectorListeners (App.document twice)
     = (4 + Document.pathSelectorListeners (App.document app))%nat
  /\ Document.pathSelectorSize (App.document reset) = 1%nat
  /\ forall o : OptionElement.t,
       o ∈ tail (Document.pathOptions (App.document reset)) -> visible o = true.
Proof.
  intros once twice alone reset.
  split; [reflexivity |].
  split; [apply filterOptions_filterOptions |].
  split; [reflexivity |]. split; [reflexivity |]. split; [reflexivity |].
  intros o Ho. subst reset once.
  cbn [App.pathSearch_oninput App.onDocument bind get modify snd App.document App.set_document
       Document.pathOptions Document.set_pathOptions Document.set_pathSelectorSize
       Document.addPathSelectorListeners] in Ho.
  rewrite filterOptions_filterOptions in Ho.
  destruct (Document.pathOptions (App.document app)) as [|p others];
    [apply elem_of_nil in Ho; contradiction |].
  cbn [App.filterOptions tail] in Ho.
  apply list_elem_of_In, in_map_iff in Ho as (o' & <- & _). reflexivity.
Qed.

(** The theorem on the two options of the example: a query that hides
    them both, then the empty query. *)
Lemma X19_witness :
  let once := snd (App.pathSearch_oninput "zzz" example_search_app) in
  let reset := snd (App.pathSearch_oninput "" once) in
  map visible (tail (Document.pathOptions (App.document once))) = [false; false]
  /\ Forall (fun o => visible o = true) (tail (Document.pathOptions (App.document reset))).
Proof.
  destruct (X19_search_forgets_the_previous_query "zzz" "" example_search_app)
    as (_ & _ & _ & _ & _ & H).
  cbv zeta. split; [vm_compute; reflexivity |].
  apply Forall_forall. intros o Ho. apply H. exact Ho.
Defined.

(** ** The list of paths of a map *)

(** X20. On a map, [#setPathList] always returns, whatever the answer of
    the [pathways] endpoint. The path selector gets the option of the empty
    value followed by one option for each path of the answer whose
    connectivity is not empty, in the order in which the keys of the answer
    are enumerated, with the key as
    only label; a request that fails leaves the first option alone. No
    knowledge is stored and no term is kept for a lookup, so that the label
    cache is left as it was. *)
Theorem X20_map_paths_are_listed (net : Network) (app : App.t) :
  App.sourceFromMap app = true ->
  let result := App.setPathList net app in
  let app' := snd result in
  let paths :=
    pathsOfMap (fetch_pathways net
                  (App.mapServer app +:+ "flatmap/" +:+ App.source app +:+ "/pathways")) in
  fst result = Returns tt
  /\ Document.pathOptions (App.document app')
     = App.pleaseSelectPath
       :: map (fun key => App.pathOption (App.path app) (key, "")) (connectivityPaths paths)
  /\ App.knowledgeByPath app' = ∅
  /\ App.labelledTerms app' = []
  /\ App.labelCache app' = App.labelCache app
  /\ selection app' = selection app.
Proof.
  intros Hm result app' paths. subst app' result paths.
  unfold App.setPathList. rewrite !bind_modify, bind_get.
  cbn [App.sourceFromMap App.set_labelledTerms App.set_knowledgeByPath]. rewrite Hm.
  unfold App.setPathsFromMap, App.queryMapPaths. rewrite !bind_assoc, bind_get.
  cbn [App.mapServer App.source App.set_labelledTerms App.set_knowledgeByPath].
  unfold pathsOfMap, connectivityPaths, selection.
  destruct (fetch_pathways net _) as [|[] [| |[[ps|]]]];
    cbn; rewrite ?map_map; repeat split.
Qed.

(** The theorem on the map whose pathways hold one path. *)
Lemma X20_witness :
  let app := App.set_sourceFromMap true (App.set_source "rat-uuid" example_second_app) in
  let result := App.setPathList example_origin_network app in
  fst result = Returns tt
  /\ map OptionElement.value (Document.pathOptions (App.document (snd result)))
     = [""; "ilxtr:neuron-2"].
Proof.
  destruct (X20_map_paths_are_listed example_origin_network
              (App.set_sourceFromMap true (App.set_source "rat-uuid" example_second_app))
              eq_refl) as (Hr & Ho & _).
  cbv zeta. split; [exact Hr |]. rewrite Ho. reflexivity.
Defined.

(** ** The maps of a server *)

(** [<] on strings is a strict order. *)
Lemma ascii_compare_refl (a : ascii) : Ascii.compare a a = Eq.
Proof. unfold Ascii.compare. apply N.compare_refl. Qed.

Lemma ascii_compare_lt_trans (a b c : ascii) :
  Ascii.compare a b = Lt -> Ascii.compare b c = Lt -> Ascii.compare a c = Lt.
Proof. unfold Ascii.compare. rewrite !N.compare_lt_iff. lia. Qed.

Lemma string_ltb_irrefl (s : string) : String.ltb s s = false.
Proof.
  unfold String.ltb. induction s as [|c s IH]; [reflexivity |].
  simpl. rewrite ascii_compare_refl. exact IH.
Qed.

Lemma string_ltb_trans (a : string) :
  forall b c, String.ltb a b = true -> String.ltb b c = true -> String.ltb a c = true.
Proof.
  unfold String.ltb. induction a as [|x a IH]; intros [|y b] [|z c]; simpl; try discriminate;
    try reflexivity.
  destruct (Ascii.compare x y) eqn:Exy; try discriminate;
    destruct (Ascii.compare y z) eqn:Eyz; try discriminate; intros H1 H2.
  - apply Ascii.compare_eq_iff in Exy, Eyz. subst y z. rewrite ascii_compare_refl.
    exact (IH b c H1 H2).
  - apply Ascii.compare_eq_iff in Exy. subst y. rewrite Eyz. reflexivity.
  - apply Ascii.compare_eq_iff in Eyz. subst z. rewrite Exy. reflexivity.
  - rewrite (ascii_compare_lt_trans x y z Exy Eyz). reflexivity.
Qed.

Lemma replaceMap_spec (map : MapDescriptor) (availableMaps : list MapDescriptor)
  (old : MapDescriptor) :
  List.find (fun m => String.eqb (map_id m) (map_id map)) availableMaps = Some old ->
  List.map map_id (App.replaceMap map availableMaps) = List.map map_id availableMaps
  /\ (forall m, m ∈ App.replaceMap map availableMaps -> m = map \/ m ∈ availableMaps)
  /\ map ∈ App.replaceMap map availableMaps
  /\ forall m, m ∈ availableMaps -> map_id m <> map_id map ->
       m ∈ App.replaceMap map availableMaps.
Proof.
  induction availableMaps as [|a rest IH]; [discriminate |].
  simpl. destruct (String.eqb (map_id a) (map_id map)) eqn:E.
  - intros _. apply String.eqb_eq in E. split; [simpl; congruence |].
    split; [intros m Hm; apply elem_of_cons in Hm as [-> | Hm]; [now left | right; now right] |].
    split; [now left |].
    intros m Hm Hne. apply elem_of_cons in Hm as [-> | Hm]; [congruence | now right].
  - intros Hf. destruct (IH Hf) as (I1 & I2 & I3 & I4).
    split; [simpl; congruence |].
    split.
    + intros m Hm. apply elem_of_cons in Hm as [-> | Hm]; [right; now left |].
      destruct (I2 m Hm) as [-> | H]; [now left | right; now right].
    + split; [now right |].
      intros m Hm Hne. apply elem_of_cons in Hm as [-> | Hm]; [now left | right; now apply I4].
Qed.

Lemma find_map_id (id : string) (availableMaps : list MapDescriptor) :
  match List.find (fun m => String.eqb (map_id m) id) availableMaps with
  | Some m => m ∈ availableMaps /\ map_id m = id
  | None => id ∉ List.map map_id availableMaps
  end.
Proof.
  induction availableMaps as [|a rest IH]; simpl.
  - intros H. apply elem_of_nil in H. contradiction.
  - destruct (String.eqb (map_id a) id) eqn:E.
    + apply String.eqb_eq in E. split; [now left | exact E].
    + apply String.eqb_neq in E. destruct (List.find _ rest) as [m|].
      * destruct IH as [Hm Hid]. split; [now right | exact Hid].
      * rewrite not_elem_of_cons. split; [congruence | exact IH].
Qed.

Lemma NoDup_map_id_eq (availableMaps : list MapDescriptor) (a b : MapDescriptor) :
  NoDup (List.map map_id availableMaps) ->
  a ∈ availableMaps -> b ∈ availableMaps -> map_id a = map_id b -> a = b.
Proof.
  induction availableMaps as [|m rest IH]; intros Hnd Ha Hb E.
  - apply elem_of_nil in Ha. contradiction.
  - simpl in Hnd. apply NoDup_cons in Hnd as [Hm Hnd].
    apply elem_of_cons in Ha as [-> | Ha]; apply elem_of_cons in Hb as [-> | Hb].
    + reflexivity.
    + exfalso. apply Hm. rewrite E. apply list_elem_of_In, in_map. now apply list_elem_of_In.
    + exfalso. apply Hm. rewrite <- E. apply list_elem_of_In, in_map. now apply list_elem_of_In.
    + now apply IH.
Qed.

(** The maps kept after one more map of the answer. *)
Lemma addAvailableMap_spec (seen availableMaps : list MapDescriptor) (map : MapDescriptor) :
  NoDup (List.map map_id availableMaps) ->
  (forall m, m ∈ availableMaps -> m ∈ seen) ->
  (forall m, m ∈ seen ->
     exists r, r ∈ availableMaps /\ map_id r = map_id m
               /\ String.ltb (created r) (created m) = false) ->
  let availableMaps' := App.addAvailableMap availableMaps map in
  NoDup (List.map map_id availableMaps')
  /\ (forall m, m ∈ availableMaps' -> m ∈ seen ++ [map])
  /\ forall m, m ∈ seen ++ [map] ->
       exists r, r ∈ availableMaps' /\ map_id r = map_id m
                 /\ String.ltb (created r) (created m) = false.
Proof.
  intros Hnd Hsub Hmax availableMaps'. subst availableMaps'. unfold App.addAvailableMap.
  pose proof (find_map_id (map_id map) availableMaps) as Hfind.
  destruct (List.find _ availableMaps) as [old|] eqn:Ef.
  - destruct Hfind as [Hold Hid].
    destruct (String.ltb (created old) (created map)) eqn:Elt.
    + destruct (replaceMap_spec map availableMaps old Ef) as (R1 & R2 & R3 & R4).
      split; [rewrite R1; exact Hnd |]. split.
      * intros m Hm. apply elem_of_app. destruct (R2 m Hm) as [-> | H].
        -- right. now apply list_elem_of_singleton.
        -- left. now apply Hsub.
      * intros m Hm. apply elem_of_app in Hm as [Hm | Hm].
        -- destruct (Hmax m Hm) as (r & Hr & Hrid & Hrlt).
           destruct (decide (map_id r = map_id map)) as [Heq | Hne].
           ++ assert (r = old) by (apply (NoDup_map_id_eq availableMaps); congruence).
              subst r. exists map. split; [exact R3 |]. split; [congruence |].
              destruct (String.ltb (created map) (created m)) eqn:E; [| reflexivity].
              rewrite (string_ltb_trans _ _ _ Elt E) in Hrlt. discriminate Hrlt.
           ++ exists r. split; [now apply R4 |]. split; [exact Hrid | exact Hrlt].
        -- apply list_elem_of_singleton in Hm. subst m. exists map.
           split; [exact R3 |]. split; [reflexivity | apply string_ltb_irrefl].
    + split; [exact Hnd |]. split.
      * intros m Hm. apply elem_of_app. left. now apply Hsub.
      * intros m Hm. apply elem_of_app in Hm as [Hm | Hm]; [now apply Hmax |].
        apply list_elem_of_singleton in Hm. subst m. exists old.
        split; [exact Hold |]. split; [exact Hid | exact Elt].
  - split.
    + rewrite map_app. apply NoDup_app. split; [exact Hnd |]. split.
      * intros x Hx Hx'. simpl in Hx'. apply list_elem_of_singleton in Hx'. subst x.
        contradiction.
      * apply NoDup_singleton.
    + split.
      * intros m Hm. apply elem_of_app in Hm as [Hm | Hm]; apply elem_of_app;
          [left; now apply Hsub | now right].
      * intros m Hm. apply elem_of_app in Hm as [Hm | Hm].
        -- destruct (Hmax m Hm) as (r & Hr & Hrid & Hrlt). exists r.
           split; [apply elem_of_app; now left |]. split; [exact Hrid | exact Hrlt].
        -- apply list_elem_of_singleton in Hm. subst m. exists map.
           split; [apply elem_of_app; right; now apply list_elem_of_singleton |].
           split; [reflexivity | apply string_ltb_irrefl].
Qed.

Lemma fold_addAvailableMap_spec (mapSources : list MapDescriptor) :
  forall seen availableMaps : list MapDescriptor,
    NoDup (List.map map_id availableMaps) ->
    (forall m, m ∈ availableMaps -> m ∈ seen) ->
    (forall m, m ∈ seen ->
       exists r, r ∈ availableMaps /\ map_id r = map_id m
                 /\ String.ltb (created r) (created m) = false) ->
    let availableMaps' := fold_left App.addAvailableMap mapSources availableMaps in
    NoDup (List.map map_id availableMaps')
    /\ (forall m, m ∈ availableMaps' -> m ∈ seen ++ mapSources)
    /\ forall m, m ∈ seen ++ mapSources ->
         exists r, r ∈ availableMaps' /\ map_id r = map_id m
                   /\ String.ltb (created r) (created m) = false.
Proof.
  induction mapSources as [|map mapSources IH]; intros seen availableMaps Hnd Hsub Hmax.
  - simpl. rewrite app_nil_r. split; [exact Hnd |]. split; [exact Hsub | exact Hmax].
  - destruct (addAvailableMap_spec seen availableMaps map Hnd Hsub Hmax) as (A1 & A2 & A3).
    destruct (IH (seen ++ [map]) _ A1 A2 A3) as (I1 & I2 & I3). simpl.
    replace (seen ++ map :: mapSources) with ((seen ++ [map]) ++ mapSources)
      by (rewrite <- app_assoc; reflexivity).
    split; [exact I1 |]. split; [exact I2 | exact I3].
Qed.

(** X21. Of the maps that a server lists, [#setSourceList] keeps one for
    each [id]: a map of the answer such that no map of that [id] in the
    answer is created after it. The option written for an entry of
    [MAPS_TO_SHOW] has the [uuid] of the map kept for its [id] as value and
    the name of the entry as text, and there is no option when the answer
    has no map of that [id]. *)
Theorem X21_the_latest_map_of_each_id (mapSources : list MapDescriptor)
  (source name id : string) :
  let availableMaps := fold_left App.addAvailableMap mapSources [] in
  NoDup (List.map map_id availableMaps)
  /\ (forall m, m ∈ availableMaps -> m ∈ mapSources)
  /\ (forall m, m ∈ mapSources ->
        exists r, r ∈ availableMaps /\ map_id r = map_id m
                  /\ String.ltb (created r) (created m) = false)
  /\ (id ∉ List.map map_id mapSources -> App.mapOption availableMaps source (name, id) = [])
  /\ (id ∈ List.map map_id mapSources ->
      exists r : MapDescriptor,
        r ∈ mapSources /\ map_id r = id
        /\ (forall m, m ∈ mapSources -> map_id m = id ->
              String.ltb (created r) (created m) = false)
        /\ App.mapOption availableMaps source (name, id)
           = [option_ {| OptionElement.value := uuid r; OptionElement.label := name;
                         OptionElement.selected := String.eqb source (uuid r);
                         OptionElement.display := "" |} name]).
Proof.
  intros availableMaps.
  destruct (fold_addAvailableMap_spec mapSources [] [] (NoDup_nil_2)
              ltac:(intros m Hm; apply elem_of_nil in Hm; contradiction)
              ltac:(intros m Hm; apply elem_of_nil in Hm; contradiction))
    as (H1 & H2 & H3).
  fold availableMaps in H1, H2, H3. rewrite app_nil_l in H2, H3.
  split; [exact H1 |]. split; [exact H2 |]. split; [exact H3 |].
  pose proof (find_map_id id availableMaps) as Hfind. unfold App.mapOption.
  split.
  - intros Hno. destruct (List.find _ availableMaps) as [r|]; [| reflexivity].
    destruct Hfind as [Hr Hid]. exfalso. apply Hno. rewrite <- Hid.
    apply list_elem_of_In, in_map. apply list_elem_of_In. now apply H2.
  - intros Hin. apply list_elem_of_In, in_map_iff in Hin as (m0 & Hid0 & Hm0).
    apply list_elem_of_In in Hm0.
    destruct (List.find _ availableMaps) as [r|].
    + destruct Hfind as [Hr Hid]. exists r. split; [now apply H2 |]. split; [exact Hid |].
      split; [| reflexivity].
      intros m Hm Hmid. destruct (H3 m Hm) as (r' & Hr' & Hrid & Hrlt).
      assert (r' = r) by (apply (NoDup_map_id_eq availableMaps); congruence).
      subst r'. exact Hrlt.
    + exfalso. destruct (H3 m0 Hm0) as (r' & Hr' & Hrid & _). apply Hfind.
      rewrite <- Hid0, <- Hrid. apply list_elem_of_In, in_map. now apply list_elem_of_In.
Qed.

(** The theorem on a server that lists two maps of the rat, the older one
    first. *)
Lemma X21_witness :
  App.mapOption (fold_left App.addAvailableMap example_maps []) "rat-new" ("Rat", "rat-flatmap")
  = [option_ {| OptionElement.value := "rat-new"; OptionElement.label := "Rat";
                OptionElement.selected := true; OptionElement.display := "" |} "Rat"].
Proof.
  destruct (X21_the_latest_map_of_each_id example_maps "rat-new" "Rat" "rat-flatmap")
    as (_ & _ & _ & _ & H).
  destruct (H ltac:(left)) as (r & Hr & Hid & Hmax & Ho).
  rewrite Ho.
  assert (E : r = {| map_id := "rat-flatmap"; uuid := "rat-new"; created := "2024-10-01" |}).
  { apply elem_of_cons in Hr as [-> | Hr].
    - specialize (Hmax {| map_id := "rat-flatmap"; uuid := "rat-new";
                          created := "2024-10-01" |}
                    ltac:(right; left) eq_refl).
      vm_compute in Hmax. discriminate Hmax.
    - apply elem_of_cons in Hr as [-> | Hr]; [reflexivity |].
      apply elem_of_cons in Hr as [-> | Hr]; [discriminate Hid |].
      apply elem_of_nil in Hr. contradiction. }
  rewrite E. reflexivity.
Defined.

(** ** Starting *)

(** A computation that keeps a view, followed by another: either it
    returns, and the other goes on from a state with that view, or it
    throws, and the state left has that view. *)
Lemma bind_keeps_cases {S A B V : Type} (f : S -> V) (m : M S A) (k : A -> M S B) (s : S) :
  keeps f m ->
  (exists a s', f s' = f s /\ bind m k s = k a s')
  \/ (exists e s', f s' = f s /\ bind m k s = (Throws e, s')).
Proof.
  intros K. specialize (K s). unfold bind. destruct (m s) as [[a | e] s']; cbn [snd] in K.
  - left. exists a, s'. split; [exact K | reflexivity].
  - right. exists e, s'. split; [exact K | reflexivity].
Qed.

(** What [run] does once the schema version has passed the check: the
    steps up to the display of the graph keep the controls as they are, and
    the steps that follow cannot throw. *)
Lemma run_compatible (net : Network) (started : App.t) :
  let view := fun a : App.t => (App.handlers a, disabled (App.document a), App.path a) in
  let rest :=
    (App.showSpinner ;;
     App.setSourceList net ;;
     App.setPathList net ;;
     (let* app := get in
      if JS.truthy (App.layout app)
      then App.onDocument (modify (Document.set_layoutSelectorValue (App.layout app)))
      else ret tt) ;;
     (let* app := get in App.showGraph net (App.path app) (App.layout app)) ;;
     App.hideSpinner ;;
     App.enableTools ;;
     (let* app := get in
      if negb (JS.truthy (App.path app)) then App.showPrompt else ret tt) ;;
     modify (App.set_handlers true)) in
  (exists e, fst (rest started) = Throws e /\ view (snd (rest started)) = view started)
  \/ (fst (rest started) = Returns tt
      /\ App.handlers (snd (rest started)) = true
      /\ disabled (App.document (snd (rest started))) = (false, false, false, false, false)
      /\ Document.spinnerDisplay (App.document (snd (rest started))) = "none"
      /\ App.path (snd (rest started)) = App.path started
      /\ (JS.truthy (App.path started) = false ->
          Document.pathPromptDisplay (App.document (snd (rest started))) = "block")).
Proof.
  intros view rest. subst rest.
  assert (Kd : forall d app, disabled d = disabled (App.document app) ->
                 view (App.set_document d app) = view app).
  { intros d app H. subst view. cbn. rewrite H. reflexivity. }
  assert (Ks : forall {A : Type} (m : M Document.t A),
                 keeps disabled m -> keeps view (App.onDocument m)).
  { intros A m. apply (keeps_onDocument view disabled Kd). }
  match goal with |- context [bind ?m ?k started] =>
    destruct (bind_keeps_cases view m k started) as [([] & s1 & V1 & ->) | (e & s' & V & ->)]
  end.
  { apply (keeps_showSpinner view disabled Kd); reflexivity. }
  2: { left. exists e. split; [reflexivity | exact V]. }
  match goal with |- context [bind ?m ?k s1] =>
    destruct (bind_keeps_cases view m k s1) as [([] & s2 & V2 & ->) | (e & s' & V & ->)]
  end.
  { apply (keeps_setSourceList view disabled net Kd); reflexivity. }
  2: { left. exists e. split; [reflexivity | cbn [snd]; congruence]. }
  match goal with |- context [bind ?m ?k s2] =>
    destruct (bind_keeps_cases view m k s2) as [([] & s3 & V3 & ->) | (e & s' & V & ->)]
  end.
  { apply (keeps_setPathList view disabled Kd); reflexivity. }
  2: { left. exists e. split; [reflexivity | cbn [snd]; congruence]. }
  match goal with |- context [bind ?m ?k s3] =>
    destruct (bind_keeps_cases view m k s3) as [([] & s4 & V4 & ->) | (e & s' & V & ->)]
  end.
  { repeat (keeps_step || (apply Ks; keeps_step; reflexivity)). }
  2: { left. exists e. split; [reflexivity | cbn [snd]; congruence]. }
  match goal with |- context [bind ?m ?k s4] =>
    destruct (bind_keeps_cases view m k s4) as [([] & s5 & V5 & ->) | (e & s' & V & ->)]
  end.
  { keeps_step; [apply keeps_get |].
    apply (keeps_showGraph view disabled Kd); reflexivity. }
  2: { left. exists e. split; [reflexivity | cbn [snd]; congruence]. }
  right.
  assert (V : view s5 = view started) by congruence.
  assert (Vp : App.path s5 = App.path started) by (apply (f_equal snd) in V; exact V).
  clear - Vp.
  cbv beta iota zeta delta [App.hideSpinner App.enableTools App.onDocument bind get modify].
  cbn [fst snd App.path App.set_document App.document].
  rewrite Vp. destruct (JS.truthy (App.path started)); cbn;
    repeat split; try exact Vp; intros; try discriminate; reflexivity.
Qed.

(** X22. [run] ends in one of three ways. When the schema version is
    below the minimum it returns with the no-server message shown, the five
    controls disabled and no handler set. Otherwise, when one of its steps
    throws, [run] throws, and the controls are still disabled and no handler
    is set. Otherwise it returns with the handlers set, the five controls
    enabled and the spinner hidden, and with the prompt shown when no path
    is selected. *)
Theorem X22_run_enables_the_controls_at_the_end (net : Network) (app : App.t) :
  App.handlers app = false ->
  let started := snd (App.setServerList (snd (App.disableTools app))) in
  let result := App.run net app in
  let app' := snd result in
  exists n : number,
    App.getSchemaVersion net started = (Returns n, started)
    /\ (lessThan n App.MIN_SCHEMA_VERSION = true ->
        fst result = Returns tt
        /\ Document.noServerDisplay (App.document app') = "block"
        /\ App.handlers app' = false
        /\ disabled (App.document app') = (true, true, true, true, true))
    /\ (lessThan n App.MIN_SCHEMA_VERSION = false ->
        (exists e, fst result = Throws e
                   /\ App.handlers app' = false
                   /\ disabled (App.document app') = (true, true, true, true, true))
        \/ (fst result = Returns tt
            /\ App.handlers app' = true
            /\ disabled (App.document app') = (false, false, false, false, false)
            /\ Document.spinnerDisplay (App.document app') = "none"
            /\ (JS.truthy (App.path app) = false ->
                Document.pathPromptDisplay (App.document app') = "block"))).
Proof.
  intros Hh started result app'.
  assert (Hd : App.disableTools app = (Returns tt, snd (App.disableTools app)))
    by reflexivity.
  assert (Hs : App.setServerList (snd (App.disableTools app)) = (Returns tt, started)
               /\ App.handlers started = false
               /\ disabled (App.document started) = (true, true, true, true, true)
               /\ App.path started = App.path app).
  { subst started. unfold App.setServerList. cbv beta iota zeta delta [bind get].
    destruct (App.serverList App.MAP_ENDPOINTS (App.mapServer (snd (App.disableTools app))))
      as [os sv]. cbn. repeat split. exact Hh. }
  destruct Hs as (Hs & Hsh & Hsd & Hsp).
  pose proof (getSchemaVersion_returns net started) as Hn.
  eexists. split; [exact Hn |].
  set (n := match fetch_schema_version net _ with resolved _ (jsonValue _) => _ | _ => zero end)
    in *.
  split.
  - intros Hlt. subst app' result.
    rewrite (run_incompatible net app n Hn Hlt). cbn [fst snd App.document App.set_document].
    split; [reflexivity |]. split; [reflexivity |]. split; [exact Hsh |].
    rewrite <- Hsd. reflexivity.
  - intros Hge.
    assert (E : result
                = (App.showSpinner ;;
                   App.setSourceList net ;;
                   App.setPathList net ;;
                   (let* app := get in
                    if JS.truthy (App.layout app)
                    then App.onDocument
                           (modify (Document.set_layoutSelectorValue (App.layout app)))
                    else ret tt) ;;
                   (let* app := get in App.showGraph net (App.path app) (App.layout app)) ;;
                   App.hideSpinner ;;
                   App.enableTools ;;
                   (let* app := get in
                    if negb (JS.truthy (App.path app)) then App.showPrompt else ret tt) ;;
                   modify (App.set_handlers true)) started).
    { subst result. unfold App.run.
      rewrite (bind_returns _ _ _ _ _ Hd), (bind_returns _ _ _ _ _ Hs),
        (bind_returns _ _ _ _ _ Hn), Hge. reflexivity. }
    subst app'. rewrite E.
    destruct (run_compatible net started) as [(e & He & Hv) | (Hr & H1 & H2 & H3 & H4 & H5)].
    + left. exists e. split; [exact He |]. cbv beta in Hv.
      pose proof (f_equal (fun x => fst (fst x)) Hv) as Hv1.
      pose proof (f_equal (fun x => snd (fst x)) Hv) as Hv2.
      cbn [fst snd] in Hv1, Hv2. split; [congruence |]. rewrite Hv2. exact Hsd.
    + right. split; [exact Hr |]. split; [exact H1 |]. split; [exact H2 |].
      split; [exact H3 |]. intros Hp. apply H5. rewrite Hsp. exact Hp.
Qed.

(** The theorem on the page opened on a release and a path of it. *)
Lemma X22_witness :
  let app' := snd (App.run example_origin_network example_origin_app) in
  App.handlers app' = true
  /\ disabled (App.document app') = (false, false, false, false, false)
  /\ Document.spinnerDisplay (App.document app') = "none".
Proof.
  destruct (X22_run_enables_the_controls_at_the_end example_origin_network
              example_origin_app eq_refl) as (n & Hn & _ & Hge).
  assert (En : lessThan n App.MIN_SCHEMA_VERSION = false).
  { vm_compute in Hn. injection Hn as <-. reflexivity. }
  destruct (Hge En) as [(e & He & _) | (_ & H1 & H2 & H3 & _)].
  - vm_compute in He. discriminate He.
  - cbv zeta. split; [exact H1 |]. split; [exact H2 | exact H3].
Defined.

(** ** The switch to a release *)

(** The keys of the paths stored on a release when [#setPathList] has
    returned are keys of the rows that the query of the paths got. *)
Lemma setPathList_release_keys (net : Network) (app app' : App.t) :
  App.sourceFromMap app = false ->
  App.setPathList net app = (Returns tt, app') ->
  forall key : string,
    is_Some (App.knowledgeByPath app' !! key) ->
    key ∈ map fst (rowsOf (fetch_query net (App.mapServer app +:+ "knowledge/query/")
                             App.sqlPaths [App.source app])).
Proof.
  intros Hm H key Hkey. unfold App.setPathList in H. rewrite !bind_modify, bind_get in H.
  cbn [App.sourceFromMap App.set_labelledTerms App.set_knowledgeByPath] in H. rewrite Hm in H.
  apply bind_returns_inv in H as (data & a3 & H3 & H).
  unfold App.setPathsFromSCKAN, App.query in H3. rewrite bind_get, bind_assoc, bind_get in H3.
  cbn [App.mapServer App.source App.set_labelledTerms App.set_knowledgeByPath] in H3.
  assert (Hrows : exists rows,
            App.addPathsFromSCKAN rows
              (App.set_labelledTerms [] (App.set_knowledgeByPath ∅ app)) = (Returns data, a3)
            /\ rows = rowsOf (fetch_query net (App.mapServer app +:+ "knowledge/query/")
                               App.sqlPaths [App.source app])).
  { unfold rowsOf.
    destruct (fetch_query net _ _ _) as [|[] [| |dv]];
      rewrite bind_ret in H3; cbv beta iota zeta delta [ConnectivityGraph.defined] in H3;
      try (rewrite bind_ret in H3; eexists; split; [exact H3 | reflexivity]).
    discriminate H3. }
  destruct Hrows as (rows & Hadd & <-).
  destruct (addPathsFromSCKAN_returns _ _ _ _ Hadd) as (_ & _ & He & Hk).
  rewrite bind_get in H.
  apply bind_returns_inv in H as ([] & a4 & H4 & H).
  pose proof (keeps_getCachedTermLabels App.knowledgeByPath
                ltac:(intros; reflexivity) net a3) as K4.
  rewrite H4 in K4. cbn [snd] in K4.
  cbv beta iota zeta delta [App.onDocument modify] in H. injection H as <-.
  cbn [App.knowledgeByPath App.set_document] in Hkey. rewrite K4 in Hkey.
  apply Hk in Hkey as [Hkey | Hkey].
  - cbn in Hkey. rewrite lookup_empty in Hkey. destruct Hkey as [x Hx]. discriminate Hx.
  - apply list_elem_of_In, in_map_iff in Hkey as (entry & <- & Hentry).
    apply list_elem_of_In in Hentry. destruct (He entry Hentry) as (k & Hk' & _).
    apply list_elem_of_In, in_map_iff. exists (fst entry, jsonValue k).
    split; [reflexivity | now apply list_elem_of_In].
Qed.

(** What [#showGraph] leaves when it throws on a release for a path that
    the release does not hold. *)
Lemma showGraph_missing_path_state (net : Network) (neuronPath layout : string)
  (app : App.t) :
  JS.truthy (App.path app) = true ->
  App.sourceFromMap app = false ->
  App.knowledgeByPath app !! App.path app = None ->
  App.showGraph net neuronPath layout app
  = (Throws (TypeError "Cannot read properties of undefined, reading axons"),
     App.set_connectivityGraph (Some (ConnectivityGraph.new (App.labelCache app)))
       (snd (App.showSpinner app))).
Proof.
  intros Ht Hm Hk. unfold App.showGraph. rewrite bind_get, Ht.
  rewrite (bind_returns _ _ _ _ _
             (eq_refl : App.showSpinner app = (Returns tt, snd (App.showSpinner app)))).
  rewrite Hm, Hk. reflexivity.
Qed.

(** X23. A switch to a release that does not hold the selected path does
    not complete. For a value that starts with [sckan], when a path is
    selected and the rows that the query of the paths of the release gets
    do not hold it, the handler of the source selector throws. The origin
    is the new one by then, but the address is left as it was, no graph is
    shown, and the spinner stays displayed. *)
Theorem X23_release_without_the_selected_path (net : Network) (value : string)
  (app : App.t) :
  JS.truthy value = true ->
  JS.startsWith value "sckan" = true ->
  JS.truthy (App.path app) = true ->
  App.path app
  ∉ map fst (rowsOf (fetch_query net (App.mapServer app +:+ "knowledge/query/")
                       App.sqlPaths [value])) ->
  let result := App.sourceSelector_onchange net value app in
  let app' := snd result in
  (exists e : error, fst result = Throws e)
  /\ Document.spinnerDisplay (App.document app') = "block"
  /\ address (App.document app') = address (App.document app)
  /\ Document.engineCalls (App.document app') = Document.engineCalls (App.document app)
  /\ App.source app' = value
  /\ App.sourceFromMap app' = false
  /\ App.path app' = App.path app.
Proof.
  intros Hv Hs Ht Hno result app'. subst app' result.
  unfold App.sourceSelector_onchange.
  rewrite (bind_returns _ _ _ _ _
             (eq_refl : App.showSpinner app = (Returns tt, snd (App.showSpinner app)))).
  rewrite Hv, Hs, bind_modify, !bind_assoc, bind_modify, !bind_assoc.
  set (a0 := App.set_sourceFromMap false (App.set_source value (snd (App.showSpinner app)))).
  set (view := fun a : App.t =>
                 (Document.spinnerDisplay (App.document a), address (App.document a),
                  Document.engineCalls (App.document a), App.source a, App.sourceFromMap a,
                  App.path a, App.mapServer a)).
  assert (V0 : view a0
               = ("block", address (App.document app), Document.engineCalls (App.document app),
                  value, false, App.path app, App.mapServer app)) by reflexivity.
  pose proof (keeps_setPathList view
                (fun d => (Document.spinnerDisplay d, address d, Document.engineCalls d))
                ltac:(intros d x H; subst view; cbn in *; congruence)
                ltac:(reflexivity) ltac:(reflexivity) ltac:(reflexivity) ltac:(reflexivity)
                net a0) as K1.
  destruct (App.setPathList net a0) as [[[] | e] a1] eqn:E1; cbn [snd] in K1.
  - rewrite (bind_returns _ _ _ _ _ E1).
    assert (V1 : view a1 = view a0) by exact K1. rewrite V0 in V1.
    subst view. cbv beta in V1.
    assert (Hp : App.path a1 = App.path app) by congruence.
    assert (Hm : App.sourceFromMap a1 = false) by congruence.
    assert (Hk : App.knowledgeByPath a1 !! App.path a1 = None).
    { destruct (App.knowledgeByPath a1 !! App.path a1) eqn:Ek; [| reflexivity].
      exfalso. apply Hno. rewrite <- Hp.
      apply (setPathList_release_keys net a0 a1 eq_refl E1). rewrite Ek. eauto. }
    rewrite !bind_assoc, bind_get.
    rewrite (bind_throws _ _ _ _ _
               (showGraph_missing_path_state net _ _ a1 ltac:(rewrite Hp; exact Ht) Hm Hk)).
    cbn [fst snd].
    injection V1 as V1s V1a V1h V1e V1so V1m V1p _.
    split; [eauto |]. split; [reflexivity |].
    split; [transitivity (address (App.document a1));
            [reflexivity | unfold address; rewrite V1a, V1h; reflexivity] |].
    split; [transitivity (Document.engineCalls (App.document a1)); [reflexivity | exact V1e] |].
    split; [exact V1so |]. split; [exact V1m | exact V1p].
  - rewrite (bind_throws _ _ _ _ _ E1). cbn [fst snd].
    assert (V1 : view a1 = view a0) by exact K1. rewrite V0 in V1.
    subst view. cbv beta in V1. injection V1 as V1s V1a V1h V1e V1so V1m V1p _.
    split; [eauto |]. split; [exact V1s |].
    split; [unfold address; rewrite V1a, V1h; reflexivity |].
    split; [exact V1e |]. split; [exact V1so |].
    split; [exact V1m | exact V1p].
Qed.

(** The theorem on the page set on a path of the map, when the origin is
    switched to the release, which holds another path only. *)
Lemma X23_witness :
  let result :=
    App.sourceSelector_onchange example_origin_network "sckan-2024-09-21" example_second_app in
  (exists e : error, fst result = Throws e)
  /\ Document.spinnerDisplay (App.document (snd result)) = "block"
  /\ Document.searchParams (App.document (snd result))
     = [("source", "sckan-2024-09-21"); ("path", "ilxtr:neuron-2")].
Proof.
  assert (Hno : App.path example_second_app
                ∉ map fst (rowsOf (fetch_query example_origin_network
                                     (App.mapServer example_second_app +:+ "knowledge/query/")
                                     App.sqlPaths ["sckan-2024-09-21"]))).
  { intros H. vm_compute in H. apply list_elem_of_singleton in H. discriminate H. }
  destruct (X23_release_without_the_selected_path example_origin_network "sckan-2024-09-21"
              example_second_app eq_refl eq_refl eq_refl Hno)
    as (He & Hs & _).
  cbv zeta. split; [exact He |]. split; [exact Hs | vm_compute; reflexivity].
Defined.

(** ** The list of origins *)

Lemma releaseOptions_truthy (sources : list string) (source : string) :
  JS.truthy source = true ->
  App.releaseOptions sources source
  = (map (releaseOption source) (List.filter JS.truthy sources), source).
Proof.
  intros H. induction sources as [|s sources IH]; [reflexivity |].
  cbn [App.releaseOptions List.filter]. destruct (JS.truthy s); [| exact IH].
  rewrite H, IH. reflexivity.
Qed.

Lemma releaseOptions_chosen (sources : list string) (source : string) :
  App.releaseOptions sources source
  = (map (releaseOption (chosenSource source sources)) (List.filter JS.truthy sources),
     chosenSource source sources).
Proof.
  unfold chosenSource. destruct (JS.truthy source) eqn:E.
  - now apply releaseOptions_truthy.
  - induction sources as [|s sources IH]; [reflexivity |].
    cbn [App.releaseOptions List.filter]. destruct (JS.truthy s) eqn:Es; [| exact IH].
    rewrite E, releaseOptions_truthy by exact Es. reflexivity.
Qed.

(** X24. [#setSourceList] leaves as origin the one given when there is
    one, and otherwise the first release of the list that is not empty,
    whether it returns or throws. It throws a [TypeError] exactly when the
    list of maps of the server is the JSON [null], and the source selector
    is then left as it was. When it returns, the source selector holds the
    group of the releases, one option for each release that is not empty,
    in the order of the list, selected exactly when it is the origin, and
    then the group of the maps. *)
Theorem X24_setSourceList_chooses_an_origin (net : Network) (app : App.t) :
  let result := App.setSourceList net app in
  let app' := snd result in
  let releases := sourcesOf (fetch_sources net (App.mapServer app +:+ "knowledge/sources")) in
  let source := chosenSource (App.source app) releases in
  App.source app' = source
  /\ (fetch_maps net (App.mapServer app) = resolved true jsonNull ->
      (exists message : string, fst result = Throws (TypeError message))
      /\ Document.sourceOptions (App.document app')
         = Document.sourceOptions (App.document app))
  /\ (fetch_maps net (App.mapServer app) <> resolved true jsonNull ->
      fst result = Returns tt
      /\ exists maps : list SourceItem,
           Document.sourceOptions (App.document app')
           = [optgroup "SCKAN Release:"]
             ++ map (releaseOption source) (List.filter JS.truthy releases)
             ++ [optgroup_end] ++ [optgroup "MAP:"] ++ maps ++ [optgroup_end]
           /\ (length maps <= length App.MAPS_TO_SHOW)%nat).
Proof.
  intros result app' releases source. subst app' result.
  unfold App.setSourceList. rewrite bind_get.
  assert (Es : forall k : option SourceList -> M App.t unit,
            bind (App.getJsonData
                    (fetch_sources net (App.mapServer app +:+ "knowledge/sources"))) k app
            = k (match fetch_sources net (App.mapServer app +:+ "knowledge/sources") with
                 | resolved _ (jsonValue v) => Some v
                 | _ => None
                 end) app).
  { intros k. unfold App.getJsonData.
    destruct (fetch_sources net _) as [|ok [| |v]]; reflexivity. }
  rewrite Es. clear Es.
  assert (Er : match
                 match fetch_sources net (App.mapServer app +:+ "knowledge/sources") with
                 | resolved _ (jsonValue v) => Some v
                 | _ => None
                 end
               with
               | Some data => match sources data with Some s => s | None => [] end
               | None => []
               end = releases).
  { subst releases. unfold sourcesOf.
    destruct (fetch_sources net _) as [|ok [| |[[s|]]]]; reflexivity. }
  rewrite Er, releaseOptions_chosen. fold source.
  rewrite bind_modify. unfold App.getAvailableMaps. rewrite bind_assoc, bind_get.
  cbn [App.mapServer App.set_source].
  destruct (fetch_maps net (App.mapServer app)) as [|[] [| |v]] eqn:Em;
    (split; [reflexivity |]); (split; [intros H; try discriminate H |
                                        intros H; try congruence]);
    try (split; [eexists; reflexivity | reflexivity]);
    (split; [reflexivity |]); eexists; (split; [reflexivity |]).
  all: unfold App.MAPS_TO_SHOW; cbn [flat_map length];
    repeat match goal with
           | |- context [App.mapOption ?a ?s ?m] =>
               let H := fresh "L" in
               assert (H : (length (App.mapOption a s m) <= 1)%nat)
                 by (unfold App.mapOption; destruct (List.find _ a); simpl; lia);
               generalize dependent (App.mapOption a s m); intros
           end;
    rewrite ?length_app; simpl; lia.
Qed.

(** The theorem on the page opened on a release. *)
Lemma X24_witness :
  let result := App.setSourceList example_origin_network example_origin_app in
  fst result = Returns tt
  /\ App.source (snd result) = "sckan-2024-09-21".
Proof.
  destruct (X24_setSourceList_chooses_an_origin example_origin_network example_origin_app)
    as (Hs & _ & H).
  destruct (H ltac:(discriminate)) as (Hr & _).
  cbv zeta. split; [exact Hr | exact Hs].
Defined.

(** ** Choosing a path of a release *)

(** X25. On a release, choosing a path whose knowledge is stored with its
    three arrays completes: the handler of the path selector returns, the
    path is the selected and the current one, the address holds it under
    [path], the prompt and the spinner are hidden, and the graph shown is
    the one that [addConnectivity] builds from the stored knowledge with
    the label cache, which is left as it is: the sentinel node alone when
    the path has no edge, and otherwise two nodes and one edge for each
    edge. *)
Theorem X25_choosing_a_path_of_a_release (net : Network) (value : string) (app : App.t)
  (k : Knowledge.t) (conn : list KnowledgeEdge) (ax den : list KnowledgeNode) :
  JS.truthy value = true ->
  App.sourceFromMap app = false ->
  App.knowledgeByPath app !! value = Some k ->
  ConnectivityKnowledge.connectivity (Knowledge.connectivity k) = Some conn ->
  ConnectivityKnowledge.axons (Knowledge.connectivity k) = Some ax ->
  ConnectivityKnowledge.dendrites (Knowledge.connectivity k) = Some den ->
  let result := App.pathSelector_onchange net value app in
  let app' := snd result in
  let built :=
    snd (ConnectivityGraph.addConnectivity (Some (Knowledge.connectivity k))
           (ConnectivityGraph.new (App.labelCache app))) in
  fst result = Returns tt
  /\ App.path app' = value
  /\ App.currentPath app' = value
  /\ searchParams_get "path" (Document.searchParams (App.document app')) = Some value
  /\ Document.pathPromptDisplay (App.document app') = "none"
  /\ Document.spinnerDisplay (App.document app') = "none"
  /\ App.labelCache app' = App.labelCache app
  /\ (exists c : CytoscapeGraph.t,
        App.connectivityGraph app' = Some (ConnectivityGraph.set_cy (Some c) built)
        /\ Document.engineCalls (App.document app')
           = Document.engineCalls (App.document app)
             ++ [cytoscape_new (ConnectivityGraph.elements built)
                   (CytoscapeGraph.layoutOption (App.layout app)
                      (map stringifyNode den
                       ++ map stringifyNode
                            (roleSet (ConnectivityKnowledge.somas (Knowledge.connectivity k)))))])
  /\ length (ConnectivityGraph.nodes built)
     = match conn with [] => 1%nat | _ => (2 * length conn)%nat end
  /\ length (ConnectivityGraph.edges built) = length conn.
Proof.
  intros Hv Hm Hk Hc Ha Hd result app' built.
  pose proof (addConnectivity_built (App.labelCache app) (Knowledge.connectivity k)
                conn ax den Hc Ha Hd) as Hb. cbv zeta in Hb.
  assert (Eb : ConnectivityGraph.addConnectivity (Some (Knowledge.connectivity k))
                 (ConnectivityGraph.new (App.labelCache app)) = (Returns tt, built)).
  { subst built. rewrite Hb. reflexivity. }
  assert (Edn : ConnectivityGraph.dendrites built = Some (map stringifyNode den)
                /\ ConnectivityGraph.somas built
                   = map stringifyNode
                       (roleSet (ConnectivityKnowledge.somas (Knowledge.connectivity k)))
                /\ ConnectivityGraph.nodes built
                   = match conn with
                     | [] => [ConnectivityGraph.MISSING]
                     | _ => flat_map
                              (fun e =>
                                 [builtNode (App.labelCache app) (map stringifyNode ax)
                                    (map stringifyNode den)
                                    (map stringifyNode
                                       (roleSet (ConnectivityKnowledge.somas
                                                   (Knowledge.connectivity k)))) (fst e);
                                  builtNode (App.labelCache app) (map stringifyNode ax)
                                    (map stringifyNode den)
                                    (map stringifyNode
                                       (roleSet (ConnectivityKnowledge.somas
                                                   (Knowledge.connectivity k)))) (snd e)]) conn
                     end
                /\ ConnectivityGraph.edges built = map builtEdge conn).
  { subst built. rewrite Hb. repeat split. }
  destruct Edn as (Eden & Esom & Enodes & Eedges).
  eassert (E : result = (Returns tt, _)).
  { subst result. unfold App.pathSelector_onchange. rewrite Hv.
    rewrite (bind_returns _ _ _ _ _
               (eq_refl : App.showSpinner app = (Returns tt, snd (App.showSpinner app)))).
    rewrite bind_assoc, bind_modify, bind_assoc, bind_assoc, bind_get.
    set (a1 := App.set_path value (snd (App.showSpinner app))).
    change (App.path a1) with value.
    unfold App.showGraph. rewrite bind_assoc, bind_get.
    change (App.path a1) with value. rewrite Hv.
    rewrite bind_assoc.
    rewrite (bind_returns _ _ _ _ _
               (eq_refl : App.showSpinner a1 = (Returns tt, snd (App.showSpinner a1)))).
    change (App.sourceFromMap a1) with (App.sourceFromMap app).
    change (App.knowledgeByPath a1) with (App.knowledgeByPath app).
    rewrite Hm, Hk, !bind_assoc, bind_ret, bind_assoc, bind_get, bind_assoc, bind_modify.
    rewrite bind_assoc.
    set (a2 := App.set_connectivityGraph _ (snd (App.showSpinner a1))).
    assert (Eg : App.onGraph
                   (ConnectivityGraph.addConnectivity (Knowledge.connectivity <$> Some k)) a2
                 = (Returns tt, App.set_connectivityGraph (Some built) a2)).
    { unfold App.onGraph. subst a2. cbn [App.connectivityGraph App.set_connectivityGraph].
      change (App.labelCache (snd (App.showSpinner a1))) with (App.labelCache app).
      change (Knowledge.connectivity <$> Some k) with (Some (Knowledge.connectivity k)).
      rewrite Eb. reflexivity. }
    rewrite (bind_returns _ _ _ _ _ Eg).
    set (a3 := App.set_connectivityGraph (Some built) a2).
    rewrite bind_assoc.
    rewrite (bind_returns _ _ _ _ _
               (eq_refl : App.hideSpinner a3 = (Returns tt, snd (App.hideSpinner a3)))).
    rewrite bind_assoc.
    set (a4 := snd (App.hideSpinner a3)).
    rewrite (bind_returns _ _ _ _ _
               (eq_refl : App.hidePrompt a4 = (Returns tt, snd (App.hidePrompt a4)))).
    set (a5 := snd (App.hidePrompt a4)).
    rewrite !bind_assoc, bind_get.
    change (App.connectivityGraph a5) with (Some built).
    cbv beta iota zeta delta [ConnectivityGraph.defined]. rewrite !bind_assoc, bind_ret.
    rewrite bind_assoc.
    assert (Es : App.onDocument (ConnectivityGraph.showConnectivity (App.layout a5) built) a5
                 = (Returns
                      (ConnectivityGraph.set_cy
                         (Some {| CytoscapeGraph.cy_elements := ConnectivityGraph.elements built;
                                  CytoscapeGraph.cy_layout :=
                                    CytoscapeGraph.layoutOption (App.layout app)
                                      (map stringifyNode den ++ ConnectivityGraph.somas built);
                                  CytoscapeGraph.tooltip_hidden := true |})
                         built),
                    App.set_document
                      (Document.appendTooltip
                         (Document.callEngine
                            (cytoscape_new (ConnectivityGraph.elements built)
                               (CytoscapeGraph.layoutOption (App.layout app)
                                  (map stringifyNode den ++ ConnectivityGraph.somas built)))
                            (App.document a5)))
                      a5)).
    { unfold App.onDocument, ConnectivityGraph.showConnectivity, ConnectivityGraph.roots.
      rewrite Eden. reflexivity. }
    rewrite (bind_returns _ _ _ _ _ Es).
    rewrite bind_assoc, bind_modify, bind_assoc, bind_get, bind_modify.
    cbv beta iota zeta delta [App.updateURL App.hideSpinner App.onDocument bind get modify].
    subst a5 a4 a3 a2 a1. reflexivity. }
  subst app'. rewrite E. cbn [fst snd].
  split; [reflexivity |]. split; [reflexivity |]. split; [reflexivity |].
  split; [apply searchParams_get_set |].
  split; [reflexivity |]. split; [reflexivity |]. split; [reflexivity |].
  split.
  - eexists. split; [reflexivity |]. cbn. rewrite Esom. reflexivity.
  - rewrite Enodes, Eedges, length_map. split; [| reflexivity].
    destruct conn as [|e conn]; [reflexivity |].
    unfold KnowledgeEdge in *. apply flat_map_pair_length.
Qed.

(** The theorem on the page opened on a release and a path of it, when the
    path is chosen again after [run]. *)
Lemma X25_witness :
  let started := snd (App.run example_origin_network example_origin_app) in
  let result := App.pathSelector_onchange example_origin_network "ilxtr:neuron-1" started in
  fst result = Returns tt
  /\ App.currentPath (snd result) = "ilxtr:neuron-1"
  /\ length (Document.engineCalls (App.document (snd result))) = 2%nat.
Proof.
  destruct (X25_choosing_a_path_of_a_release example_origin_network "ilxtr:neuron-1"
              (snd (App.run example_origin_network example_origin_app))
              {| Knowledge.label := Some "neuron 1"; Knowledge.connectivity := example_knowledge |}
              [(("A", []), ("B", ["C"]))] [("A", [])] [("A", [])]
              eq_refl ltac:(vm_compute; reflexivity) ltac:(vm_compute; reflexivity)
              eq_refl eq_refl eq_refl)
    as (Hr & _ & Hc & _ & _ & _ & _ & (c & _ & He) & _).
  cbv zeta. split; [exact Hr |]. split; [exact Hc |].
  rewrite He, length_app. vm_compute. reflexivity.
Defined.

(** ** The answer of a map without connectivity *)

(** X26. On a map, when the connectivity of the selected path is answered
    by the JSON [null], or by an object that has no [connectivity],
    [#showGraph] throws a [TypeError] before it builds anything: the answer
    is kept in [#connectivityFromMap], the graph, the current path and the
    calls to the engine are left as they were, and the spinner stays
    displayed. *)
Theorem X26_map_answer_without_connectivity (net : Network) (neuronPath layout : string)
  (app : App.t) (answer : option ConnectivityKnowledge.t) :
  JS.truthy (App.path app) = true ->
  App.sourceFromMap app = true ->
  fetch_connectivity net
    (App.mapServer app +:+ "flatmap/" +:+ App.source app +:+ "/connectivity/" +:+ App.path app)
  = resolved true (match answer with Some v => jsonValue v | None => jsonNull end) ->
  match answer with
  | Some v => ConnectivityKnowledge.connectivity v = None
  | None => True
  end ->
  let result := App.showGraph net neuronPath layout app in
  let app' := snd result in
  (exists message : string, fst result = Throws (TypeError message))
  /\ App.connectivityFromMap app' = answer
  /\ App.connectivityGraph app' = App.connectivityGraph app
  /\ App.currentPath app' = App.currentPath app
  /\ Document.engineCalls (App.document app') = Document.engineCalls (App.document app)
  /\ Document.spinnerDisplay (App.document app') = "block".
Proof.
  intros Ht Hm Hf Ha result app'. subst app' result.
  unfold App.showGraph. rewrite bind_get, Ht.
  rewrite (bind_returns _ _ _ _ _
             (eq_refl : App.showSpinner app = (Returns tt, snd (App.showSpinner app)))).
  rewrite Hm. unfold App.fetchMapConnectivity. rewrite !bind_assoc, bind_get.
  change (App.mapServer (snd (App.showSpinner app))) with (App.mapServer app).
  rewrite Hf. destruct answer as [v|].
  - rewrite bind_ret, !bind_assoc, bind_modify.
    cbv beta iota zeta delta [ConnectivityGraph.defined].
    rewrite !bind_assoc, bind_ret, Ha. cbn. repeat split. eauto.
  - rewrite bind_ret, !bind_assoc, bind_modify. cbn. repeat split. eauto.
Qed.

(** The theorem on a map that answers [null]. *)
Lemma X26_witness :
  let app := App.set_sourceFromMap true (App.set_source "rat-uuid" example_second_app) in
  let result := App.showGraph example_null_network "" "" app in
  (exists message : string, fst result = Throws (TypeError message))
  /\ App.connectivityFromMap (snd result) = None
  /\ Document.spinnerDisplay (App.document (snd result)) = "block".
Proof.
  destruct (X26_map_answer_without_connectivity example_null_network "" ""
              (App.set_sourceFromMap true (App.set_source "rat-uuid" example_second_app))
              None eq_refl eq_refl eq_refl I)
    as (He & Hc & _ & _ & _ & Hs).
  cbv zeta. split; [exact He |]. split; [exact Hc | exact Hs].
Defined.
